(** * Render-state cache and shader program manager of SFML (OpenGL ES 2 port)

    A shallow embedding of [src/SFML/Graphics/RenderTarget.cpp] and
    [src/SFML/Graphics/Shader.cpp].  The graphics driver, the error stream and
    the process-wide statics are made explicit: every operation takes the
    [World] it runs in and returns the [World] it leaves.  OpenGL calls are
    recorded in order in [calls], lines written to [sf::err()] in [err].

    Both build configurations of the sources are embedded; the preprocessor
    symbols that select between them are fields of [Env]. *)

From Stdlib Require Import ZArith QArith Qround Qpower Qabs String Ascii List Lia.
From stdpp Require Import gmap strings list fin_maps sorting.

Local Open Scope string_scope.
Local Open Scope Z_scope.

(** ** Scalar types *)

(** A [float] is the rational number it denotes.  The result of every
    arithmetic operation on [float]s is rounded to single precision by
    [binary32] below; infinities and NaN are outside the model. *)
Abbreviation float := Q (only parsing).
Abbreviation GLint := Z (only parsing).
Abbreviation GLhandle := N (only parsing).
Abbreviation Uint64 := N (only parsing).

Definition Uint64_modulus : N := (2 ^ 64)%N.
Definition size_t_modulus : Z := 2 ^ 64.

(** [static_cast<std::size_t>(GLint)]: reduction modulo [2^64]. *)
Definition static_cast_size_t (z : Z) : Z := z mod size_t_modulus.

(** [static_cast<GLint>(std::size_t)] and [static_cast<GLsizei>(std::size_t)]:
    the low 32 bits, read as a signed number. *)
Definition static_cast_GLint (n : nat) : Z :=
  ((Z.of_nat n + 2 ^ 31) mod 2 ^ 32) - 2 ^ 31.

(** *** Single-precision arithmetic

    IEEE 754 binary32 with the default rounding mode: a result is rounded to
    the nearest number [n * 2^e] with [|n| <= 2^24] and [e >= -149], a tie
    going to the even [n].  Results too large for a [float] (infinities) are
    outside the model and are returned as if the exponent were unbounded.
    Each operation of the sources is rounded on its own, as the expressions
    are written ([FLT_EVAL_METHOD] 0, a product and a sum not contracted
    into one fused operation). *)

(** The nearest integer, a tie going to the even one. *)
Definition round_half_even (x : Q) : Z :=
  let f := Qfloor x in
  match (x - inject_Z f ?= 1 # 2)%Q with
  | Lt => f
  | Gt => f + 1
  | Eq => if Z.even f then f else f + 1
  end.

(** The exponent of the highest bit of a positive rational: the floor of its
    binary logarithm. *)
Definition ilog2 (a : Q) : Z :=
  let k := Z.log2 (Qnum a) - Z.log2 (Zpos (Qden a)) in
  if Qle_bool (2 ^ k) a then k else k - 1.

Definition binary32 (x : Q) : float :=
  let x := Qred x in
  if Qeq_bool x 0 then 0%Q
  else
    (* the exponent of the last place: 24 significant bits, subnormal below 2^-126 *)
    let e := Z.max (ilog2 (Qabs x) - 23) (-149) in
    (inject_Z (round_half_even (x / 2 ^ e)) * 2 ^ e)%Q.

Definition fadd (x y : float) : float := binary32 (x + y).
Definition fmul (x y : float) : float := binary32 (x * y).
Definition fdiv (x y : float) : float := binary32 (x / y).

(** [static_cast<int>(float)]: the fractional part is discarded (truncation
    toward zero).  The conversion of a value whose truncation is outside the
    range of [int] is undefined in C++; [int_representable] is its
    precondition, and outside it the number is returned unreduced here. *)
Definition static_cast_int (x : float) : Z := Z.quot (Qnum x) (Zpos (Qden x)).

Definition int_representable (x : float) : Prop :=
  - 2 ^ 31 <= static_cast_int x < 2 ^ 31.

(** [static_cast<float>(unsigned int)]: the nearest [float]. *)
Definition static_cast_float (n : N) : float := binary32 (inject_Z (Z.of_N n)).

(** The double-quote character, for the messages that quote a name. *)
Definition dquote : string := String (ascii_of_nat 34) EmptyString.

(** ** Vectors, rectangles, colours *)

Record Vector2f := mkVector2f { v2x : float; v2y : float }.
Record Vector2u := mkVector2u { ux : N; uy : N }.
Record FloatRect := mkFloatRect
  { fleft : float; ftop : float; fwidth : float; fheight : float }.
Record IntRect := mkIntRect
  { left : Z; top : Z; width : Z; height : Z }.
Record Color := mkColor { r : N; g : N; b : N; a : N }.

Module Glsl.
Record Vec2 := mkVec2 { x2 : float; y2 : float }.
Record Vec3 := mkVec3 { x3 : float; y3 : float; z3 : float }.
Record Vec4 := mkVec4 { x4 : float; y4 : float; z4 : float; w4 : float }.
Record Ivec2 := mkIvec2 { ix2 : Z; iy2 : Z }.
Record Ivec3 := mkIvec3 { ix3 : Z; iy3 : Z; iz3 : Z }.
Record Ivec4 := mkIvec4 { ix4 : Z; iy4 : Z; iz4 : Z; iw4 : Z }.
Record Bvec2 := mkBvec2 { bx2 : bool; by2 : bool }.
Record Bvec3 := mkBvec3 { bx3 : bool; by3 : bool; bz3 : bool }.
Record Bvec4 := mkBvec4 { bx4 : bool; by4 : bool; bz4 : bool; bw4 : bool }.
Record Mat3 := mkMat3 { array3 : list float }.
Record Mat4 := mkMat4 { array4 : list float }.

(** [static_cast<int>(bool)] and the [Ivec] constructors from [Bvec]. *)
Definition int_of_bool (b : bool) : Z := if b then 1 else 0.
Definition Ivec2_of_Bvec2 (v : Bvec2) : Ivec2 :=
  mkIvec2 (int_of_bool (bx2 v)) (int_of_bool (by2 v)).
Definition Ivec3_of_Bvec3 (v : Bvec3) : Ivec3 :=
  mkIvec3 (int_of_bool (bx3 v)) (int_of_bool (by3 v)) (int_of_bool (bz3 v)).
Definition Ivec4_of_Bvec4 (v : Bvec4) : Ivec4 :=
  mkIvec4 (int_of_bool (bx4 v)) (int_of_bool (by4 v)) (int_of_bool (bz4 v))
          (int_of_bool (bw4 v)).
End Glsl.

(** ** Graphics types *)

(** [sf::Transform]: a 4x4 matrix of floats. *)
Record Transform := mkTransform { getMatrix : list float }.

Definition Transform_Identity : Transform :=
  mkTransform (map inject_Z [1; 0; 0; 0;  0; 1; 0; 0;  0; 0; 1; 0;  0; 0; 0; 1]).

Record View := mkView { getViewport_ : FloatRect; getTransform : Transform }.

(** The fields of [sf::Texture] that the render target reads. *)
Record Texture := mkTexture
  { m_texture : N;
    m_cacheId : Uint64;
    m_fboAttachment : bool;
    m_size : Vector2u;
    m_actualSize : Vector2u;
    m_pixelsFlipped : bool }.

Inductive CoordinateType := Normalized | Pixels.

Inductive PrimitiveType :=
  Points | Lines | LineStrip | Triangles | TriangleStrip | TriangleFan | Quads.

Record VertexBuffer := mkVertexBuffer
  { m_buffer : N; vb_size : nat; m_primitiveType : PrimitiveType }.

Module BlendMode.
Inductive Factor :=
  | Zero | One | SrcColor | OneMinusSrcColor | DstColor | OneMinusDstColor
  | SrcAlpha | OneMinusSrcAlpha | DstAlpha | OneMinusDstAlpha.
Inductive Equation := Add | Subtract | ReverseSubtract | Min | Max.
Record t := mk
  { colorSrcFactor : Factor;
    colorDstFactor : Factor;
    colorEquation : Equation;
    alphaSrcFactor : Factor;
    alphaDstFactor : Factor;
    alphaEquation : Equation }.

#[global] Instance Factor_eq_dec : EqDecision Factor.
Proof. solve_decision. Defined.
#[global] Instance Equation_eq_dec : EqDecision Equation.
Proof. solve_decision. Defined.
#[global] Instance t_eq_dec : EqDecision t.
Proof. solve_decision. Defined.

(** Modelled from the spec: [operator !=] of [sf::BlendMode] (BlendMode.cpp is
    not among the sources).  The blend mode "overloads the == operator" so
    that the cache "can easily check whether any of the 6 blending components
    changed": two modes differ when one of the six fields differs. *)
Definition neq (l r0 : t) : bool := negb (bool_decide (l = r0)).
End BlendMode.

Record Vertex := mkVertex
  { position : Vector2f; color : Color; texCoords : Vector2f }.

(** [sizeof(sf::Vertex)]: two floats, four bytes, two floats (the offsets 0, 8
    and 12 used by the sources are those of its three members). *)
Definition sizeof_Vertex : Z := 20.

(** ** The OpenGL interface

    One constructor per entry point the sources call, under the [GLEXT_]
    name where the sources use one.  The static member functions of the
    collaborating classes ([Texture::bind], [VertexBuffer::bind],
    [priv::ensureExtensionsInit]) are recorded as calls as well. *)
Module GL.
Inductive Capability :=
  | GL_CULL_FACE | GL_DEPTH_TEST | GL_BLEND | GL_ALPHA_TEST | GL_LIGHTING
  | GL_TEXTURE_2D | GL_FRAMEBUFFER_SRGB.
Inductive ClientState := GL_VERTEX_ARRAY | GL_COLOR_ARRAY | GL_TEXTURE_COORD_ARRAY.
Inductive MatrixMode := GL_MODELVIEW | GL_PROJECTION | GL_TEXTURE.
Inductive BlendFactor :=
  | GL_ZERO | GL_ONE | GL_SRC_COLOR | GL_ONE_MINUS_SRC_COLOR | GL_DST_COLOR
  | GL_ONE_MINUS_DST_COLOR | GL_SRC_ALPHA | GL_ONE_MINUS_SRC_ALPHA
  | GL_DST_ALPHA | GL_ONE_MINUS_DST_ALPHA.
Inductive BlendEquation :=
  | GLEXT_GL_FUNC_ADD | GLEXT_GL_FUNC_SUBTRACT | GLEXT_GL_FUNC_REVERSE_SUBTRACT
  | GLEXT_GL_MIN | GLEXT_GL_MAX.
Inductive DrawMode :=
  | GL_POINTS | GL_LINES | GL_LINE_STRIP | GL_TRIANGLES | GL_TRIANGLE_STRIP
  | GL_TRIANGLE_FAN | GL_QUADS.
Inductive DataType := GL_FLOAT | GL_UNSIGNED_BYTE.
Inductive ShaderType :=
  GLEXT_GL_VERTEX_SHADER | GLEXT_GL_GEOMETRY_SHADER | GLEXT_GL_FRAGMENT_SHADER.

(** Where a vertex-attribute pointer points: into the caller's vertex array,
    into the target's own vertex cache, or (null base) into the bound buffer. *)
Inductive Base := UserVertices | VertexCache | BoundBuffer.
Record Pointer := at_offset { base : Base; offset : Z }.

Inductive Call :=
  (* fixed-function state *)
  | glClearColor (red green blue alpha : float)
  | glClear_GL_COLOR_BUFFER_BIT
  | glEnable (cap : Capability)
  | glDisable (cap : Capability)
  | glEnableClientState (cs : ClientState)
  | glDisableClientState (cs : ClientState)
  | glVertexPointer (n : Z) (ty : DataType) (stride : Z) (p : Pointer)
  | glColorPointer (n : Z) (ty : DataType) (stride : Z) (p : Pointer)
  | glTexCoordPointer (n : Z) (ty : DataType) (stride : Z) (p : Pointer)
  | glVertexAttribPointer (index : GLint) (n : Z) (ty : DataType)
      (normalized : bool) (stride : Z) (p : Pointer)
  | glEnableVertexAttribArray (index : GLint)
  | glDisableVertexAttribArray (index : GLint)
  | glGetAttribLocation (program : GLhandle) (name : string)
  | glPushClientAttrib_GL_CLIENT_ALL_ATTRIB_BITS
  | glPushAttrib_GL_ALL_ATTRIB_BITS
  | glPopClientAttrib
  | glPopAttrib
  | glMatrixMode (mode : MatrixMode)
  | glPushMatrix
  | glPopMatrix
  | glLoadIdentity
  | glLoadMatrixf (m : list float)
  | glViewport (x y w h : Z)
  | glBlendFunc (src dst : BlendFactor)
  | GLEXT_glBlendFuncSeparate (csrc cdst asrc adst : BlendFactor)
  | GLEXT_glBlendEquation (eq : BlendEquation)
  | GLEXT_glBlendEquationSeparate (ceq aeq : BlendEquation)
  | GLEXT_glClientActiveTexture (unit : Z)
  | GLEXT_glActiveTexture (unit : Z)
  | glDrawArrays (mode : DrawMode) (first count : Z)
  | glFlush
  (* program objects *)
  | glGetIntegerv_GL_CURRENT_PROGRAM
  | glGetIntegerv_GLEXT_GL_MAX_COMBINED_TEXTURE_IMAGE_UNITS
  | GLEXT_glGetHandle_GL_PROGRAM_OBJECT
  | GLEXT_glUseProgramObject (program : GLhandle)
  | GLEXT_glCreateProgramObject
  | GLEXT_glDeleteProgram (program : GLhandle)
  | GLEXT_glCreateShaderObject (ty : ShaderType)
  | GLEXT_glShaderSource (shader : GLhandle) (code : string)
  | GLEXT_glCompileShader (shader : GLhandle)
  | GLEXT_glGetShaderParameteriv_COMPILE_STATUS (shader : GLhandle)
  | GLEXT_glGetShaderInfoLog (shader : GLhandle)
  | GLEXT_glDeleteShader (shader : GLhandle)
  | GLEXT_glAttachShader (program shader : GLhandle)
  | GLEXT_glLinkProgram (program : GLhandle)
  | GLEXT_glGetProgramParameteriv_LINK_STATUS (program : GLhandle)
  | GLEXT_glGetProgramInfoLog (program : GLhandle)
  | GLEXT_glGetUniformLocation (program : GLhandle) (name : string)
  (* uniforms *)
  | GLEXT_glUniform1f (location : GLint) (x : float)
  | GLEXT_glUniform2f (location : GLint) (x y : float)
  | GLEXT_glUniform3f (location : GLint) (x y z : float)
  | GLEXT_glUniform4f (location : GLint) (x y z w : float)
  | GLEXT_glUniform1i (location : GLint) (x : Z)
  | GLEXT_glUniform2i (location : GLint) (x y : Z)
  | GLEXT_glUniform3i (location : GLint) (x y z : Z)
  | GLEXT_glUniform4i (location : GLint) (x y z w : Z)
  | GLEXT_glUniform1fv (location : GLint) (count : Z) (data : list float)
  | GLEXT_glUniform2fv (location : GLint) (count : Z) (data : list float)
  | GLEXT_glUniform3fv (location : GLint) (count : Z) (data : list float)
  | GLEXT_glUniform4fv (location : GLint) (count : Z) (data : list float)
  | GLEXT_glUniformMatrix3fv (location : GLint) (count : Z) (data : list float)
  | GLEXT_glUniformMatrix4fv (location : GLint) (count : Z) (data : list float)
  (* collaborating classes *)
  | Texture_bind (texture : option Texture) (coordinateType : CoordinateType)
  | VertexBuffer_bind (vertexBuffer : option VertexBuffer)
  | ensureExtensionsInit.
End GL.

(** ** The environment of a run

    What the sources take from outside [src/]: the preprocessor symbols of the
    build, the capability flags loaded by glad, the answers of the driver, and
    the constants and helpers of this repository that are declared in files
    that are not among the sources. *)
Record Env := mkEnv
  { (* build configuration *)
    SFML_OPENGL_ES : bool;
    SFML_SYSTEM_MACOS : bool;
    (* capability flags (glad) *)
    SF_GLAD_GL_EXT_blend_minmax : bool;
    SF_GLAD_GL_EXT_blend_subtract : bool;
    SF_GLAD_GL_ARB_multitexture : bool;
    SF_GLAD_GL_EXT_blend_func_separate : bool;
    SF_GLAD_GL_EXT_blend_equation_separate : bool;
    SF_GLAD_GL_ARB_shading_language_100 : bool;
    SF_GLAD_GL_ARB_shader_objects : bool;
    SF_GLAD_GL_ARB_vertex_shader : bool;
    SF_GLAD_GL_ARB_fragment_shader : bool;
    SF_GLAD_GL_ARB_geometry_shader4 : bool;
    SF_GLAD_GL_VERSION_3_2 : bool;
    VertexBuffer_isAvailable : bool;
    (* answers of the driver *)
    GL_MAX_COMBINED_TEXTURE_IMAGE_UNITS : GLint;
    glGetUniformLocation_result : GLhandle -> string -> GLint;
    glGetAttribLocation_result : GLhandle -> string -> GLint;
    glCreateProgramObject_result : list GL.Call -> GLhandle;
    glCreateShaderObject_result : list GL.Call -> GL.ShaderType -> GLhandle;
    compile_status : GL.ShaderType -> string -> bool;
    link_status : option string -> option string -> option string -> bool;
    shader_info_log : GL.ShaderType -> string -> string;
    program_info_log : option string -> option string -> option string -> string;
    (* declared outside the sources: the capacity of the vertex cache, the
       constant [sf::BlendAlpha], what the default constructors [BlendMode()]
       and [Vertex()] build, and three member functions *)
    VertexCacheSize : nat;
    BlendAlpha : BlendMode.t;
    BlendMode_new : BlendMode.t;
    Vertex_new : Vertex;
    Transform_mul : Transform -> Vector2f -> Vector2f;
    Transform_eq : Transform -> Transform -> bool;
    View_reset : View -> FloatRect -> View }.

(** The [GLEXT_] macros of GLExtensions.hpp: constants on OpenGL ES, glad
    flags otherwise. *)
Definition GLEXT_multitexture (env : Env) : bool :=
  if SFML_OPENGL_ES env then true else SF_GLAD_GL_ARB_multitexture env.
Definition GLEXT_blend_subtract (env : Env) : bool :=
  if SFML_OPENGL_ES env then true else SF_GLAD_GL_EXT_blend_subtract env.
Definition GLEXT_blend_minmax (env : Env) : bool :=
  SF_GLAD_GL_EXT_blend_minmax env.
Definition GLEXT_blend_func_separate (env : Env) : bool :=
  if SFML_OPENGL_ES env then true else SF_GLAD_GL_EXT_blend_func_separate env.
Definition GLEXT_blend_equation_separate (env : Env) : bool :=
  if SFML_OPENGL_ES env then true else SF_GLAD_GL_EXT_blend_equation_separate env.
Definition GLEXT_shader_objects (env : Env) : bool :=
  if SFML_OPENGL_ES env then true else SF_GLAD_GL_ARB_shader_objects env.
Definition GLEXT_vertex_shader (env : Env) : bool :=
  if SFML_OPENGL_ES env then true else SF_GLAD_GL_ARB_vertex_shader env.
Definition GLEXT_fragment_shader (env : Env) : bool :=
  if SFML_OPENGL_ES env then true else SF_GLAD_GL_ARB_fragment_shader env.
Definition GLEXT_shading_language_100 (env : Env) : bool :=
  SF_GLAD_GL_ARB_shading_language_100 env.
Definition GLEXT_geometry_shader4 (env : Env) : bool :=
  SF_GLAD_GL_ARB_geometry_shader4 env.
Definition GLEXT_GL_VERSION_3_2 (env : Env) : bool := SF_GLAD_GL_VERSION_3_2 env.

(** [castToGlHandle] and [castFromGlHandle]: the identity, or a cast through
    [ptrdiff_t] that keeps the value. *)
Definition castToGlHandle (x : N) : GLhandle := x.
Definition castFromGlHandle (x : GLhandle) : N := x.

(** ** Objects *)

(** [sf::Shader].  [m_textures] is a [std::map<int, const Texture*>] and
    [m_uniforms] a [std::map<std::string, int>]. *)
Record Shader := mkShader
  { m_shaderProgram : N;
    m_currentTexture : GLint;
    m_textures : gmap Z Texture;
    m_uniforms : gmap string Z }.

Definition set_m_shaderProgram (v : N) (s : Shader) : Shader :=
  mkShader v (m_currentTexture s) (m_textures s) (m_uniforms s).
Definition set_m_currentTexture (v : GLint) (s : Shader) : Shader :=
  mkShader (m_shaderProgram s) v (m_textures s) (m_uniforms s).
Definition set_m_textures (v : gmap Z Texture) (s : Shader) : Shader :=
  mkShader (m_shaderProgram s) (m_currentTexture s) v (m_uniforms s).
Definition set_m_uniforms (v : gmap string Z) (s : Shader) : Shader :=
  mkShader (m_shaderProgram s) (m_currentTexture s) (m_textures s) v.

(** [RenderTarget::StatesCache]. *)
Record StatesCache := mkStatesCache
  { enable : bool;
    glStatesSet : bool;
    viewChanged : bool;
    lastBlendMode : BlendMode.t;
    lastTextureId : Uint64;
    texCoordsArrayEnabled : bool;
    useVertexCache : bool;
    vertexCache : list Vertex;
    programChanged : N;
    posAttrib : GLint;
    colAttrib : GLint;
    texAttrib : GLint }.

Definition set_enable (v : bool) (c : StatesCache) : StatesCache :=
  mkStatesCache v (glStatesSet c) (viewChanged c) (lastBlendMode c)
    (lastTextureId c) (texCoordsArrayEnabled c) (useVertexCache c)
    (vertexCache c) (programChanged c) (posAttrib c) (colAttrib c) (texAttrib c).
Definition set_glStatesSet (v : bool) (c : StatesCache) : StatesCache :=
  mkStatesCache (enable c) v (viewChanged c) (lastBlendMode c)
    (lastTextureId c) (texCoordsArrayEnabled c) (useVertexCache c)
    (vertexCache c) (programChanged c) (posAttrib c) (colAttrib c) (texAttrib c).
Definition set_viewChanged (v : bool) (c : StatesCache) : StatesCache :=
  mkStatesCache (enable c) (glStatesSet c) v (lastBlendMode c)
    (lastTextureId c) (texCoordsArrayEnabled c) (useVertexCache c)
    (vertexCache c) (programChanged c) (posAttrib c) (colAttrib c) (texAttrib c).
Definition set_lastBlendMode (v : BlendMode.t) (c : StatesCache) : StatesCache :=
  mkStatesCache (enable c) (glStatesSet c) (viewChanged c) v
    (lastTextureId c) (texCoordsArrayEnabled c) (useVertexCache c)
    (vertexCache c) (programChanged c) (posAttrib c) (colAttrib c) (texAttrib c).
Definition set_lastTextureId (v : Uint64) (c : StatesCache) : StatesCache :=
  mkStatesCache (enable c) (glStatesSet c) (viewChanged c) (lastBlendMode c)
    v (texCoordsArrayEnabled c) (useVertexCache c)
    (vertexCache c) (programChanged c) (posAttrib c) (colAttrib c) (texAttrib c).
Definition set_texCoordsArrayEnabled (v : bool) (c : StatesCache) : StatesCache :=
  mkStatesCache (enable c) (glStatesSet c) (viewChanged c) (lastBlendMode c)
    (lastTextureId c) v (useVertexCache c)
    (vertexCache c) (programChanged c) (posAttrib c) (colAttrib c) (texAttrib c).
Definition set_useVertexCache (v : bool) (c : StatesCache) : StatesCache :=
  mkStatesCache (enable c) (glStatesSet c) (viewChanged c) (lastBlendMode c)
    (lastTextureId c) (texCoordsArrayEnabled c) v
    (vertexCache c) (programChanged c) (posAttrib c) (colAttrib c) (texAttrib c).
Definition set_vertexCache (v : list Vertex) (c : StatesCache) : StatesCache :=
  mkStatesCache (enable c) (glStatesSet c) (viewChanged c) (lastBlendMode c)
    (lastTextureId c) (texCoordsArrayEnabled c) (useVertexCache c)
    v (programChanged c) (posAttrib c) (colAttrib c) (texAttrib c).
Definition set_attribs (prog : N) (pos col tex : GLint) (c : StatesCache)
  : StatesCache :=
  mkStatesCache (enable c) (glStatesSet c) (viewChanged c) (lastBlendMode c)
    (lastTextureId c) (texCoordsArrayEnabled c) (useVertexCache c)
    (vertexCache c) prog pos col tex.

(** [sf::RenderTarget].  [getSize] and [isSrgb] are virtual: the fields hold
    what the most derived class answers ([RenderTarget::isSrgb] itself
    returns false). *)
Record RenderTarget := mkRenderTarget
  { m_defaultView : View;
    m_view : View;
    m_cache : StatesCache;
    m_id : Uint64;
    getSize : Vector2u;
    isSrgb : bool }.

Definition set_m_cache (v : StatesCache) (t : RenderTarget) : RenderTarget :=
  mkRenderTarget (m_defaultView t) (m_view t) v (m_id t) (getSize t) (isSrgb t).
Definition upd_cache (f : StatesCache -> StatesCache) (t : RenderTarget)
  : RenderTarget := set_m_cache (f (m_cache t)) t.
(** [m_cache.useVertexCache], for the functions that have a local variable of
    the same name. *)
Definition m_cache_useVertexCache (t : RenderTarget) : bool :=
  useVertexCache (m_cache t).
Definition set_m_view (v : View) (t : RenderTarget) : RenderTarget :=
  mkRenderTarget (m_defaultView t) v (m_cache t) (m_id t) (getSize t) (isSrgb t).
Definition set_m_defaultView (v : View) (t : RenderTarget) : RenderTarget :=
  mkRenderTarget v (m_view t) (m_cache t) (m_id t) (getSize t) (isSrgb t).
Definition set_m_id (v : Uint64) (t : RenderTarget) : RenderTarget :=
  mkRenderTarget (m_defaultView t) (m_view t) (m_cache t) v (getSize t) (isSrgb t).

(** [sf::RenderStates].  [shader] is the address of a shader object of the
    application (a key of [shaders] below), [None] for a null pointer. *)
Record RenderStates := mkRenderStates
  { blendMode : BlendMode.t;
    transform : Transform;
    texture : option Texture;
    shader : option N }.

(** ** The world: statics, driver state, log *)
Record World := mkWorld
  { (* RenderTarget.cpp, namespace RenderTargetImpl *)
    getUniqueId_id : Uint64;
    contextRenderTargetMap : gmap N N;
    equationToGlConstant_warned : bool;
    applyBlendMode_warned : bool;
    (* Shader.cpp, function-local statics *)
    getDefaultShader_instance : Shader;
    getDefaultShader_first : bool;
    getDefaultTexShader_instance : Shader;
    getDefaultTexShader_first : bool;
    isAvailable_checked : bool;
    isGeometryAvailable_checked : bool;
    getMaxTextureUnits_initialized : bool;
    (* the application's shader objects, by address *)
    shaders : gmap N Shader;
    (* Context::getActiveContextId() *)
    getActiveContextId : Uint64;
    (* the program object in use in the current context *)
    current_program : GLhandle;
    (* every call issued so far, oldest first *)
    calls : list GL.Call;
    (* every line written to sf::err() so far, oldest first *)
    err : list string }.

Definition set_getUniqueId_id (v : Uint64) (w : World) : World :=
  mkWorld v (contextRenderTargetMap w) (equationToGlConstant_warned w)
    (applyBlendMode_warned w) (getDefaultShader_instance w)
    (getDefaultShader_first w) (getDefaultTexShader_instance w)
    (getDefaultTexShader_first w) (isAvailable_checked w)
    (isGeometryAvailable_checked w) (getMaxTextureUnits_initialized w)
    (shaders w) (getActiveContextId w) (current_program w) (calls w) (err w).
Definition set_contextRenderTargetMap (v : gmap N N) (w : World) : World :=
  mkWorld (getUniqueId_id w) v (equationToGlConstant_warned w)
    (applyBlendMode_warned w) (getDefaultShader_instance w)
    (getDefaultShader_first w) (getDefaultTexShader_instance w)
    (getDefaultTexShader_first w) (isAvailable_checked w)
    (isGeometryAvailable_checked w) (getMaxTextureUnits_initialized w)
    (shaders w) (getActiveContextId w) (current_program w) (calls w) (err w).
Definition set_equationToGlConstant_warned (v : bool) (w : World) : World :=
  mkWorld (getUniqueId_id w) (contextRenderTargetMap w) v
    (applyBlendMode_warned w) (getDefaultShader_instance w)
    (getDefaultShader_first w) (getDefaultTexShader_instance w)
    (getDefaultTexShader_first w) (isAvailable_checked w)
    (isGeometryAvailable_checked w) (getMaxTextureUnits_initialized w)
    (shaders w) (getActiveContextId w) (current_program w) (calls w) (err w).
Definition set_applyBlendMode_warned (v : bool) (w : World) : World :=
  mkWorld (getUniqueId_id w) (contextRenderTargetMap w)
    (equationToGlConstant_warned w) v (getDefaultShader_instance w)
    (getDefaultShader_first w) (getDefaultTexShader_instance w)
    (getDefaultTexShader_first w) (isAvailable_checked w)
    (isGeometryAvailable_checked w) (getMaxTextureUnits_initialized w)
    (shaders w) (getActiveContextId w) (current_program w) (calls w) (err w).
Definition set_getDefaultShader (s : Shader) (first : bool) (w : World) : World :=
  mkWorld (getUniqueId_id w) (contextRenderTargetMap w)
    (equationToGlConstant_warned w) (applyBlendMode_warned w) s first
    (getDefaultTexShader_instance w) (getDefaultTexShader_first w)
    (isAvailable_checked w) (isGeometryAvailable_checked w)
    (getMaxTextureUnits_initialized w) (shaders w) (getActiveContextId w)
    (current_program w) (calls w) (err w).
Definition set_getDefaultTexShader (s : Shader) (first : bool) (w : World)
  : World :=
  mkWorld (getUniqueId_id w) (contextRenderTargetMap w)
    (equationToGlConstant_warned w) (applyBlendMode_warned w)
    (getDefaultShader_instance w) (getDefaultShader_first w) s first
    (isAvailable_checked w) (isGeometryAvailable_checked w)
    (getMaxTextureUnits_initialized w) (shaders w) (getActiveContextId w)
    (current_program w) (calls w) (err w).
Definition set_isAvailable_checked (v : bool) (w : World) : World :=
  mkWorld (getUniqueId_id w) (contextRenderTargetMap w)
    (equationToGlConstant_warned w) (applyBlendMode_warned w)
    (getDefaultShader_instance w) (getDefaultShader_first w)
    (getDefaultTexShader_instance w) (getDefaultTexShader_first w) v
    (isGeometryAvailable_checked w) (getMaxTextureUnits_initialized w)
    (shaders w) (getActiveContextId w) (current_program w) (calls w) (err w).
Definition set_isGeometryAvailable_checked (v : bool) (w : World) : World :=
  mkWorld (getUniqueId_id w) (contextRenderTargetMap w)
    (equationToGlConstant_warned w) (applyBlendMode_warned w)
    (getDefaultShader_instance w) (getDefaultShader_first w)
    (getDefaultTexShader_instance w) (getDefaultTexShader_first w)
    (isAvailable_checked w) v (getMaxTextureUnits_initialized w) (shaders w)
    (getActiveContextId w) (current_program w) (calls w) (err w).
Definition set_getMaxTextureUnits_initialized (v : bool) (w : World) : World :=
  mkWorld (getUniqueId_id w) (contextRenderTargetMap w)
    (equationToGlConstant_warned w) (applyBlendMode_warned w)
    (getDefaultShader_instance w) (getDefaultShader_first w)
    (getDefaultTexShader_instance w) (getDefaultTexShader_first w)
    (isAvailable_checked w) (isGeometryAvailable_checked w) v (shaders w)
    (getActiveContextId w) (current_program w) (calls w) (err w).
Definition set_shaders (v : gmap N Shader) (w : World) : World :=
  mkWorld (getUniqueId_id w) (contextRenderTargetMap w)
    (equationToGlConstant_warned w) (applyBlendMode_warned w)
    (getDefaultShader_instance w) (getDefaultShader_first w)
    (getDefaultTexShader_instance w) (getDefaultTexShader_first w)
    (isAvailable_checked w) (isGeometryAvailable_checked w)
    (getMaxTextureUnits_initialized w) v (getActiveContextId w)
    (current_program w) (calls w) (err w).
Definition set_getActiveContextId (v : Uint64) (w : World) : World :=
  mkWorld (getUniqueId_id w) (contextRenderTargetMap w)
    (equationToGlConstant_warned w) (applyBlendMode_warned w)
    (getDefaultShader_instance w) (getDefaultShader_first w)
    (getDefaultTexShader_instance w) (getDefaultTexShader_first w)
    (isAvailable_checked w) (isGeometryAvailable_checked w)
    (getMaxTextureUnits_initialized w) (shaders w) v (current_program w)
    (calls w) (err w).
Definition set_current_program (v : GLhandle) (w : World) : World :=
  mkWorld (getUniqueId_id w) (contextRenderTargetMap w)
    (equationToGlConstant_warned w) (applyBlendMode_warned w)
    (getDefaultShader_instance w) (getDefaultShader_first w)
    (getDefaultTexShader_instance w) (getDefaultTexShader_first w)
    (isAvailable_checked w) (isGeometryAvailable_checked w)
    (getMaxTextureUnits_initialized w) (shaders w) (getActiveContextId w) v
    (calls w) (err w).
Definition set_calls (v : list GL.Call) (w : World) : World :=
  mkWorld (getUniqueId_id w) (contextRenderTargetMap w)
    (equationToGlConstant_warned w) (applyBlendMode_warned w)
    (getDefaultShader_instance w) (getDefaultShader_first w)
    (getDefaultTexShader_instance w) (getDefaultTexShader_first w)
    (isAvailable_checked w) (isGeometryAvailable_checked w)
    (getMaxTextureUnits_initialized w) (shaders w) (getActiveContextId w)
    (current_program w) v (err w).
Definition set_err (v : list string) (w : World) : World :=
  mkWorld (getUniqueId_id w) (contextRenderTargetMap w)
    (equationToGlConstant_warned w) (applyBlendMode_warned w)
    (getDefaultShader_instance w) (getDefaultShader_first w)
    (getDefaultTexShader_instance w) (getDefaultTexShader_first w)
    (isAvailable_checked w) (isGeometryAvailable_checked w)
    (getMaxTextureUnits_initialized w) (shaders w) (getActiveContextId w)
    (current_program w) (calls w) v.

(** [glCheck(call)]: issue one call. *)
Definition glCheck (c : GL.Call) (w : World) : World :=
  set_calls (calls w ++ [c]) w.

(** [glCheck(GLEXT_glUseProgramObject(program))]: the call, and its effect on
    the program in use. *)
Definition glUseProgramObject (program : GLhandle) (w : World) : World :=
  set_current_program program (glCheck (GL.GLEXT_glUseProgramObject program) w).

(** [err() << line << std::endl]. *)
Definition err_endl (line : string) (w : World) : World :=
  set_err (err w ++ [line]) w.

(** Issue a call when a condition holds. *)
Definition glCheck_if (cond : bool) (c : GL.Call) (w : World) : World :=
  if cond then glCheck c w else w.

(** ** Shader.cpp *)
Module Shader.

(** *** Anonymous namespace *)

(** [checkMaxTextureUnits] asks the driver. *)
Definition checkMaxTextureUnits (env : Env) (w : World) : GLint * World :=
  (GL_MAX_COMBINED_TEXTURE_IMAGE_UNITS env,
   glCheck GL.glGetIntegerv_GLEXT_GL_MAX_COMBINED_TEXTURE_IMAGE_UNITS w).

(** What [getMaxTextureUnits] returns: its function-local static [maxUnits],
    which holds the answer of the driver, as a [std::size_t]. *)
Definition maxUnits (env : Env) : Z :=
  static_cast_size_t (GL_MAX_COMBINED_TEXTURE_IMAGE_UNITS env).

(** [getMaxTextureUnits]: the static is initialised by the first call, with
    one query of the driver.  (The lock on [maxTextureUnitsMutex] is not
    modelled: the model runs one thread.) *)
Definition getMaxTextureUnits (env : Env) (w : World) : Z * World :=
  if getMaxTextureUnits_initialized w then (maxUnits env, w)
  else
    let '(maxUnits, w) :=
      checkMaxTextureUnits env (set_getMaxTextureUnits_initialized true w) in
    (static_cast_size_t maxUnits, w).

Definition flatten2 (vectorArray : list Glsl.Vec2) : list float :=
  flat_map (fun v => [Glsl.x2 v; Glsl.y2 v]) vectorArray.
Definition flatten3 (vectorArray : list Glsl.Vec3) : list float :=
  flat_map (fun v => [Glsl.x3 v; Glsl.y3 v; Glsl.z3 v]) vectorArray.
Definition flatten4 (vectorArray : list Glsl.Vec4) : list float :=
  flat_map (fun v => [Glsl.x4 v; Glsl.y4 v; Glsl.z4 v; Glsl.w4 v]) vectorArray.

(** *** Construction *)
Definition new : Shader := mkShader 0 (-1) ∅ ∅.

(** *** Availability

    [isAvailable] and [isGeometryAvailable] each keep two function-local
    statics: [checked], which is part of the world, and [available].  The
    first call sets [checked], makes sure that the extensions are
    initialised, and computes [available] from the capability flags; every
    call returns [available].  The flags do not change once the extensions
    are initialised, so the value returned is a function of the environment:
    [available] and [geometry_available] below.  (The lock on
    [isAvailableMutex] and the [TransientContextLock] of the first call are
    not modelled: the model runs one thread, and [sf::Context] is not among
    the sources.) *)
Definition available (env : Env) : bool :=
  if SFML_OPENGL_ES env then true
  else GLEXT_multitexture env && GLEXT_shading_language_100 env
       && GLEXT_shader_objects env && GLEXT_vertex_shader env
       && GLEXT_fragment_shader env.

Definition isAvailable (env : Env) (w : World) : bool * World :=
  if isAvailable_checked w then (available env, w)
  else
    let w := set_isAvailable_checked true w in
    (* Make sure that extensions are initialized *)
    let w := glCheck GL.ensureExtensionsInit w in
    (available env, w).

Definition geometry_available (env : Env) : bool :=
  if SFML_OPENGL_ES env then false
  else available env && (GLEXT_geometry_shader4 env || GLEXT_GL_VERSION_3_2 env).

Definition isGeometryAvailable (env : Env) (w : World) : bool * World :=
  if isGeometryAvailable_checked w then (geometry_available env, w)
  else
    let w := set_isGeometryAvailable_checked true w in
    (* Make sure that extensions are initialized *)
    let w := glCheck GL.ensureExtensionsInit w in
    if SFML_OPENGL_ES env then (false, w)
    else
      let '(available, w) := isAvailable env w in
      (available && (GLEXT_geometry_shader4 env || GLEXT_GL_VERSION_3_2 env), w).

(** *** Uniform locations *)
Definition uniform_not_found (name : string) : string :=
  "Uniform " +:+ dquote +:+ name +:+ dquote +:+ " not found in shader".

Definition getUniformLocation (env : Env) (this : Shader) (name : string)
    (w : World) : GLint * Shader * World :=
  (* Check the cache *)
  match m_uniforms this !! name with
  | Some location =>
      (* Already in cache, return it *)
      (location, this, w)
  | None =>
      (* Not in cache, request the location from OpenGL *)
      let program := castToGlHandle (m_shaderProgram this) in
      let location := glGetUniformLocation_result env program name in
      let w := glCheck (GL.GLEXT_glGetUniformLocation program name) w in
      let this := set_m_uniforms (<[name := location]> (m_uniforms this)) this in
      let w := if location =? -1 then err_endl (uniform_not_found name) w else w in
      (location, this, w)
  end.

(** *** [Shader::UniformBinder] *)
Record UniformBinder := mkUniformBinder
  { savedProgram : GLhandle; currentProgram : GLhandle; location : GLint }.

(** Constructor: set up state before uniform is set. *)
Definition UniformBinder_new (env : Env) (shader : Shader) (name : string)
    (w : World) : UniformBinder * Shader * World :=
  let currentProgram := castToGlHandle (m_shaderProgram shader) in
  if (currentProgram =? 0)%N then
    (mkUniformBinder 0%N currentProgram (-1), shader, w)
  else
    (* Enable program object *)
    let w := glCheck (if SFML_OPENGL_ES env
                      then GL.glGetIntegerv_GL_CURRENT_PROGRAM
                      else GL.GLEXT_glGetHandle_GL_PROGRAM_OBJECT) w in
    let savedProgram := current_program w in
    let w := if (currentProgram =? savedProgram)%N then w
             else glUseProgramObject currentProgram w in
    (* Store uniform location for further use outside constructor *)
    let '(location, shader, w) := getUniformLocation env shader name w in
    (mkUniformBinder savedProgram currentProgram location, shader, w).

(** Destructor: restore state after uniform is set. *)
Definition UniformBinder_delete (binder : UniformBinder) (w : World) : World :=
  (* Disable program object *)
  if negb (currentProgram binder =? 0)%N
     && negb (currentProgram binder =? savedProgram binder)%N
  then glUseProgramObject (savedProgram binder) w
  else w.

(** The body shared by the value overloads of [setUniform] and
    [setUniformArray]: a binder in scope, and one upload when the location is
    not [-1]. *)
Definition withBinder (env : Env) (upload : GLint -> GL.Call) (this : Shader)
    (name : string) (w : World) : Shader * World :=
  let '(binder, this, w) := UniformBinder_new env this name w in
  let w := if location binder =? -1 then w
           else glCheck (upload (location binder)) w in
  (this, UniformBinder_delete binder w).

Definition setUniform_float env (this : Shader) name (x : float) w :=
  withBinder env (fun l => GL.GLEXT_glUniform1f l x) this name w.
Definition setUniform_Vec2 env (this : Shader) name (v : Glsl.Vec2) w :=
  withBinder env (fun l => GL.GLEXT_glUniform2f l (Glsl.x2 v) (Glsl.y2 v)) this name w.
Definition setUniform_Vec3 env (this : Shader) name (v : Glsl.Vec3) w :=
  withBinder env
    (fun l => GL.GLEXT_glUniform3f l (Glsl.x3 v) (Glsl.y3 v) (Glsl.z3 v)) this name w.
Definition setUniform_Vec4 env (this : Shader) name (v : Glsl.Vec4) w :=
  withBinder env
    (fun l => GL.GLEXT_glUniform4f l (Glsl.x4 v) (Glsl.y4 v) (Glsl.z4 v) (Glsl.w4 v))
    this name w.
Definition setUniform_int env (this : Shader) name (x : Z) w :=
  withBinder env (fun l => GL.GLEXT_glUniform1i l x) this name w.
Definition setUniform_Ivec2 env (this : Shader) name (v : Glsl.Ivec2) w :=
  withBinder env (fun l => GL.GLEXT_glUniform2i l (Glsl.ix2 v) (Glsl.iy2 v)) this name w.
Definition setUniform_Ivec3 env (this : Shader) name (v : Glsl.Ivec3) w :=
  withBinder env
    (fun l => GL.GLEXT_glUniform3i l (Glsl.ix3 v) (Glsl.iy3 v) (Glsl.iz3 v)) this name w.
Definition setUniform_Ivec4 env (this : Shader) name (v : Glsl.Ivec4) w :=
  withBinder env
    (fun l => GL.GLEXT_glUniform4i l (Glsl.ix4 v) (Glsl.iy4 v) (Glsl.iz4 v) (Glsl.iw4 v))
    this name w.
Definition setUniform_bool env (this : Shader) name (x : bool) w :=
  setUniform_int env this name (Glsl.int_of_bool x) w.
Definition setUniform_Bvec2 env (this : Shader) name (v : Glsl.Bvec2) w :=
  setUniform_Ivec2 env this name (Glsl.Ivec2_of_Bvec2 v) w.
Definition setUniform_Bvec3 env (this : Shader) name (v : Glsl.Bvec3) w :=
  setUniform_Ivec3 env this name (Glsl.Ivec3_of_Bvec3 v) w.
Definition setUniform_Bvec4 env (this : Shader) name (v : Glsl.Bvec4) w :=
  setUniform_Ivec4 env this name (Glsl.Ivec4_of_Bvec4 v) w.
Definition setUniform_Mat3 env (this : Shader) name (matrix : Glsl.Mat3) w :=
  withBinder env (fun l => GL.GLEXT_glUniformMatrix3fv l 1 (Glsl.array3 matrix))
    this name w.
Definition setUniform_Mat4 env (this : Shader) name (matrix : Glsl.Mat4) w :=
  withBinder env (fun l => GL.GLEXT_glUniformMatrix4fv l 1 (Glsl.array4 matrix))
    this name w.

Definition texture_units_exhausted (name : string) : string :=
  "Impossible to use texture " +:+ dquote +:+ name +:+ dquote
  +:+ " for shader: all available texture units are used".

Definition setUniform_Texture (env : Env) (this : Shader) (name : string)
    (texture : Texture) (w : World) : Shader * World :=
  if (m_shaderProgram this =? 0)%N then (this, w)
  else
    (* Find the location of the variable in the shader *)
    let '(location, this, w) := getUniformLocation env this name w in
    if location =? -1 then (this, w)
    else
      (* Store the location -> texture mapping *)
      match m_textures this !! location with
      | None =>
          (* New entry, make sure there are enough texture units *)
          let '(maxUnits, w) := getMaxTextureUnits env w in
          if static_cast_size_t (Z.of_nat (size (m_textures this)) + 1) >=? maxUnits
          then (this, err_endl (texture_units_exhausted name) w)
          else (set_m_textures (<[location := texture]> (m_textures this)) this, w)
      | Some _ =>
          (* Location already used, just replace the texture *)
          (set_m_textures (<[location := texture]> (m_textures this)) this, w)
      end.

Definition setUniform_CurrentTexture (env : Env) (this : Shader) (name : string)
    (w : World) : Shader * World :=
  if (m_shaderProgram this =? 0)%N then (this, w)
  else
    (* Find the location of the variable in the shader *)
    let '(location, this, w) := getUniformLocation env this name w in
    (set_m_currentTexture location this, w).

Definition setUniformArray_float env (this : Shader) name
    (scalarArray : list float) w :=
  withBinder env
    (fun l => GL.GLEXT_glUniform1fv l (static_cast_GLint (length scalarArray)) scalarArray)
    this name w.
Definition setUniformArray_Vec2 env (this : Shader) name
    (vectorArray : list Glsl.Vec2) w :=
  let contiguous := flatten2 vectorArray in
  withBinder env
    (fun l => GL.GLEXT_glUniform2fv l (static_cast_GLint (length vectorArray)) contiguous)
    this name w.
Definition setUniformArray_Vec3 env (this : Shader) name
    (vectorArray : list Glsl.Vec3) w :=
  let contiguous := flatten3 vectorArray in
  withBinder env
    (fun l => GL.GLEXT_glUniform3fv l (static_cast_GLint (length vectorArray)) contiguous)
    this name w.
Definition setUniformArray_Vec4 env (this : Shader) name
    (vectorArray : list Glsl.Vec4) w :=
  let contiguous := flatten4 vectorArray in
  withBinder env
    (fun l => GL.GLEXT_glUniform4fv l (static_cast_GLint (length vectorArray)) contiguous)
    this name w.
Definition setUniformArray_Mat3 env (this : Shader) name
    (matrixArray : list Glsl.Mat3) w :=
  let contiguous := flat_map Glsl.array3 matrixArray in
  withBinder env
    (fun l => GL.GLEXT_glUniformMatrix3fv l (static_cast_GLint (length matrixArray))
                contiguous)
    this name w.
Definition setUniformArray_Mat4 env (this : Shader) name
    (matrixArray : list Glsl.Mat4) w :=
  let contiguous := flat_map Glsl.array4 matrixArray in
  withBinder env
    (fun l => GL.GLEXT_glUniformMatrix4fv l (static_cast_GLint (length matrixArray))
                contiguous)
    this name w.

(** The deprecated [setParameter] overloads forward to [setUniform]. *)
Definition setParameter_float env (this : Shader) name (x : float) w :=
  setUniform_float env this name x w.
Definition setParameter_float2 env (this : Shader) name (x y : float) w :=
  setUniform_Vec2 env this name (Glsl.mkVec2 x y) w.
Definition setParameter_float3 env (this : Shader) name (x y z : float) w :=
  setUniform_Vec3 env this name (Glsl.mkVec3 x y z) w.
Definition setParameter_float4 env (this : Shader) name (x y z w0 : float) w :=
  setUniform_Vec4 env this name (Glsl.mkVec4 x y z w0) w.
Definition setParameter_Texture env (this : Shader) name (texture : Texture) w :=
  setUniform_Texture env this name texture w.
Definition setParameter_CurrentTexture env (this : Shader) name w :=
  setUniform_CurrentTexture env this name w.

Definition getNativeHandle (this : Shader) : N := m_shaderProgram this.

(** *** Binding *)

(** [std::map] iterates in increasing key order. *)
Definition key_le (p q : Z * Texture) : Prop := p.1 ≤ q.1.
#[global] Instance key_le_dec : RelDecision key_le.
Proof. intros p q. unfold key_le. apply _. Defined.

Definition in_key_order (m : gmap Z Texture) : list (Z * Texture) :=
  merge_sort key_le (map_to_list m).

Fixpoint bindTextures_loop (i : nat) (it : list (Z * Texture)) (w : World)
  : World :=
  match it with
  | [] => w
  | (first, second) :: it =>
      let index := static_cast_GLint (i + 1) in
      let w := glCheck (GL.GLEXT_glUniform1i first index) w in
      let w := glCheck (GL.GLEXT_glActiveTexture index) w in
      let w := glCheck (GL.Texture_bind (Some second) Normalized) w in
      bindTextures_loop (S i) it w
  end.

Definition bindTextures (this : Shader) (w : World) : World :=
  let w := bindTextures_loop 0 (in_key_order (m_textures this)) w in
  (* Make sure that the texture unit which is left active is the number 0 *)
  glCheck (GL.GLEXT_glActiveTexture 0) w.

Definition bind_unavailable : string :=
  "Failed to bind or unbind shader: your system doesn't support shaders "
  +:+ "(you should test Shader::isAvailable() before trying to use the Shader class)".

Definition bind (env : Env) (shader : option Shader) (w : World) : World :=
  (* Make sure that we can use shaders *)
  let '(available, w) := isAvailable env w in
  if negb available then err_endl bind_unavailable w
  else
    match shader with
    | Some shader =>
        if (m_shaderProgram shader =? 0)%N then
          (* Bind no shader *)
          glUseProgramObject 0%N w
        else
          (* Enable the program *)
          let w := glUseProgramObject (castToGlHandle (m_shaderProgram shader)) w in
          (* Bind the textures *)
          let w := bindTextures shader w in
          (* Bind the current texture *)
          if m_currentTexture shader =? -1 then w
          else glCheck (GL.GLEXT_glUniform1i (m_currentTexture shader) 0) w
    | None =>
        (* Bind no shader *)
        glUseProgramObject 0%N w
    end.

(** *** Compilation *)
Definition create_unavailable : string :=
  "Failed to create a shader: your system doesn't support shaders "
  +:+ "(you should test Shader::isAvailable() before trying to use the Shader class)".
Definition create_geometry_unavailable : string :=
  "Failed to create a shader: your system doesn't support geometry shaders "
  +:+ "(you should test Shader::isGeometryAvailable() before trying to use geometry shaders)".

Definition stage_failed (ty : GL.ShaderType) : string :=
  match ty with
  | GL.GLEXT_GL_VERTEX_SHADER => "Failed to compile vertex shader:"
  | GL.GLEXT_GL_GEOMETRY_SHADER => "Failed to compile geometry shader:"
  | GL.GLEXT_GL_FRAGMENT_SHADER => "Failed to compile fragment shader:"
  end.

(** One of the three "create the ... shader if needed" blocks of [compile]:
    the blocks differ in the shader type and in the message only.  The
    boolean is false when [compile] returns false from inside the block. *)
Definition compile_stage (env : Env) (ty : GL.ShaderType) (code : option string)
    (shaderProgram : GLhandle) (w : World) : bool * World :=
  match code with
  | None => (true, w)
  | Some code =>
      (* Create and compile the shader *)
      let shaderObject := glCreateShaderObject_result env (calls w) ty in
      let w := glCheck (GL.GLEXT_glCreateShaderObject ty) w in
      let w := glCheck (GL.GLEXT_glShaderSource shaderObject code) w in
      let w := glCheck (GL.GLEXT_glCompileShader shaderObject) w in
      (* Check the compile log *)
      let w := glCheck (GL.GLEXT_glGetShaderParameteriv_COMPILE_STATUS shaderObject) w in
      if compile_status env ty code then
        (* Attach the shader to the program, and delete it (not needed anymore) *)
        let w := glCheck (GL.GLEXT_glAttachShader shaderProgram shaderObject) w in
        (true, glCheck (GL.GLEXT_glDeleteShader shaderObject) w)
      else
        let w := glCheck (GL.GLEXT_glGetShaderInfoLog shaderObject) w in
        let w := err_endl (stage_failed ty) w in
        let w := err_endl (shader_info_log env ty code) w in
        let w := glCheck (GL.GLEXT_glDeleteShader shaderObject) w in
        (false, glCheck (GL.GLEXT_glDeleteProgram shaderProgram) w)
  end.

Definition compile (env : Env) (this : Shader)
    (vertexShaderCode geometryShaderCode fragmentShaderCode : option string)
    (w : World) : bool * Shader * World :=
  (* First make sure that we can use shaders *)
  let '(available, w) := isAvailable env w in
  if negb available then (false, this, err_endl create_unavailable w)
  else
  (* Make sure we can use geometry shaders *)
  let '(geometryUnavailable, w) :=
    match geometryShaderCode with
    | Some _ =>
        let '(available, w) := isGeometryAvailable env w in (negb available, w)
    | None => (false, w)
    end in
  if geometryUnavailable then (false, this, err_endl create_geometry_unavailable w)
  else
    (* Destroy the shader if it was already created *)
    let '(this, w) :=
      if (m_shaderProgram this =? 0)%N then (this, w)
      else (set_m_shaderProgram 0%N this,
            glCheck (GL.GLEXT_glDeleteProgram (castToGlHandle (m_shaderProgram this))) w) in
    (* Reset the internal state *)
    let this := set_m_currentTexture (-1) this in
    let this := set_m_textures ∅ this in
    let this := set_m_uniforms ∅ this in
    (* Create the program *)
    let shaderProgram := glCreateProgramObject_result env (calls w) in
    let w := glCheck GL.GLEXT_glCreateProgramObject w in
    (* Create the vertex shader if needed *)
    let '(ok, w) :=
      compile_stage env GL.GLEXT_GL_VERTEX_SHADER vertexShaderCode shaderProgram w in
    if negb ok then (false, this, w)
    else
    (* Create the geometry shader if needed (not on OpenGL ES) *)
    let attachedGeometry :=
      if SFML_OPENGL_ES env then None else geometryShaderCode in
    let '(ok, w) :=
      compile_stage env GL.GLEXT_GL_GEOMETRY_SHADER attachedGeometry shaderProgram w in
    if negb ok then (false, this, w)
    else
    (* Create the fragment shader if needed *)
    let '(ok, w) :=
      compile_stage env GL.GLEXT_GL_FRAGMENT_SHADER fragmentShaderCode shaderProgram w in
    if negb ok then (false, this, w)
    else
    (* Link the program *)
    let w := glCheck (GL.GLEXT_glLinkProgram shaderProgram) w in
    (* Check the link log *)
    let w := glCheck (GL.GLEXT_glGetProgramParameteriv_LINK_STATUS shaderProgram) w in
    if negb (link_status env vertexShaderCode attachedGeometry fragmentShaderCode)
    then
      let w := glCheck (GL.GLEXT_glGetProgramInfoLog shaderProgram) w in
      let w := err_endl "Failed to link shader:" w in
      let w := err_endl (program_info_log env vertexShaderCode attachedGeometry
                           fragmentShaderCode) w in
      (false, this, glCheck (GL.GLEXT_glDeleteProgram shaderProgram) w)
    else
      let this := set_m_shaderProgram (castFromGlHandle shaderProgram) this in
      (* Force an OpenGL flush, so that the shader will appear updated
         in all contexts immediately *)
      (true, this, glCheck GL.glFlush w).

Inductive Type_ := Vertex | Geometry | Fragment.

Definition loadFromMemory_type env (this : Shader) (shader : string) (type : Type_) w :=
  match type with
  | Vertex => compile env this (Some shader) None None w
  | Geometry => compile env this None (Some shader) None w
  | Fragment => compile env this None None (Some shader) w
  end.
Definition loadFromMemory env (this : Shader) (vertexShader fragmentShader : string) w :=
  compile env this (Some vertexShader) None (Some fragmentShader) w.
Definition loadFromMemory_geometry env (this : Shader)
    (vertexShader geometryShader fragmentShader : string) w :=
  compile env this (Some vertexShader) (Some geometryShader) (Some fragmentShader) w.

(** *** Built-in programs *)
Definition newline : string := String (ascii_of_nat 10) EmptyString.

Definition defaultShader_vertex (env : Env) : string :=
  if SFML_OPENGL_ES env then
    "#version 100" +:+ newline +:+
    "attribute vec2 position;" +:+
    "attribute vec4 color;" +:+
    "varying vec4 sf_color;" +:+
    "uniform mat4 sf_modelview;" +:+
    "uniform mat4 sf_projection;" +:+
    "void main()" +:+
    "{" +:+
    "    vec2 pos = position;" +:+
    "    sf_color = color;" +:+
    "    gl_Position = sf_projection * sf_modelview * vec4(pos.xy, 0.0, 1.0);" +:+
    "}"
  else
    "#version 120" +:+ newline +:+
    "void main()" +:+
    "{" +:+
    "    gl_Position = gl_ModelViewProjectionMatrix * gl_Vertex;" +:+
    "    gl_FrontColor = gl_Color;" +:+
    "}".

Definition defaultShader_fragment (env : Env) : string :=
  if SFML_OPENGL_ES env then
    "#version 100" +:+ newline +:+
    "precision mediump float;" +:+
    "varying vec4 sf_color;" +:+
    "void main()" +:+
    "{" +:+
    "    gl_FragColor = sf_color;" +:+
    "}"
  else
    "#version 120" +:+ newline +:+
    "void main()" +:+
    "{" +:+
    "    gl_FragColor = gl_Color;" +:+
    "}".

Definition defaultTexShader_vertex (env : Env) : string :=
  if SFML_OPENGL_ES env then
    "#version 100" +:+ newline +:+
    "attribute vec2 position;" +:+
    "attribute vec4 color;" +:+
    "attribute vec2 texCoord;" +:+
    "varying vec4 sf_color;" +:+
    "varying vec2 sf_texCoord;" +:+
    "uniform mat4 sf_modelview;" +:+
    "uniform mat4 sf_projection;" +:+
    "void main()" +:+
    "{" +:+
    "    vec2 pos = position;" +:+
    "    sf_color = color;" +:+
    "    sf_texCoord = texCoord;" +:+
    "    gl_Position = sf_projection * sf_modelview * vec4(pos.xy, 0.0, 1.0);" +:+
    "}"
  else
    "#version 120" +:+ newline +:+
    "void main()" +:+
    "{" +:+
    "    gl_Position = gl_ModelViewProjectionMatrix * gl_Vertex;" +:+
    "    gl_TexCoord[0] = gl_TextureMatrix[0] * gl_MultiTexCoord0;" +:+
    "    gl_FrontColor = gl_Color;" +:+
    "}".

Definition defaultTexShader_fragment (env : Env) : string :=
  if SFML_OPENGL_ES env then
    "#version 100" +:+ newline +:+
    "precision mediump float;" +:+
    "varying vec4 sf_color;" +:+
    "varying vec2 sf_texCoord;" +:+
    "uniform sampler2D sf_sampler;" +:+
    "uniform mat4 sf_texture;" +:+
    "void main()" +:+
    "{" +:+
    "    vec4 coord = sf_texture * vec4(sf_texCoord, 0.0, 1.0);" +:+
    "    gl_FragColor = texture2D(sf_sampler, coord.xy) * sf_color;" +:+
    "}"
  else
    "#version 120" +:+ newline +:+
    "uniform sampler2D texture;" +:+
    "void main()" +:+
    "{" +:+
    "    vec4 pixel = texture2D(texture, gl_TexCoord[0].xy);" +:+
    "    gl_FragColor = gl_Color * pixel;" +:+
    "}".

(** [getDefaultShader] returns a reference to its static instance: the world
    after the call holds the instance, compiled on the first call. *)
Definition getDefaultShader (env : Env) (w : World) : World :=
  if getDefaultShader_first w then
    let '(_, instance, w) :=
      loadFromMemory env (getDefaultShader_instance w)
        (defaultShader_vertex env) (defaultShader_fragment env) w in
    set_getDefaultShader instance false w
  else w.

Definition getDefaultTexShader (env : Env) (w : World) : World :=
  if getDefaultTexShader_first w then
    let '(_, instance, w) :=
      loadFromMemory env (getDefaultTexShader_instance w)
        (defaultTexShader_vertex env) (defaultTexShader_fragment env) w in
    set_getDefaultTexShader instance false w
  else w.

End Shader.

(** ** Pointers to shader objects

    The render target reaches shaders through pointers: the shader of the
    render states, or one of the two built-in instances.  A pointer of the
    application that names no live object is outside this model; reading
    through it yields a default-constructed shader. *)
Inductive ShaderPtr := AppShader (address : N) | DefaultShader | DefaultTexShader.

Definition deref (p : ShaderPtr) (w : World) : Shader :=
  match p with
  | AppShader address => default Shader.new (shaders w !! address)
  | DefaultShader => getDefaultShader_instance w
  | DefaultTexShader => getDefaultTexShader_instance w
  end.

Definition store (p : ShaderPtr) (s : Shader) (w : World) : World :=
  match p with
  | AppShader address => set_shaders (<[address := s]> (shaders w)) w
  | DefaultShader => set_getDefaultShader s (getDefaultShader_first w) w
  | DefaultTexShader => set_getDefaultTexShader s (getDefaultTexShader_first w) w
  end.

(** [shader->setUniform(name, matrix)] and [shader->setUniform(name, vec2)]
    through a pointer. *)
Definition setUniform_Mat4_at (env : Env) (p : ShaderPtr) (name : string)
    (matrix : Glsl.Mat4) (w : World) : World :=
  let '(s, w) := Shader.setUniform_Mat4 env (deref p w) name matrix w in
  store p s w.
Definition setUniform_Vec2_at (env : Env) (p : ShaderPtr) (name : string)
    (v : Glsl.Vec2) (w : World) : World :=
  let '(s, w) := Shader.setUniform_Vec2 env (deref p w) name v w in
  store p s w.

(** ** RenderTarget.cpp, namespace RenderTargetImpl *)
Module RenderTargetImpl.

(** Unique identifier, used for identifying RenderTargets when tracking the
    currently active RenderTarget within a given context. *)
Definition getUniqueId (w : World) : Uint64 * World :=
  (getUniqueId_id w,
   set_getUniqueId_id ((getUniqueId_id w + 1) mod Uint64_modulus)%N w).

(** Check if a RenderTarget with the given ID is active in the current context. *)
Definition isActive (id : Uint64) (w : World) : bool :=
  match contextRenderTargetMap w !! getActiveContextId w with
  | None => false
  | Some second => if (second =? id)%N then true else false
  end.

(** The enumeration has no value outside its ten constants here, so the
    fallback of the switch is not reached. *)
Definition factorToGlConstant (blendFactor : BlendMode.Factor) : GL.BlendFactor :=
  match blendFactor with
  | BlendMode.Zero => GL.GL_ZERO
  | BlendMode.One => GL.GL_ONE
  | BlendMode.SrcColor => GL.GL_SRC_COLOR
  | BlendMode.OneMinusSrcColor => GL.GL_ONE_MINUS_SRC_COLOR
  | BlendMode.DstColor => GL.GL_DST_COLOR
  | BlendMode.OneMinusDstColor => GL.GL_ONE_MINUS_DST_COLOR
  | BlendMode.SrcAlpha => GL.GL_SRC_ALPHA
  | BlendMode.OneMinusSrcAlpha => GL.GL_ONE_MINUS_SRC_ALPHA
  | BlendMode.DstAlpha => GL.GL_DST_ALPHA
  | BlendMode.OneMinusDstAlpha => GL.GL_ONE_MINUS_DST_ALPHA
  end.

Definition equation_fallback_warning : list string :=
  [ "OpenGL extension EXT_blend_minmax or EXT_blend_subtract unavailable";
    "Some blending equations will fallback to sf::BlendMode::Add";
    "Ensure that hardware acceleration is enabled if available" ].

(** The tail of [equationToGlConstant], reached by a [break]. *)
Definition equationToGlConstant_fallback (w : World) : GL.BlendEquation * World :=
  let w :=
    if equationToGlConstant_warned w then w
    else
      let w := fold_left (fun w line => err_endl line w) equation_fallback_warning w in
      set_equationToGlConstant_warned true w in
  (GL.GLEXT_GL_FUNC_ADD, w).

Definition equationToGlConstant (env : Env) (blendEquation : BlendMode.Equation)
    (w : World) : GL.BlendEquation * World :=
  match blendEquation with
  | BlendMode.Add => (GL.GLEXT_GL_FUNC_ADD, w)
  | BlendMode.Subtract =>
      if GLEXT_blend_subtract env then (GL.GLEXT_GL_FUNC_SUBTRACT, w)
      else equationToGlConstant_fallback w
  | BlendMode.ReverseSubtract =>
      if GLEXT_blend_subtract env then (GL.GLEXT_GL_FUNC_REVERSE_SUBTRACT, w)
      else equationToGlConstant_fallback w
  | BlendMode.Min =>
      if GLEXT_blend_minmax env then (GL.GLEXT_GL_MIN, w)
      else equationToGlConstant_fallback w
  | BlendMode.Max =>
      if GLEXT_blend_minmax env then (GL.GLEXT_GL_MAX, w)
      else equationToGlConstant_fallback w
  end.

End RenderTargetImpl.

(** ** RenderTarget.cpp, class RenderTarget *)
Module RenderTarget.

(** [static_cast<int>(unsigned int)]: the 32 bits read as a signed number. *)
Definition static_cast_int_unsigned (n : N) : Z :=
  ((Z.of_N n + 2 ^ 31) mod 2 ^ 32) - 2 ^ 31.

(** The constructor.  [view] is what the default constructor of [sf::View]
    builds.  The cache is value-initialised: its scalar members are zero, its
    blend mode and its vertices are what their default constructors build;
    then five members are assigned.  [size] and [srgb] stand for the virtual
    [getSize] and [isSrgb] of the derived class. *)
Definition new (env : Env) (view : View) (size : Vector2u) (srgb : bool)
  : RenderTarget :=
  mkRenderTarget view view
    (mkStatesCache false false false (BlendMode_new env)
       0%N false false (replicate (VertexCacheSize env) (Vertex_new env))
       0%N (-1) (-1) (-1))
    0%N size srgb.

Definition setActive (this : RenderTarget) (active : bool) (w : World)
  : bool * RenderTarget * World :=
  (* Mark this RenderTarget as active or no longer active in the tracking map *)
  let contextId := getActiveContextId w in
  let iter := contextRenderTargetMap w !! contextId in
  let '(this, w) :=
    if active then
      match iter with
      | None =>
          let w := set_contextRenderTargetMap
                     (<[contextId := m_id this]> (contextRenderTargetMap w)) w in
          let this := upd_cache (set_glStatesSet false) this in
          let this := upd_cache (set_enable false) this in
          (this, w)
      | Some second =>
          if (second =? m_id this)%N then (this, w)
          else
            let w := set_contextRenderTargetMap
                       (<[contextId := m_id this]> (contextRenderTargetMap w)) w in
            (upd_cache (set_enable false) this, w)
      end
    else
      let w := match iter with
               | Some _ => set_contextRenderTargetMap
                             (delete contextId (contextRenderTargetMap w)) w
               | None => w
               end in
      (upd_cache (set_enable false) this, w) in
  (true, this, w).

(** The guard [RenderTargetImpl::isActive(m_id) || setActive(true)]. *)
Definition isActive_or_setActive (this : RenderTarget) (w : World)
  : bool * RenderTarget * World :=
  if RenderTargetImpl.isActive (m_id this) w then (true, this, w)
  else setActive this true w.

Definition applyTexture (this : RenderTarget) (texture : option Texture)
    (w : World) : RenderTarget * World :=
  let w := glCheck (GL.Texture_bind texture Pixels) w in
  (upd_cache (set_lastTextureId
                match texture with Some t => m_cacheId t | None => 0%N end) this,
   w).

Definition applyShader (env : Env) (shader : option ShaderPtr) (w : World) : World :=
  Shader.bind env ((fun p => deref p w) <$> shader) w.

Definition blend_unavailable_warning (env : Env) : list string :=
  [ if SFML_OPENGL_ES env
    then "OpenGL ES extension OES_blend_subtract unavailable"
    else "OpenGL extension EXT_blend_minmax and EXT_blend_subtract unavailable";
    "Selecting a blend equation not possible";
    "Ensure that hardware acceleration is enabled if available" ].

Definition Equation_neq (l r0 : BlendMode.Equation) : bool :=
  negb (bool_decide (l = r0)).

Definition applyBlendMode (env : Env) (this : RenderTarget) (mode : BlendMode.t)
    (w : World) : RenderTarget * World :=
  let factorToGlConstant := RenderTargetImpl.factorToGlConstant in
  let equationToGlConstant := RenderTargetImpl.equationToGlConstant env in
  (* Apply the blend mode, falling back to the non-separate versions if necessary *)
  let w :=
    if GLEXT_blend_func_separate env then
      glCheck (GL.GLEXT_glBlendFuncSeparate
                 (factorToGlConstant (BlendMode.colorSrcFactor mode))
                 (factorToGlConstant (BlendMode.colorDstFactor mode))
                 (factorToGlConstant (BlendMode.alphaSrcFactor mode))
                 (factorToGlConstant (BlendMode.alphaDstFactor mode))) w
    else
      glCheck (GL.glBlendFunc
                 (factorToGlConstant (BlendMode.colorSrcFactor mode))
                 (factorToGlConstant (BlendMode.colorDstFactor mode))) w in
  let w :=
    if GLEXT_blend_minmax env || GLEXT_blend_subtract env then
      if GLEXT_blend_equation_separate env then
        let '(colorEq, w) := equationToGlConstant (BlendMode.colorEquation mode) w in
        let '(alphaEq, w) := equationToGlConstant (BlendMode.alphaEquation mode) w in
        glCheck (GL.GLEXT_glBlendEquationSeparate colorEq alphaEq) w
      else
        let '(colorEq, w) := equationToGlConstant (BlendMode.colorEquation mode) w in
        glCheck (GL.GLEXT_glBlendEquation colorEq) w
    else if Equation_neq (BlendMode.colorEquation mode) BlendMode.Add
            || Equation_neq (BlendMode.alphaEquation mode) BlendMode.Add then
      if applyBlendMode_warned w then w
      else
        let w := fold_left (fun w line => err_endl line w)
                   (blend_unavailable_warning env) w in
        set_applyBlendMode_warned true w
    else w in
  (upd_cache (set_lastBlendMode mode) this, w).

Definition applyTransform (env : Env) (transform : Transform) (w : World) : World :=
  (* No need to call glMatrixMode(GL_MODELVIEW), it is always the current mode *)
  if Transform_eq env transform Transform_Identity then glCheck GL.glLoadIdentity w
  else glCheck (GL.glLoadMatrixf (getMatrix transform)) w.

Definition setView (this : RenderTarget) (view : View) : RenderTarget :=
  upd_cache (set_viewChanged true) (set_m_view view this).
Definition getView (this : RenderTarget) : View := m_view this.
Definition getDefaultView (this : RenderTarget) : View := m_defaultView this.

Definition getViewport (this : RenderTarget) (view : View) : IntRect :=
  let width := static_cast_float (ux (getSize this)) in
  let height := static_cast_float (uy (getSize this)) in
  let viewport := getViewport_ view in
  mkIntRect (static_cast_int (fadd 0.5 (fmul width (fleft viewport))))
            (static_cast_int (fadd 0.5 (fmul height (ftop viewport))))
            (static_cast_int (fadd 0.5 (fmul width (fwidth viewport))))
            (static_cast_int (fadd 0.5 (fmul height (fheight viewport)))).

Definition applyCurrentView (this : RenderTarget) (w : World)
  : RenderTarget * World :=
  (* Set the viewport *)
  let viewport := getViewport this (m_view this) in
  let top_ := static_cast_int_unsigned (uy (getSize this))
              - (top viewport + height viewport) in
  let w := glCheck (GL.glViewport (left viewport) top_ (width viewport)
                      (height viewport)) w in
  (* Set the projection matrix *)
  let w := glCheck (GL.glMatrixMode GL.GL_PROJECTION) w in
  let w := glCheck (GL.glLoadMatrixf (getMatrix (getTransform (m_view this)))) w in
  (* Go back to model-view mode *)
  let w := glCheck (GL.glMatrixMode GL.GL_MODELVIEW) w in
  (upd_cache (set_viewChanged false) this, w).

Definition resetGLStates (env : Env) (this : RenderTarget) (w : World)
  : RenderTarget * World :=
  (* Check here to make sure a context change does not happen after activate(true) *)
  let '(shaderAvailable, w) := Shader.isAvailable env w in
  let vertexBufferAvailable := VertexBuffer_isAvailable env in
  (* Workaround for states not being properly reset on macOS *)
  let '(this, w) :=
    if SFML_SYSTEM_MACOS env
    then let '(_, this, w) := setActive this false w in (this, w)
    else (this, w) in
  let '(ok, this, w) := isActive_or_setActive this w in
  if negb ok then (this, w)
  else
    (* Make sure that extensions are initialized *)
    let w := glCheck GL.ensureExtensionsInit w in
    (* Make sure that the texture unit which is active is the number 0 *)
    let w :=
      if SFML_OPENGL_ES env then
        glCheck_if (GLEXT_multitexture env) (GL.GLEXT_glActiveTexture 0) w
      else if GLEXT_multitexture env then
        glCheck (GL.GLEXT_glActiveTexture 0)
          (glCheck (GL.GLEXT_glClientActiveTexture 0) w)
      else w in
    (* Define the default OpenGL states *)
    let w := glCheck (GL.glDisable GL.GL_CULL_FACE) w in
    let w := glCheck (GL.glDisable GL.GL_DEPTH_TEST) w in
    let w := glCheck (GL.glEnable GL.GL_BLEND) w in
    let w :=
      if SFML_OPENGL_ES env then
        let w := glCheck_if (0 <=? posAttrib (m_cache this))
                   (GL.glDisableVertexAttribArray (posAttrib (m_cache this))) w in
        let w := glCheck_if (0 <=? colAttrib (m_cache this))
                   (GL.glDisableVertexAttribArray (colAttrib (m_cache this))) w in
        glCheck_if (0 <=? texAttrib (m_cache this))
          (GL.glDisableVertexAttribArray (texAttrib (m_cache this))) w
      else
        let w := glCheck (GL.glDisable GL.GL_ALPHA_TEST) w in
        let w := glCheck (GL.glDisable GL.GL_LIGHTING) w in
        let w := glCheck (GL.glEnable GL.GL_TEXTURE_2D) w in
        let w := glCheck (GL.glMatrixMode GL.GL_MODELVIEW) w in
        let w := glCheck GL.glLoadIdentity w in
        let w := glCheck (GL.glEnableClientState GL.GL_VERTEX_ARRAY) w in
        let w := glCheck (GL.glEnableClientState GL.GL_COLOR_ARRAY) w in
        glCheck (GL.glEnableClientState GL.GL_TEXTURE_COORD_ARRAY) w in
    let this := upd_cache (set_glStatesSet true) this in
    (* Apply the default SFML states *)
    let '(this, w) := applyBlendMode env this (BlendAlpha env) w in
    let '(this, w) := applyTexture this None w in
    let w := if shaderAvailable then applyShader env None w else w in
    let w := glCheck_if vertexBufferAvailable (GL.VertexBuffer_bind None) w in
    let this := upd_cache (set_texCoordsArrayEnabled true) this in
    let this := upd_cache (set_useVertexCache false) this in
    (* Set the default view *)
    let this := setView this (getView this) in
    (upd_cache (set_enable true) this, w).

Definition initialize (env : Env) (this : RenderTarget) (w : World)
  : RenderTarget * World :=
  (* Setup the default and current views *)
  let this :=
    set_m_defaultView
      (View_reset env (m_defaultView this)
         (mkFloatRect (inject_Z 0) (inject_Z 0)
            (static_cast_float (ux (getSize this)))
            (static_cast_float (uy (getSize this))))) this in
  let this := set_m_view (m_defaultView this) this in
  (* Set GL states only on first draw, so that we don't pollute user's states *)
  let this := upd_cache (set_glStatesSet false) this in
  (* Generate a unique ID for this RenderTarget *)
  let '(id, w) := RenderTargetImpl.getUniqueId w in
  (set_m_id id this, w).

Definition clear (this : RenderTarget) (color : Color) (w : World)
  : RenderTarget * World :=
  let '(ok, this, w) := isActive_or_setActive this w in
  if negb ok then (this, w)
  else
    (* Unbind texture to fix RenderTexture preventing clear *)
    let '(this, w) := applyTexture this None w in
    let channel (c : N) : float := fdiv (inject_Z (Z.of_N c)) (inject_Z 255) in
    let w := glCheck (GL.glClearColor (channel (r color)) (channel (g color))
                        (channel (b color)) (channel (a color))) w in
    (this, glCheck GL.glClear_GL_COLOR_BUFFER_BIT w).

(** The texture-matrix block of [setupDraw] on OpenGL ES.  (A zero
    [m_actualSize] makes the C++ divisions yield an infinity or a NaN; the
    rationals used here yield zero instead.) *)
Definition setup_texture_uniforms (env : Env) (usedShader : ShaderPtr)
    (texture : Texture) (w : World) : World :=
  let one := inject_Z 1 in
  let zero := inject_Z 0 in
  let actual_x := static_cast_float (ux (m_actualSize texture)) in
  let actual_y := static_cast_float (uy (m_actualSize texture)) in
  (* If non-normalized coordinates (= pixels) are requested, we need to
     setup scale factors that convert the range [0 .. size] to [0 .. 1] *)
  let m0 := fdiv one actual_x in
  let m5 := fdiv one actual_y in
  (* If pixels are flipped we must invert the Y axis *)
  let '(m5, m13) :=
    if m_pixelsFlipped texture
    then ((- m5)%Q, fdiv (static_cast_float (uy (m_size texture))) actual_y)
    else (m5, zero) in
  let matrix := [ m0; zero; zero; zero;
                  zero; m5; zero; zero;
                  zero; zero; one; zero;
                  zero; m13; zero; one ] in
  let w := setUniform_Mat4_at env usedShader "sf_texture" (Glsl.mkMat4 matrix) w in
  (* Defines an uniform that allows shaders to scale its texcoords depending
     on their size and not on their actual size *)
  if negb (ux (m_actualSize texture) =? 0)%N && negb (uy (m_actualSize texture) =? 0)%N
  then
    setUniform_Vec2_at env usedShader "factor_npot"
      (Glsl.mkVec2 (fdiv (static_cast_float (ux (m_size texture))) actual_x)
                   (fdiv (static_cast_float (uy (m_size texture))) actual_y)) w
  else w.

Definition setupDraw (env : Env) (this : RenderTarget) (useVertexCache : bool)
    (states : RenderStates) (w : World) : RenderTarget * World :=
  (* Enable or disable sRGB encoding *)
  let w :=
    if enable (m_cache this) then w
    else if isSrgb this then glCheck (GL.glEnable GL.GL_FRAMEBUFFER_SRGB) w
    else glCheck (GL.glDisable GL.GL_FRAMEBUFFER_SRGB) w in
  (* First set the persistent OpenGL states if it's the very first call *)
  let '(this, w) :=
    if glStatesSet (m_cache this) then (this, w) else resetGLStates env this w in
  if SFML_OPENGL_ES env then
    let '(usedShader, w) :=
      match shader states, texture states with
      | Some address, _ => (AppShader address, w)
      | None, None => (DefaultShader, Shader.getDefaultShader env w)
      | None, Some _ => (DefaultTexShader, Shader.getDefaultTexShader env w)
      end in
    let w :=
      if useVertexCache then
        (* Since vertices are transformed, we must use an identity transform *)
        setUniform_Mat4_at env usedShader "sf_modelview"
          (Glsl.mkMat4 (getMatrix Transform_Identity)) w
      else
        setUniform_Mat4_at env usedShader "sf_modelview"
          (Glsl.mkMat4 (getMatrix (transform states))) w in
    (* Set the viewport *)
    let viewport := getViewport this (m_view this) in
    let top_ := static_cast_int_unsigned (uy (getSize this))
                - (top viewport + height viewport) in
    let w := glCheck (GL.glViewport (left viewport) top_ (width viewport)
                        (height viewport)) w in
    (* Set the projection matrix *)
    let w := setUniform_Mat4_at env usedShader "sf_projection"
               (Glsl.mkMat4 (getMatrix (getTransform (m_view this)))) w in
    (* Apply the blend mode *)
    let '(this, w) :=
      if negb (enable (m_cache this))
         || BlendMode.neq (blendMode states) (lastBlendMode (m_cache this))
      then applyBlendMode env this (blendMode states) w
      else (this, w) in
    (* Apply the texture *)
    let '(setTexture, this, w) :=
      if negb (enable (m_cache this))
         || match texture states with Some t => m_fboAttachment t | None => false end
      then
        (* If the texture is an FBO attachment, always rebind it *)
        let '(this, w) := applyTexture this (texture states) w in
        (bool_decide (is_Some (texture states)), this, w)
      else
        let textureId :=
          match texture states with Some t => m_cacheId t | None => 0%N end in
        if (textureId =? lastTextureId (m_cache this))%N then (false, this, w)
        else
          let '(this, w) := applyTexture this (texture states) w in
          (bool_decide (is_Some (texture states)), this, w) in
    let w :=
      match texture states with
      | Some t =>
          if setTexture
             || negb (programChanged (m_cache this)
                      =? Shader.getNativeHandle (deref usedShader w))%N
          then setup_texture_uniforms env usedShader t w
          else w
      | None => w
      end in
    let w := applyShader env (Some usedShader) w in
    let handle := Shader.getNativeHandle (deref usedShader w) in
    if (programChanged (m_cache this) =? handle)%N then (this, w)
    else
      let pos := glGetAttribLocation_result env handle "position" in
      let w := glCheck (GL.glGetAttribLocation handle "position") w in
      let col := glGetAttribLocation_result env handle "color" in
      let w := glCheck (GL.glGetAttribLocation handle "color") w in
      let tex := glGetAttribLocation_result env handle "texCoord" in
      let w := glCheck (GL.glGetAttribLocation handle "texCoord") w in
      let this := upd_cache (set_attribs handle pos col tex) this in
      let w := glCheck_if (0 <=? pos) (GL.glEnableVertexAttribArray pos) w in
      let w := glCheck_if (0 <=? col) (GL.glEnableVertexAttribArray col) w in
      let w := glCheck_if (0 <=? tex) (GL.glEnableVertexAttribArray tex) w in
      (this, w)
  else
    let w :=
      if useVertexCache then
        (* Since vertices are transformed, we must use an identity transform *)
        if negb (enable (m_cache this)) || negb (m_cache_useVertexCache this)
        then glCheck GL.glLoadIdentity w
        else w
      else applyTransform env (transform states) w in
    (* Apply the view *)
    let '(this, w) :=
      if negb (enable (m_cache this)) || viewChanged (m_cache this)
      then applyCurrentView this w
      else (this, w) in
    (* Apply the blend mode *)
    let '(this, w) :=
      if negb (enable (m_cache this))
         || BlendMode.neq (blendMode states) (lastBlendMode (m_cache this))
      then applyBlendMode env this (blendMode states) w
      else (this, w) in
    (* Apply the texture *)
    let '(this, w) :=
      if negb (enable (m_cache this))
         || match texture states with Some t => m_fboAttachment t | None => false end
      then
        (* If the texture is an FBO attachment, always rebind it *)
        applyTexture this (texture states) w
      else
        let textureId :=
          match texture states with Some t => m_cacheId t | None => 0%N end in
        if (textureId =? lastTextureId (m_cache this))%N then (this, w)
        else applyTexture this (texture states) w in
    (* Apply the shader *)
    let w :=
      match shader states with
      | Some address => applyShader env (Some (AppShader address)) w
      | None => w
      end in
    (this, w).

Definition modes (type : PrimitiveType) : GL.DrawMode :=
  match type with
  | Points => GL.GL_POINTS
  | Lines => GL.GL_LINES
  | LineStrip => GL.GL_LINE_STRIP
  | Triangles => GL.GL_TRIANGLES
  | TriangleStrip => GL.GL_TRIANGLE_STRIP
  | TriangleFan => GL.GL_TRIANGLE_FAN
  | Quads => GL.GL_QUADS
  end.

Definition drawPrimitives (type : PrimitiveType) (firstVertex vertexCount : nat)
    (w : World) : World :=
  (* Find the OpenGL primitive type *)
  let mode := modes type in
  (* Draw the primitives *)
  glCheck (GL.glDrawArrays mode (static_cast_GLint firstVertex)
             (static_cast_GLint vertexCount)) w.

Definition cleanupDraw (env : Env) (this : RenderTarget) (states : RenderStates)
    (w : World) : RenderTarget * World :=
  let w :=
    if SFML_OPENGL_ES env then applyShader env None w
    else
      (* Unbind the shader, if any *)
      match shader states with
      | Some _ => applyShader env None w
      | None => w
      end in
  (* If the texture we used to draw belonged to a RenderTexture, then
     forcibly unbind that texture *)
  let '(this, w) :=
    match texture states with
    | Some t => if m_fboAttachment t then applyTexture this None w else (this, w)
    | None => (this, w)
    end in
  (* Re-enable the cache at the end of the draw if it was disabled *)
  (upd_cache (set_enable true) this, w).

Definition quads_unsupported : string :=
  "sf::Quads primitive type is not supported on OpenGL ES platforms, drawing skipped".

Definition is_Quads (type : PrimitiveType) : bool :=
  match type with Quads => true | _ => false end.

(** The pre-transform loop of [draw]. *)
Fixpoint pretransform (env : Env) (states : RenderStates) (vertices : nat -> Vertex)
    (n : nat) (cache : list Vertex) : list Vertex :=
  match n with
  | O => cache
  | S i =>
      let cache := pretransform env states vertices i cache in
      <[i := mkVertex (Transform_mul env (transform states) (position (vertices i)))
                      (color (vertices i)) (texCoords (vertices i))]> cache
  end.

(** [draw(const Vertex* vertices, std::size_t vertexCount, PrimitiveType type,
    const RenderStates& states)].  [vertices] is [None] for a null pointer,
    else the array the pointer gives access to, by index. *)
Definition draw (env : Env) (this : RenderTarget) (vertices : option (nat -> Vertex))
    (vertexCount : nat) (type : PrimitiveType) (states : RenderStates)
    (w : World) : RenderTarget * World :=
  match vertices with
  | None => (this, w)
  | Some vertices =>
  (* Nothing to draw? *)
  if (vertexCount =? 0)%nat then (this, w)
  (* GL_QUADS is unavailable on OpenGL ES *)
  else if SFML_OPENGL_ES env && is_Quads type then (this, err_endl quads_unsupported w)
  else
  let '(ok, this, w) := isActive_or_setActive this w in
  if negb ok then (this, w)
  else
    (* Check if the vertex count is low enough so that we can pre-transform them *)
    let useVertexCache := (vertexCount <=? VertexCacheSize env)%nat in
    let this :=
      if useVertexCache then
        (* Pre-transform the vertices and store them into the vertex cache *)
        upd_cache (fun c => set_vertexCache
                     (pretransform env states vertices vertexCount (vertexCache c)) c)
          this
      else this in
    let '(this, w) := setupDraw env this useVertexCache states w in
    (* Check if texture coordinates array is needed *)
    let enableTexCoordsArray :=
      bool_decide (is_Some (texture states)) || bool_decide (is_Some (shader states)) in
    (* If we pre-transform the vertices, we must use our internal vertex cache *)
    let data := if useVertexCache then GL.VertexCache else GL.UserVertices in
    let w :=
      if SFML_OPENGL_ES env then
        let w := glCheck_if (0 <=? posAttrib (m_cache this))
                   (GL.glVertexAttribPointer (posAttrib (m_cache this)) 2 GL.GL_FLOAT
                      false sizeof_Vertex (GL.at_offset data 0)) w in
        let w := glCheck_if (0 <=? colAttrib (m_cache this))
                   (GL.glVertexAttribPointer (colAttrib (m_cache this)) 4
                      GL.GL_UNSIGNED_BYTE true sizeof_Vertex (GL.at_offset data 8)) w in
        glCheck_if (enableTexCoordsArray && (0 <=? texAttrib (m_cache this)))
          (GL.glVertexAttribPointer (texAttrib (m_cache this)) 2 GL.GL_FLOAT
             false sizeof_Vertex (GL.at_offset data 12)) w
      else
        (* update client state accordingly *)
        let w :=
          if negb (enable (m_cache this))
             || negb (eqb enableTexCoordsArray (texCoordsArrayEnabled (m_cache this)))
          then
            if enableTexCoordsArray
            then glCheck (GL.glEnableClientState GL.GL_TEXTURE_COORD_ARRAY) w
            else glCheck (GL.glDisableClientState GL.GL_TEXTURE_COORD_ARRAY) w
          else w in
        (* If we switch between non-cache and cache mode or enable texture
           coordinates we need to set up the pointers to the vertices' components *)
        if negb (enable (m_cache this)) || negb useVertexCache
           || negb (m_cache_useVertexCache this)
        then
          let w := glCheck (GL.glVertexPointer 2 GL.GL_FLOAT sizeof_Vertex
                              (GL.at_offset data 0)) w in
          let w := glCheck (GL.glColorPointer 4 GL.GL_UNSIGNED_BYTE sizeof_Vertex
                              (GL.at_offset data 8)) w in
          glCheck_if enableTexCoordsArray
            (GL.glTexCoordPointer 2 GL.GL_FLOAT sizeof_Vertex (GL.at_offset data 12)) w
        else if enableTexCoordsArray && negb (texCoordsArrayEnabled (m_cache this))
        then
          (* If we enter this block, we are already using our internal vertex cache *)
          glCheck (GL.glTexCoordPointer 2 GL.GL_FLOAT sizeof_Vertex
                     (GL.at_offset GL.VertexCache 12)) w
        else w in
    let w := drawPrimitives type 0 vertexCount w in
    let '(this, w) := cleanupDraw env this states w in
    (* Update the cache *)
    let this := upd_cache (set_useVertexCache useVertexCache) this in
    let this := upd_cache (set_texCoordsArrayEnabled enableTexCoordsArray) this in
    (this, w)
  end.

Definition vertex_buffer_unavailable : string :=
  "sf::VertexBuffer is not available, drawing skipped".

(** [draw(const VertexBuffer&, std::size_t firstVertex, std::size_t
    vertexCount, const RenderStates&)]. *)
Definition draw_VertexBuffer_range (env : Env) (this : RenderTarget)
    (vertexBuffer : VertexBuffer) (firstVertex vertexCount : nat)
    (states : RenderStates) (w : World) : RenderTarget * World :=
  (* VertexBuffer not supported? *)
  if negb (VertexBuffer_isAvailable env) then (this, err_endl vertex_buffer_unavailable w)
  (* Sanity check *)
  else if (vb_size vertexBuffer <? firstVertex)%nat then (this, w)
  else
  (* Clamp vertexCount to something that makes sense *)
  let vertexCount := Nat.min vertexCount (vb_size vertexBuffer - firstVertex) in
  (* Nothing to draw? *)
  if (vertexCount =? 0)%nat || (m_buffer vertexBuffer =? 0)%N then (this, w)
  (* GL_QUADS is unavailable on OpenGL ES *)
  else if SFML_OPENGL_ES env && is_Quads (m_primitiveType vertexBuffer)
  then (this, err_endl quads_unsupported w)
  else
  let '(ok, this, w) := isActive_or_setActive this w in
  if negb ok then (this, w)
  else
    let '(this, w) := setupDraw env this false states w in
    (* Bind vertex buffer *)
    let w := glCheck (GL.VertexBuffer_bind (Some vertexBuffer)) w in
    let null := GL.BoundBuffer in
    let w :=
      if SFML_OPENGL_ES env then
        let w := glCheck_if ((negb (enable (m_cache this))
                              || negb (texCoordsArrayEnabled (m_cache this)))
                             && (0 <=? texAttrib (m_cache this)))
                   (GL.glEnableVertexAttribArray (texAttrib (m_cache this))) w in
        let w := glCheck_if (0 <=? posAttrib (m_cache this))
                   (GL.glVertexAttribPointer (posAttrib (m_cache this)) 2 GL.GL_FLOAT
                      false sizeof_Vertex (GL.at_offset null 0)) w in
        let w := glCheck_if (0 <=? colAttrib (m_cache this))
                   (GL.glVertexAttribPointer (colAttrib (m_cache this)) 4
                      GL.GL_UNSIGNED_BYTE true sizeof_Vertex (GL.at_offset null 8)) w in
        glCheck_if (0 <=? texAttrib (m_cache this))
          (GL.glVertexAttribPointer (texAttrib (m_cache this)) 2 GL.GL_FLOAT
             false sizeof_Vertex (GL.at_offset null 12)) w
      else
        (* Always enable texture coordinates *)
        let w := glCheck_if (negb (enable (m_cache this))
                             || negb (texCoordsArrayEnabled (m_cache this)))
                   (GL.glEnableClientState GL.GL_TEXTURE_COORD_ARRAY) w in
        let w := glCheck (GL.glVertexPointer 2 GL.GL_FLOAT sizeof_Vertex
                            (GL.at_offset null 0)) w in
        let w := glCheck (GL.glColorPointer 4 GL.GL_UNSIGNED_BYTE sizeof_Vertex
                            (GL.at_offset null 8)) w in
        glCheck (GL.glTexCoordPointer 2 GL.GL_FLOAT sizeof_Vertex
                   (GL.at_offset null 12)) w in
    let w := drawPrimitives (m_primitiveType vertexBuffer) firstVertex vertexCount w in
    (* Unbind vertex buffer *)
    let w := glCheck (GL.VertexBuffer_bind None) w in
    let '(this, w) := cleanupDraw env this states w in
    (* Update the cache *)
    let this := upd_cache (set_useVertexCache false) this in
    let this := upd_cache (set_texCoordsArrayEnabled true) this in
    (this, w).

Definition draw_VertexBuffer (env : Env) (this : RenderTarget)
    (vertexBuffer : VertexBuffer) (states : RenderStates) (w : World)
  : RenderTarget * World :=
  draw_VertexBuffer_range env this vertexBuffer 0 (vb_size vertexBuffer) states w.

(** The build is a release build: the check of [glGetError] that
    [SFML_DEBUG] adds at the start of [pushGLStates] is not part of it. *)
Definition pushGLStates (env : Env) (this : RenderTarget) (w : World)
  : RenderTarget * World :=
  let '(ok, this, w) := isActive_or_setActive this w in
  let w :=
    if ok && negb (SFML_OPENGL_ES env) then
      let w := glCheck GL.glPushClientAttrib_GL_CLIENT_ALL_ATTRIB_BITS w in
      let w := glCheck GL.glPushAttrib_GL_ALL_ATTRIB_BITS w in
      let w := glCheck (GL.glMatrixMode GL.GL_MODELVIEW) w in
      let w := glCheck GL.glPushMatrix w in
      let w := glCheck (GL.glMatrixMode GL.GL_PROJECTION) w in
      let w := glCheck GL.glPushMatrix w in
      let w := glCheck (GL.glMatrixMode GL.GL_TEXTURE) w in
      glCheck GL.glPushMatrix w
    else w in
  resetGLStates env this w.

Definition popGLStates (env : Env) (this : RenderTarget) (w : World)
  : RenderTarget * World :=
  let '(ok, this, w) := isActive_or_setActive this w in
  let w :=
    if ok && negb (SFML_OPENGL_ES env) then
      let w := glCheck (GL.glMatrixMode GL.GL_PROJECTION) w in
      let w := glCheck GL.glPopMatrix w in
      let w := glCheck (GL.glMatrixMode GL.GL_MODELVIEW) w in
      let w := glCheck GL.glPopMatrix w in
      let w := glCheck (GL.glMatrixMode GL.GL_TEXTURE) w in
      let w := glCheck GL.glPopMatrix w in
      let w := glCheck GL.glPopClientAttrib w in
      glCheck GL.glPopAttrib w
    else w in
  (this, w).

End RenderTarget.

(** * Scenarios and reference formulas *)

(** The formula of the specification for [getViewport]: each coordinate is
    [floor(0.5 + x)], where [x] is the normalized coordinate scaled by the
    pixel size of the target. *)
Definition getViewport_floor (this : RenderTarget) (view : View) : IntRect :=
  let W := inject_Z (Z.of_N (ux (getSize this))) in
  let H := inject_Z (Z.of_N (uy (getSize this))) in
  let viewport := getViewport_ view in
  mkIntRect (Qfloor (0.5 + W * fleft viewport)%Q)
            (Qfloor (0.5 + H * ftop viewport)%Q)
            (Qfloor (0.5 + W * fwidth viewport)%Q)
            (Qfloor (0.5 + H * fheight viewport)%Q).

(** Rounding toward zero: the floor of a non-negative number, the ceiling of
    a negative one. *)
Definition toward_zero (y : Q) : Z :=
  if Qle_bool 0 y then Qfloor y else Qceiling y.

(** The [float] that [getViewport] converts to [int] for a normalized
    coordinate [x] and a size in pixels: [0.5f + size * x], the size converted
    to [float], the product and the sum each rounded. *)
Definition viewport_coordinate (size : N) (x : float) : float :=
  fadd 0.5 (fmul (static_cast_float size) x).

(** None of the three roundings of a coordinate changes the number. *)
Definition exact_coordinate (size : N) (x : float) : Prop :=
  let S := inject_Z (Z.of_N size) in
  (binary32 S == S ∧ binary32 (S * x) == S * x
   ∧ binary32 (0.5 + S * x) == 0.5 + S * x)%Q.

(** A desktop and an OpenGL ES environment for the worked examples. *)
Definition example_location (program : GLhandle) (name : string) : GLint :=
  if String.eqb name "missing" then -1 else Z.of_nat (String.length name).

Definition example_Transform_mul (t : Transform) (p : Vector2f) : Vector2f :=
  let m (i : nat) : Q := nth i (getMatrix t) (inject_Z 0) in
  mkVector2f (m 0%nat * v2x p + m 4%nat * v2y p + m 12%nat)%Q
             (m 1%nat * v2x p + m 5%nat * v2y p + m 13%nat)%Q.

Definition example_Transform_eq (l r0 : Transform) : bool :=
  forallb (fun p => Qeq_bool p.1 p.2) (combine (getMatrix l) (getMatrix r0)).

Definition example_BlendAlpha : BlendMode.t :=
  BlendMode.mk BlendMode.SrcAlpha BlendMode.OneMinusSrcAlpha BlendMode.Add
               BlendMode.One BlendMode.OneMinusSrcAlpha BlendMode.Add.

Definition example_env (es extensions : bool) (maxUnits : Z) : Env :=
  mkEnv es false
    extensions extensions true true true true true true true false false true
    maxUnits example_location example_location
    (fun issued => N.of_nat (S (length issued)))
    (fun issued _ => N.of_nat (S (length issued)))
    (fun _ code => negb (String.eqb code "syntax error"))
    (fun _ _ _ => true)
    (fun _ _ => "0:1: syntax error")
    (fun _ _ _ => "link error")
    4%nat example_BlendAlpha example_BlendAlpha
    (mkVertex (mkVector2f (inject_Z 0) (inject_Z 0)) (mkColor 255 255 255 255)
       (mkVector2f (inject_Z 0) (inject_Z 0)))
    example_Transform_mul example_Transform_eq
    (fun view _ => view).

Definition example_world : World :=
  mkWorld 1%N ∅ false false Shader.new true Shader.new true false false false ∅ 0%N 0%N
    [] [].

Definition example_view : View :=
  mkView (mkFloatRect (inject_Z 0) (inject_Z 0) (inject_Z 1) (inject_Z 1))
         Transform_Identity.

Definition example_states (mode : BlendMode.t) : RenderStates :=
  mkRenderStates mode Transform_Identity None None.

Definition example_vertices (i : nat) : Vertex :=
  mkVertex (mkVector2f (inject_Z (Z.of_nat i)) (inject_Z 0)) (mkColor 255 255 255 255)
           (mkVector2f (inject_Z 0) (inject_Z 0)).

(** The location a name resolves to on a shader: the cached one, else the
    driver's answer for the shader's program. *)
Definition resolve (env : Env) (this : Shader) (name : string) : GLint :=
  match m_uniforms this !! name with
  | Some location => location
  | None => glGetUniformLocation_result env (castToGlHandle (m_shaderProgram this)) name
  end.

(** Location lookups, one after the other. *)
Fixpoint lookups (env : Env) (names : list string) (this : Shader) (w : World)
  : Shader * World :=
  match names with
  | [] => (this, w)
  | name :: names =>
      let '(_, this, w) := Shader.getUniformLocation env this name w in
      lookups env names this w
  end.

(** [setUniform(name, texture)] for each pair of a list, in order. *)
Fixpoint setUniform_Textures (env : Env) (bindings : list (string * Texture))
    (this : Shader) (w : World) : Shader * World :=
  match bindings with
  | [] => (this, w)
  | (name, texture) :: bindings =>
      let '(this, w) := Shader.setUniform_Texture env this name texture w in
      setUniform_Textures env bindings this w
  end.

(** No texture is recorded under the location [-1]. *)
Definition textures_wf (this : Shader) : Prop := m_textures this !! (-1) = None.

(** Whether every given stage compiles and the program links. *)
Definition stage_ok (env : Env) (ty : GL.ShaderType) (code : option string) : bool :=
  match code with
  | Some code => compile_status env ty code
  | None => true
  end.
Definition compiles_and_links (env : Env)
    (vertexShaderCode geometryShaderCode fragmentShaderCode : option string) : bool :=
  let attachedGeometry := if SFML_OPENGL_ES env then None else geometryShaderCode in
  stage_ok env GL.GLEXT_GL_VERTEX_SHADER vertexShaderCode
  && stage_ok env GL.GLEXT_GL_GEOMETRY_SHADER attachedGeometry
  && stage_ok env GL.GLEXT_GL_FRAGMENT_SHADER fragmentShaderCode
  && link_status env vertexShaderCode attachedGeometry fragmentShaderCode.

(** The uniform-setting operations of [sf::Shader], one constructor per
    overload of [setUniform], [setUniformArray] and [setParameter]. *)
Inductive UniformOp :=
  | Set_float (x : float)
  | Set_Vec2 (v : Glsl.Vec2)
  | Set_Vec3 (v : Glsl.Vec3)
  | Set_Vec4 (v : Glsl.Vec4)
  | Set_int (x : Z)
  | Set_Ivec2 (v : Glsl.Ivec2)
  | Set_Ivec3 (v : Glsl.Ivec3)
  | Set_Ivec4 (v : Glsl.Ivec4)
  | Set_bool (x : bool)
  | Set_Bvec2 (v : Glsl.Bvec2)
  | Set_Bvec3 (v : Glsl.Bvec3)
  | Set_Bvec4 (v : Glsl.Bvec4)
  | Set_Mat3 (m : Glsl.Mat3)
  | Set_Mat4 (m : Glsl.Mat4)
  | Set_Texture (t : Texture)
  | Set_CurrentTexture
  | SetArray_float (l : list float)
  | SetArray_Vec2 (l : list Glsl.Vec2)
  | SetArray_Vec3 (l : list Glsl.Vec3)
  | SetArray_Vec4 (l : list Glsl.Vec4)
  | SetArray_Mat3 (l : list Glsl.Mat3)
  | SetArray_Mat4 (l : list Glsl.Mat4)
  | Param_float (x : float)
  | Param_float2 (x y : float)
  | Param_float3 (x y z : float)
  | Param_float4 (x y z w : float)
  | Param_Texture (t : Texture)
  | Param_CurrentTexture.

Definition set_uniform (env : Env) (this : Shader) (name : string) (op : UniformOp)
    (w : World) : Shader * World :=
  match op with
  | Set_float x => Shader.setUniform_float env this name x w
  | Set_Vec2 v => Shader.setUniform_Vec2 env this name v w
  | Set_Vec3 v => Shader.setUniform_Vec3 env this name v w
  | Set_Vec4 v => Shader.setUniform_Vec4 env this name v w
  | Set_int x => Shader.setUniform_int env this name x w
  | Set_Ivec2 v => Shader.setUniform_Ivec2 env this name v w
  | Set_Ivec3 v => Shader.setUniform_Ivec3 env this name v w
  | Set_Ivec4 v => Shader.setUniform_Ivec4 env this name v w
  | Set_bool x => Shader.setUniform_bool env this name x w
  | Set_Bvec2 v => Shader.setUniform_Bvec2 env this name v w
  | Set_Bvec3 v => Shader.setUniform_Bvec3 env this name v w
  | Set_Bvec4 v => Shader.setUniform_Bvec4 env this name v w
  | Set_Mat3 m => Shader.setUniform_Mat3 env this name m w
  | Set_Mat4 m => Shader.setUniform_Mat4 env this name m w
  | Set_Texture t => Shader.setUniform_Texture env this name t w
  | Set_CurrentTexture => Shader.setUniform_CurrentTexture env this name w
  | SetArray_float l => Shader.setUniformArray_float env this name l w
  | SetArray_Vec2 l => Shader.setUniformArray_Vec2 env this name l w
  | SetArray_Vec3 l => Shader.setUniformArray_Vec3 env this name l w
  | SetArray_Vec4 l => Shader.setUniformArray_Vec4 env this name l w
  | SetArray_Mat3 l => Shader.setUniformArray_Mat3 env this name l w
  | SetArray_Mat4 l => Shader.setUniformArray_Mat4 env this name l w
  | Param_float x => Shader.setParameter_float env this name x w
  | Param_float2 x y => Shader.setParameter_float2 env this name x y w
  | Param_float3 x y z => Shader.setParameter_float3 env this name x y z w
  | Param_float4 x y z w0 => Shader.setParameter_float4 env this name x y z w0 w
  | Param_Texture t => Shader.setParameter_Texture env this name t w
  | Param_CurrentTexture => Shader.setParameter_CurrentTexture env this name w
  end.

(** Activating a target in a context: the context is made current on the
    calling thread, then the target runs the guard that opens every drawing
    operation. *)
Definition activate (target : RenderTarget) (context : Uint64) (w : World)
  : RenderTarget * World :=
  let '(_, target, w) :=
    RenderTarget.isActive_or_setActive target (set_getActiveContextId context w) in
  (target, w).

Definition example_texture (id : N) : Texture :=
  mkTexture id id false (mkVector2u 16 16) (mkVector2u 16 16) false.

(** A shader that holds the (linked) program 7 and nothing else. *)
Definition example_shader : Shader := mkShader 7 (-1) ∅ ∅.



(** Two initialized targets of an application, and the world after the
    first of them has drawn a triangle in context 5. *)
Definition example_targets (env : Env) : RenderTarget * RenderTarget * World :=
  let fresh := RenderTarget.new env example_view (mkVector2u 4 4) false in
  let '(A, w) := RenderTarget.initialize env fresh example_world in
  let '(B, w) := RenderTarget.initialize env fresh w in
  let w := set_getActiveContextId 5%N w in
  let '(A, w) :=
    RenderTarget.draw env A (Some example_vertices) 3 Triangles
      (example_states example_BlendAlpha) w in
  (A, B, w).

(** The OpenGL calls by what they change: the blend function or equation,
    the matrix mode or the current matrix, the frame buffer (a draw), or
    something else. *)
Inductive CallKind := KBlend | KMatrix | KDraw | KOther.

Definition call_kind (c : GL.Call) : CallKind :=
  match c with
  | GL.glBlendFunc _ _ | GL.GLEXT_glBlendFuncSeparate _ _ _ _
  | GL.GLEXT_glBlendEquation _ | GL.GLEXT_glBlendEquationSeparate _ _ => KBlend
  | GL.glMatrixMode _ | GL.glPushMatrix | GL.glPopMatrix | GL.glLoadIdentity
  | GL.glLoadMatrixf _ => KMatrix
  | GL.glDrawArrays _ _ _ => KDraw
  | _ => KOther
  end.

Definition is_blend_call (c : GL.Call) : bool :=
  match call_kind c with KBlend => true | _ => false end.

(** The blend-state-change calls of [applyBlendMode] for a mode. *)
Definition blend_calls (env : Env) (mode : BlendMode.t) : list GL.Call :=
  let factor := RenderTargetImpl.factorToGlConstant in
  let equation (e : BlendMode.Equation) : GL.BlendEquation :=
    (RenderTargetImpl.equationToGlConstant env e example_world).1 in
  [ if GLEXT_blend_func_separate env then
      GL.GLEXT_glBlendFuncSeparate
        (factor (BlendMode.colorSrcFactor mode)) (factor (BlendMode.colorDstFactor mode))
        (factor (BlendMode.alphaSrcFactor mode)) (factor (BlendMode.alphaDstFactor mode))
    else
      GL.glBlendFunc
        (factor (BlendMode.colorSrcFactor mode)) (factor (BlendMode.colorDstFactor mode)) ]
  ++ (if GLEXT_blend_minmax env || GLEXT_blend_subtract env then
        [ if GLEXT_blend_equation_separate env then
            GL.GLEXT_glBlendEquationSeparate (equation (BlendMode.colorEquation mode))
              (equation (BlendMode.alphaEquation mode))
          else GL.GLEXT_glBlendEquation (equation (BlendMode.colorEquation mode)) ]
      else []).

(** A draw that [draw] does not skip: a non-null array, a non-zero count and
    a primitive type the platform has. *)
Definition drawable (env : Env) (vertices : option (nat -> Vertex)) (vertexCount : nat)
    (type : PrimitiveType) : Prop :=
  is_Some vertices ∧ vertexCount ≠ 0%nat
  ∧ SFML_OPENGL_ES env && RenderTarget.is_Quads type = false.

(** The target as [resetGLStates] leaves it. *)
Definition reset_target (env : Env) (this : RenderTarget) : RenderTarget :=
  let c := m_cache this in
  mkRenderTarget (m_defaultView this) (m_view this)
    (mkStatesCache true true true (BlendAlpha env) 0%N true false (vertexCache c)
       (programChanged c) (posAttrib c) (colAttrib c) (texAttrib c))
    (m_id this) (getSize this) (isSrgb this).

(** The "modelview transform" step of [setupDraw], for the shader in use on
    OpenGL ES, and the "viewport and projection" step that follows it. *)
Definition transform_step (env : Env) (usedShader : ShaderPtr) (t : RenderTarget)
    (cached : bool) (states : RenderStates) (w : World) : World :=
  if SFML_OPENGL_ES env then
    if cached then
      setUniform_Mat4_at env usedShader "sf_modelview"
        (Glsl.mkMat4 (getMatrix Transform_Identity)) w
    else
      setUniform_Mat4_at env usedShader "sf_modelview"
        (Glsl.mkMat4 (getMatrix (transform states))) w
  else
    if cached then
      if negb (enable (m_cache t)) || negb (m_cache_useVertexCache t)
      then glCheck GL.glLoadIdentity w
      else w
    else RenderTarget.applyTransform env (transform states) w.

Definition view_step (env : Env) (usedShader : ShaderPtr) (t : RenderTarget) (w : World)
  : RenderTarget * World :=
  if SFML_OPENGL_ES env then
    let viewport := RenderTarget.getViewport t (m_view t) in
    let top_ := RenderTarget.static_cast_int_unsigned (uy (getSize t))
                - (top viewport + height viewport) in
    let w := glCheck (GL.glViewport (left viewport) top_ (width viewport)
                        (height viewport)) w in
    (t, setUniform_Mat4_at env usedShader "sf_projection"
          (Glsl.mkMat4 (getMatrix (getTransform (m_view t)))) w)
  else if negb (enable (m_cache t)) || viewChanged (m_cache t)
  then RenderTarget.applyCurrentView t w
  else (t, w).

(** The "apply the blend mode" step of [setupDraw]. *)
Definition blend_step (env : Env) (t : RenderTarget) (states : RenderStates) (w : World)
  : RenderTarget * World :=
  if negb (enable (m_cache t))
     || BlendMode.neq (blendMode states) (lastBlendMode (m_cache t))
  then RenderTarget.applyBlendMode env t (blendMode states) w
  else (t, w).

(** The target and the world on which [resetGLStates] runs its guard: after
    the check of the availability of shaders and the deactivation that works
    around macOS, when the build has it. *)
Definition reset_entry (env : Env) (t : RenderTarget) (w : World)
  : RenderTarget * World :=
  let '(_, w) := Shader.isAvailable env w in
  if SFML_SYSTEM_MACOS env
  then let '(_, t, w) := RenderTarget.setActive t false w in (t, w)
  else (t, w).

(** A vertex-buffer draw that [draw] does not skip. *)
Definition drawable_buffer (env : Env) (vertexBuffer : VertexBuffer)
    (firstVertex vertexCount : nat) : Prop :=
  VertexBuffer_isAvailable env = true
  ∧ (firstVertex ≤ vb_size vertexBuffer)%nat
  ∧ Nat.min vertexCount (vb_size vertexBuffer - firstVertex) ≠ 0%nat
  ∧ m_buffer vertexBuffer ≠ 0%N
  ∧ SFML_OPENGL_ES env && RenderTarget.is_Quads (m_primitiveType vertexBuffer) = false.

(** ** Drawing operations

    The two drawing entry points under one type: a draw of a vertex array and
    a draw of a range of a vertex buffer ([draw(vertexBuffer, states)] is the
    range [0, size)). *)
Inductive DrawCall :=
  | DrawVertices (vertices : option (nat → Vertex)) (vertexCount : nat)
      (type : PrimitiveType) (states : RenderStates)
  | DrawVertexBuffer (vertexBuffer : VertexBuffer) (firstVertex vertexCount : nat)
      (states : RenderStates).

Definition run_draw (env : Env) (this : RenderTarget) (d : DrawCall) (w : World)
  : RenderTarget * World :=
  match d with
  | DrawVertices vertices vertexCount type states =>
      RenderTarget.draw env this vertices vertexCount type states w
  | DrawVertexBuffer vertexBuffer firstVertex vertexCount states =>
      RenderTarget.draw_VertexBuffer_range env this vertexBuffer firstVertex vertexCount
        states w
  end.

Definition draw_states (d : DrawCall) : RenderStates :=
  match d with
  | DrawVertices _ _ _ states | DrawVertexBuffer _ _ _ states => states
  end.

(** The operation passes the early returns of its entry point. *)
Definition performed (env : Env) (d : DrawCall) : Prop :=
  match d with
  | DrawVertices vertices vertexCount type _ => drawable env vertices vertexCount type
  | DrawVertexBuffer vertexBuffer firstVertex vertexCount _ =>
      drawable_buffer env vertexBuffer firstVertex vertexCount
  end.

(** The [glDrawArrays] call of the operation. *)
Definition draw_arrays (d : DrawCall) : GL.Call :=
  match d with
  | DrawVertices _ vertexCount type _ =>
      GL.glDrawArrays (RenderTarget.modes type) (static_cast_GLint 0)
        (static_cast_GLint vertexCount)
  | DrawVertexBuffer vertexBuffer firstVertex vertexCount _ =>
      GL.glDrawArrays (RenderTarget.modes (m_primitiveType vertexBuffer))
        (static_cast_GLint firstVertex)
        (static_cast_GLint (Nat.min vertexCount (vb_size vertexBuffer - firstVertex)))
  end.

#[global] Instance drawable_dec env vertices vertexCount type :
  Decision (drawable env vertices vertexCount type).
Proof. unfold drawable. apply _. Defined.

#[global] Instance drawable_buffer_dec env vertexBuffer firstVertex vertexCount :
  Decision (drawable_buffer env vertexBuffer firstVertex vertexCount).
Proof. unfold drawable_buffer. apply _. Defined.

#[global] Instance performed_dec env d : Decision (performed env d).
Proof. destruct d; apply _. Defined.

(** A drawing operation of the application: the target it draws on (by its
    position among the targets of the process), the context that is current
    when it runs, and the operation. *)
Record DrawRequest := mkDrawRequest
  { request_target : nat;
    request_context : Uint64;
    request_draw : DrawCall }.

(** The drawing operations of a process, one after the other.  A request
    that names no target is dropped. *)
Fixpoint run_draws (env : Env) (requests : list DrawRequest)
    (targets : list RenderTarget) (w : World) : list RenderTarget * World :=
  match requests with
  | [] => (targets, w)
  | r :: requests =>
      match targets !! request_target r with
      | Some t =>
          let '(t, w) :=
            run_draw env t (request_draw r)
              (set_getActiveContextId (request_context r) w) in
          run_draws env requests (<[request_target r := t]> targets) w
      | None => run_draws env requests targets w
      end
  end.

(** The [glDrawArrays] calls the requests are due: one for each request that
    names a target and passes the early returns. *)
Definition issued_draws (env : Env) (targets : nat) (requests : list DrawRequest)
  : list GL.Call :=
  flat_map (λ r, if decide ((request_target r < targets)%nat
                            ∧ performed env (request_draw r))
                 then [draw_arrays (request_draw r)] else []) requests.

(** ** The availability checks

    The world after the check of [geometryShaderCode && !isGeometryAvailable()]
    in [compile], and the world after both checks of [compile]: the second
    check is reached only when shaders are available. *)
Definition geometry_check (env : Env) (geometryShaderCode : option string) (w : World)
  : World :=
  match geometryShaderCode with
  | Some _ => (Shader.isGeometryAvailable env w).2
  | None => w
  end.

Definition compile_checks (env : Env) (geometryShaderCode : option string) (w : World)
  : World :=
  let w := (Shader.isAvailable env w).2 in
  if Shader.available env then geometry_check env geometryShaderCode w else w.

(** Calls that only make sure that the extensions are initialised. *)
Definition initialization_only (l : list GL.Call) : Prop :=
  Forall (λ c, c = GL.ensureExtensionsInit) l.

(** ** Properties of worlds along a draw *)

Local Close Scope string_scope.

(** The target [id] is the one active in the current context. *)
Definition active (id : Uint64) (w : World) : Prop :=
  RenderTargetImpl.isActive id w = true.

(** Since [w0], the calls that change the blend state are [X]. *)
Definition blend_trace (w0 : World) (X : list GL.Call) (w : World) : Prop :=
  ∃ l, calls w = calls w0 ++ l ∧ List.filter is_blend_call l = X.

(** The blend-state-change calls of a draw on a target whose cache is enabled. *)
Definition expected_blend_calls (env : Env) (cached mode : BlendMode.t) : list GL.Call :=
  if bool_decide (mode = cached) then [] else blend_calls env mode.

(** Equality of two blend modes, sub-field by sub-field. *)
Definition same_fields (l r0 : BlendMode.t) : bool :=
  bool_decide (BlendMode.colorSrcFactor l = BlendMode.colorSrcFactor r0)
  && bool_decide (BlendMode.colorDstFactor l = BlendMode.colorDstFactor r0)
  && bool_decide (BlendMode.colorEquation l = BlendMode.colorEquation r0)
  && bool_decide (BlendMode.alphaSrcFactor l = BlendMode.alphaSrcFactor r0)
  && bool_decide (BlendMode.alphaDstFactor l = BlendMode.alphaDstFactor r0)
  && bool_decide (BlendMode.alphaEquation l = BlendMode.alphaEquation r0).

(** The line that tells the warning of [applyBlendMode] from every other line
    of the error stream, and the number of times it has been written. *)
Definition blend_equation_warning : string :=
  "Selecting a blend equation not possible"%string.

Definition blend_warnings (w : World) : nat :=
  length (List.filter (String.eqb blend_equation_warning) (err w)).

(** The warnings written, and one more while the flag of [applyBlendMode] is
    down. *)
Definition warning_budget (w : World) : nat :=
  (blend_warnings w + if applyBlendMode_warned w then 0 else 1)%nat.

Definition is_equation_call (c : GL.Call) : bool :=
  match c with
  | GL.GLEXT_glBlendEquation _ | GL.GLEXT_glBlendEquationSeparate _ _ => true
  | _ => false
  end.

Definition is_draw_call (c : GL.Call) : bool :=
  match call_kind c with KDraw => true | _ => false end.

Definition is_matrix_call (c : GL.Call) : bool :=
  match call_kind c with KMatrix => true | _ => false end.

(** Since [w0] no blend equation has been selected, the draw calls are [D],
    and the warning budget has not grown. *)
Definition fallback_trace (w0 : World) (D : list GL.Call) (w : World) : Prop :=
  (∃ l, calls w = calls w0 ++ l
        ∧ List.filter is_equation_call l = []
        ∧ List.filter is_draw_call l = D)
  ∧ (warning_budget w ≤ warning_budget w0)%nat.

(** Applying a transform as GPU state: the model-view matrix of the fixed
    pipeline, or the [sf_modelview] uniform of the shader in use on OpenGL
    ES. *)
Definition gpu_transform (env : Env) (usedShader : ShaderPtr) (transform : Transform)
    (w : World) : World :=
  if SFML_OPENGL_ES env
  then setUniform_Mat4_at env usedShader "sf_modelview"%string
         (Glsl.mkMat4 (getMatrix transform)) w
  else RenderTarget.applyTransform env transform w.

(** Matrix calls that leave the model-view matrix alone: none, or a load of
    the projection matrix between two switches of the matrix mode. *)
Definition projection_only (X : list GL.Call) : Prop :=
  X = [] ∨ ∃ M, X = [GL.glMatrixMode GL.GL_PROJECTION; GL.glLoadMatrixf M;
                     GL.glMatrixMode GL.GL_MODELVIEW].

(** [w] continues the calls of [w0]. *)
Definition grows (w0 w : World) : Prop := ∃ l, calls w = calls w0 ++ l.

(** Calls that neither draw nor, on the fixed pipeline, touch the model-view
    matrix. *)
Definition quiet (env : Env) (post : list GL.Call) : Prop :=
  List.filter is_draw_call post = []
  ∧ (SFML_OPENGL_ES env = false → projection_only (List.filter is_matrix_call post)).

(** Since the world [wt], only quiet calls were issued. *)
Definition quiet_since (env : Env) (wt w : World) : Prop :=
  ∃ post, calls w = calls wt ++ post ∧ quiet env post.

(** Since the world [wt], quiet calls were issued, then the draw call [d]. *)
Definition drawn_after (env : Env) (d : GL.Call) (wt w : World) : Prop :=
  ∃ post rest, calls w = calls wt ++ post ++ d :: rest ∧ quiet env post.

(** The part of [setupDraw] that comes before the transform: the sRGB
    encoding, the states set on the very first call and, on OpenGL ES, the
    choice of the shader in use.  It gives that shader, the target and the
    world in which the transform is applied.  (The fixed pipeline has no
    shader in use: the pointer is not used there.) *)
Definition setupDraw_entry (env : Env) (this : RenderTarget) (states : RenderStates)
    (w : World) : ShaderPtr * RenderTarget * World :=
  let w :=
    if enable (m_cache this) then w
    else if isSrgb this then glCheck (GL.glEnable GL.GL_FRAMEBUFFER_SRGB) w
    else glCheck (GL.glDisable GL.GL_FRAMEBUFFER_SRGB) w in
  let '(this, w) :=
    if glStatesSet (m_cache this) then (this, w)
    else RenderTarget.resetGLStates env this w in
  if SFML_OPENGL_ES env then
    let '(usedShader, w) :=
      match shader states, texture states with
      | Some address, _ => (AppShader address, w)
      | None, None => (DefaultShader, Shader.getDefaultShader env w)
      | None, Some _ => (DefaultTexShader, Shader.getDefaultTexShader env w)
      end in
    (usedShader, this, w)
  else (DefaultShader, this, w).

(** The same from the start of a draw of more vertices than the vertex cache
    holds: the target is activated first. *)
Definition draw_entry (env : Env) (this : RenderTarget) (states : RenderStates)
    (w : World) : ShaderPtr * RenderTarget * World :=
  let '(_, this, w) := RenderTarget.isActive_or_setActive this w in
  setupDraw_entry env this states w.

(** The call of [applyTransform], and the matrix calls of
    [applyCurrentView]. *)
Definition load_transform (env : Env) (transform : Transform) : GL.Call :=
  if Transform_eq env transform Transform_Identity then GL.glLoadIdentity
  else GL.glLoadMatrixf (getMatrix transform).

Definition load_projection (view : View) : list GL.Call :=
  [GL.glMatrixMode GL.GL_PROJECTION; GL.glLoadMatrixf (getMatrix (getTransform view));
   GL.glMatrixMode GL.GL_MODELVIEW].

(** The calls of a [setUniform] of a value: none for a shader without a
    program; else the binder asks for the program in use ([saved]) and
    switches to the program of the shader, the location is looked up unless
    it is cached, the value is uploaded unless the location is [-1], and the
    binder switches back. *)
Definition uniform_calls (env : Env) (this : Shader) (name : string) (saved : GLhandle)
    (upload : GLint → GL.Call) : list GL.Call :=
  let program := castToGlHandle (m_shaderProgram this) in
  if (program =? 0)%N then []
  else
    [if SFML_OPENGL_ES env then GL.glGetIntegerv_GL_CURRENT_PROGRAM
     else GL.GLEXT_glGetHandle_GL_PROGRAM_OBJECT]
    ++ (if (program =? saved)%N then [] else [GL.GLEXT_glUseProgramObject program])
    ++ match m_uniforms this !! name with
       | Some _ => []
       | None => [GL.GLEXT_glGetUniformLocation program name]
       end
    ++ (if resolve env this name =? -1 then []
        else [upload (resolve env this name)])
    ++ (if (program =? saved)%N then [] else [GL.GLEXT_glUseProgramObject saved]).

(** The calls that apply a transform as GPU state in the world [w]: the load
    of the model-view matrix on the fixed pipeline (of the identity when the
    transform is the identity); on OpenGL ES the calls that set the
    [sf_modelview] uniform of the shader in use to the matrix of the
    transform. *)
Definition transform_calls (env : Env) (usedShader : ShaderPtr) (transform : Transform)
    (w : World) : list GL.Call :=
  if SFML_OPENGL_ES env
  then uniform_calls env (deref usedShader w) "sf_modelview"%string (current_program w)
         (λ location, GL.GLEXT_glUniformMatrix4fv location 1 (getMatrix transform))
  else [load_transform env transform].

(** ** Invariants of the world along the calls of a draw

    A property of worlds that survives every step the shader and texture
    machinery takes: calls that change neither blending nor a matrix nor the
    frame buffer, lines on the error stream that the property allows, and
    updates of the program in use, of the shader objects and of the statics
    of the availability checks. *)
Class Inv (P : World → Prop) : Type := mkInv
  { allowed_line : string → Prop;
    inv_call : ∀ c w, call_kind c = KOther → P w → P (glCheck c w);
    inv_line : ∀ l w, allowed_line l → P w → P (err_endl l w);
    inv_program : ∀ h w, P w → P (set_current_program h w);
    inv_shaders : ∀ m w, P w → P (set_shaders m w);
    inv_default : ∀ s first w, P w → P (set_getDefaultShader s first w);
    inv_defaultTex : ∀ s first w, P w → P (set_getDefaultTexShader s first w);
    inv_checked : ∀ b w, P w → P (set_isAvailable_checked b w);
    inv_geometry_checked : ∀ b w, P w → P (set_isGeometryAvailable_checked b w) }.

(** ** Sequences of shader operations

    What an application does to one shader object: it sets uniforms and it
    compiles new sources into it. *)
Inductive ShaderOp :=
  | OpSetUniform (name : string) (op : UniformOp)
  | OpCompile (vertexShaderCode geometryShaderCode fragmentShaderCode : option string).

Definition run_shader_op (env : Env) (o : ShaderOp) (this : Shader) (w : World)
  : Shader * World :=
  match o with
  | OpSetUniform name op => set_uniform env this name op w
  | OpCompile v g f => let '(_, this, w) := Shader.compile env this v g f w in (this, w)
  end.

Fixpoint run_shader_ops (env : Env) (ops : list ShaderOp) (this : Shader) (w : World)
  : Shader * World :=
  match ops with
  | [] => (this, w)
  | o :: ops => let '(this, w) := run_shader_op env o this w in run_shader_ops env ops this w
  end.

(** [Shader::~Shader]. *)
Definition Shader_delete (this : Shader) (w : World) : World :=
  (* Destroy effect program *)
  if (m_shaderProgram this =? 0)%N then w
  else glCheck (GL.GLEXT_glDeleteProgram (castToGlHandle (m_shaderProgram this))) w.

(** The texture table leaves unit 0 free: it is empty, or smaller than the
    number of units. *)
Definition units_spared (env : Env) (this : Shader) : Prop :=
  size (m_textures this) = 0%nat
  ∨ Z.of_nat (size (m_textures this)) < Shader.maxUnits env.

(** The texture units selected with [glActiveTexture], in order. *)
Definition active_texture_units (l : list GL.Call) : list Z :=
  omap (λ c, match c with GL.GLEXT_glActiveTexture unit => Some unit | _ => None end) l.

(** The sampler uniforms set with [glUniform1i]: location and unit. *)
Definition sampler_units (l : list GL.Call) : list (Z * Z) :=
  omap (λ c, match c with GL.GLEXT_glUniform1i location x => Some (location, x)
                        | _ => None end) l.

(** The calls that create and delete program objects and shader objects, and
    how many calls of a list satisfy a test. *)
Definition is_create_program (c : GL.Call) : bool :=
  match c with GL.GLEXT_glCreateProgramObject => true | _ => false end.
Definition is_delete_program (c : GL.Call) : bool :=
  match c with GL.GLEXT_glDeleteProgram _ => true | _ => false end.
Definition is_create_shader (c : GL.Call) : bool :=
  match c with GL.GLEXT_glCreateShaderObject _ => true | _ => false end.
Definition is_delete_shader (c : GL.Call) : bool :=
  match c with GL.GLEXT_glDeleteShader _ => true | _ => false end.

Definition count (p : GL.Call → bool) (l : list GL.Call) : nat :=
  length (List.filter p l).

(** The two early returns of [compile]: shaders are not available, or a
    geometry shader is given and geometry shaders are not available. *)
Definition refused (env : Env) (geometryShaderCode : option string) : bool :=
  negb (Shader.available env)
  || bool_decide (is_Some geometryShaderCode) && negb (Shader.geometry_available env).

(** Calls issued since [w0], none of which satisfies [p]. *)
Definition none_since (p : GL.Call → bool) (w0 w : World) : Prop :=
  ∃ l, calls w = calls w0 ++ l ∧ List.filter p l = [].

(** A shader with program 7, two samplers and the current texture bound to
    location 4; a session of an application with one shader object. *)
Definition example_sampler_shader : Shader :=
  mkShader 7 4 (<[5 := example_texture 2]> (<[3 := example_texture 1]> ∅)) ∅.

Definition example_shader_ops : list ShaderOp :=
  [ OpCompile (Some "void main() {}"%string) None (Some "void main() {}"%string);
    OpSetUniform "color"%string (Set_float (inject_Z 1));
    OpSetUniform "missing"%string Set_CurrentTexture;
    OpCompile (Some "syntax error"%string) None None;
    OpCompile None None (Some "void main() {}"%string) ].

(** ** Targets of a process and the calls of a draw *)

(** [initialize] on each target of a list, in order. *)
Fixpoint initialize_all (env : Env) (targets : list RenderTarget) (w : World)
  : list RenderTarget * World :=
  match targets with
  | [] => ([], w)
  | t :: targets =>
      let '(t, w) := RenderTarget.initialize env t w in
      let '(targets, w) := initialize_all env targets w in
      (t :: targets, w)
  end.

(** Since [w0], the draw calls are [D]; the calls that touch a matrix are
    [X]. *)
Definition draws_since (w0 : World) (D : list GL.Call) (w : World) : Prop :=
  ∃ l, calls w = calls w0 ++ l ∧ List.filter is_draw_call l = D.

Definition matrix_since (w0 : World) (X : list GL.Call) (w : World) : Prop :=
  ∃ l, calls w = calls w0 ++ l ∧ List.filter is_matrix_call l = X.

(** The cache identifier of the texture of the render states ([0] without a
    texture), and whether that texture belongs to a [RenderTexture]. *)
Definition texture_id (texture : option Texture) : Uint64 :=
  match texture with Some t => m_cacheId t | None => 0%N end.

Definition is_attachment (texture : option Texture) : bool :=
  match texture with Some t => m_fboAttachment t | None => false end.

(** Whether a drawing operation pre-transforms its vertices into the vertex
    cache. *)
Definition cached_draw (env : Env) (d : DrawCall) : bool :=
  match d with
  | DrawVertices _ vertexCount _ _ => (vertexCount <=? VertexCacheSize env)%nat
  | DrawVertexBuffer _ _ _ _ => false
  end.

(** Three drawing operations: a range of a vertex buffer that is clamped to
    the six vertices the buffer has left, a triangle, and a quad list. *)
Definition example_buffer_draw : DrawCall :=
  DrawVertexBuffer (mkVertexBuffer 9 10 Triangles) 4 100 (example_states example_BlendAlpha).

Definition example_triangle : DrawCall :=
  DrawVertices (Some example_vertices) 3 Triangles (example_states example_BlendAlpha).

Definition example_quads : DrawCall :=
  DrawVertices (Some example_vertices) 4 Quads (example_states example_BlendAlpha).

(** The two built-in shaders of OpenGL ES drawing: [getDefaultShader] and
    [getDefaultTexShader], with their function-local statics. *)
Inductive BuiltIn := Plain | Textured.

Definition built_in (env : Env) (b : BuiltIn) (w : World) : World :=
  match b with
  | Plain => Shader.getDefaultShader env w
  | Textured => Shader.getDefaultTexShader env w
  end.

Definition built_in_first (b : BuiltIn) (w : World) : bool :=
  match b with
  | Plain => getDefaultShader_first w
  | Textured => getDefaultTexShader_first w
  end.

Definition built_in_instance (b : BuiltIn) (w : World) : Shader :=
  match b with
  | Plain => getDefaultShader_instance w
  | Textured => getDefaultTexShader_instance w
  end.

(** * Properties *)

Local Close Scope string_scope.

(** ** The availability checks *)

Lemma calls_glCheck c w : calls (glCheck c w) = calls w ++ [c].
Proof. reflexivity. Qed.

Lemma isAvailable_eta env w :
  Shader.isAvailable env w = (Shader.available env, (Shader.isAvailable env w).2).
Proof. unfold Shader.isAvailable. destruct (isAvailable_checked w); reflexivity. Qed.

Lemma isAvailable_snd env w :
  (Shader.isAvailable env w).2
  = if isAvailable_checked w then w
    else glCheck GL.ensureExtensionsInit (set_isAvailable_checked true w).
Proof. unfold Shader.isAvailable. destruct (isAvailable_checked w); reflexivity. Qed.

Lemma isGeometryAvailable_eta env w :
  Shader.isGeometryAvailable env w
  = (Shader.geometry_available env, (Shader.isGeometryAvailable env w).2).
Proof.
  unfold Shader.isGeometryAvailable, Shader.geometry_available.
  destruct (isGeometryAvailable_checked w); [reflexivity|]. cbv zeta.
  destruct (SFML_OPENGL_ES env); [reflexivity|].
  rewrite isAvailable_eta. reflexivity.
Qed.

Lemma isGeometryAvailable_snd env w :
  (Shader.isGeometryAvailable env w).2
  = if isGeometryAvailable_checked w then w
    else
      let w := glCheck GL.ensureExtensionsInit (set_isGeometryAvailable_checked true w) in
      if SFML_OPENGL_ES env then w else (Shader.isAvailable env w).2.
Proof.
  unfold Shader.isGeometryAvailable.
  destruct (isGeometryAvailable_checked w); [reflexivity|]. cbv zeta.
  destruct (SFML_OPENGL_ES env); [reflexivity|].
  rewrite isAvailable_eta. reflexivity.
Qed.

(** The check of the geometry shader in [compile], as a pair. *)
Lemma geometry_check_eta env (g : option string) w :
  match g with
  | Some _ => let '(available, w) := Shader.isGeometryAvailable env w in (negb available, w)
  | None => (false, w)
  end
  = (bool_decide (is_Some g) && negb (Shader.geometry_available env),
     geometry_check env g w).
Proof.
  destruct g as [code|]; cbn [geometry_check].
  - rewrite isGeometryAvailable_eta. rewrite bool_decide_eq_true_2 by eauto. reflexivity.
  - rewrite bool_decide_eq_false_2 by (intros [? [=]]). reflexivity.
Qed.

Lemma getMaxTextureUnits_eta env w :
  Shader.getMaxTextureUnits env w
  = (Shader.maxUnits env, (Shader.getMaxTextureUnits env w).2).
Proof.
  unfold Shader.getMaxTextureUnits. destruct (getMaxTextureUnits_initialized w); reflexivity.
Qed.

Lemma getMaxTextureUnits_snd env w :
  (Shader.getMaxTextureUnits env w).2
  = if getMaxTextureUnits_initialized w then w
    else glCheck GL.glGetIntegerv_GLEXT_GL_MAX_COMBINED_TEXTURE_IMAGE_UNITS
           (set_getMaxTextureUnits_initialized true w).
Proof.
  unfold Shader.getMaxTextureUnits. destruct (getMaxTextureUnits_initialized w); reflexivity.
Qed.

Lemma getMaxTextureUnits_err env w : err (Shader.getMaxTextureUnits env w).2 = err w.
Proof.
  rewrite getMaxTextureUnits_snd. destruct (getMaxTextureUnits_initialized w); reflexivity.
Qed.

Lemma getMaxTextureUnits_current_program env w :
  current_program (Shader.getMaxTextureUnits env w).2 = current_program w.
Proof.
  rewrite getMaxTextureUnits_snd. destruct (getMaxTextureUnits_initialized w); reflexivity.
Qed.

(** The capacity check of [setUniform(name, texture)], as a pair. *)
Ltac enter_capacity_check := rewrite getMaxTextureUnits_eta; cbv beta iota.

(** [compile] with its two checks made explicit. *)
Ltac enter_compile :=
  unfold Shader.compile; rewrite isAvailable_eta; cbv beta iota;
  rewrite geometry_check_eta; cbv beta iota.

(** What the checks do to the calls and to the error stream: they make sure
    that the extensions are initialised, at most once each, and write
    nothing. *)
Lemma initialization_only_nil : initialization_only [].
Proof. constructor. Qed.

Lemma initialization_only_one : initialization_only [GL.ensureExtensionsInit].
Proof. repeat constructor. Qed.

Lemma isAvailable_frame env w :
  let w' := (Shader.isAvailable env w).2 in
  isAvailable_checked w' = true
  ∧ isGeometryAvailable_checked w' = isGeometryAvailable_checked w
  ∧ err w' = err w
  ∧ ∃ l, calls w' = calls w ++ l ∧ initialization_only l ∧ (length l ≤ 1)%nat
         ∧ (isAvailable_checked w = true → l = []).
Proof.
  cbv zeta. rewrite isAvailable_snd. destruct (isAvailable_checked w) eqn:E.
  - repeat split; auto. exists []. rewrite app_nil_r.
    repeat split; auto using initialization_only_nil.
  - repeat split; auto. exists [GL.ensureExtensionsInit].
    repeat split; auto using initialization_only_one. discriminate.
Qed.

Lemma isGeometryAvailable_frame env w :
  let w' := (Shader.isGeometryAvailable env w).2 in
  err w' = err w
  ∧ ∃ l, calls w' = calls w ++ l ∧ initialization_only l ∧ (length l ≤ 2)%nat
         ∧ (isAvailable_checked w = true → (length l ≤ 1)%nat)
         ∧ (isGeometryAvailable_checked w = true → l = []).
Proof.
  cbv zeta. rewrite isGeometryAvailable_snd.
  destruct (isGeometryAvailable_checked w) eqn:E.
  - split; [reflexivity|]. exists []. rewrite app_nil_r.
    repeat split; auto using initialization_only_nil; cbn; lia.
  - cbv zeta. destruct (SFML_OPENGL_ES env).
    + split; [reflexivity|]. exists [GL.ensureExtensionsInit].
      repeat split; auto using initialization_only_one; try discriminate; cbn; lia.
    + rewrite isAvailable_snd.
      change (isAvailable_checked (glCheck ?c (set_isGeometryAvailable_checked ?b w)))
        with (isAvailable_checked w).
      destruct (isAvailable_checked w).
      * split; [reflexivity|]. exists [GL.ensureExtensionsInit].
        repeat split; auto using initialization_only_one; try discriminate; cbn; lia.
      * split; [reflexivity|]. exists [GL.ensureExtensionsInit; GL.ensureExtensionsInit].
        repeat split; try discriminate; try (cbn; lia).
        -- cbn. rewrite <- app_assoc. reflexivity.
        -- repeat constructor.
Qed.

Lemma compile_checks_frame env (g : option string) w :
  let w' := compile_checks env g w in
  err w' = err w
  ∧ ∃ l, calls w' = calls w ++ l ∧ initialization_only l ∧ (length l ≤ 2)%nat
         ∧ (isAvailable_checked w = true →
            (is_Some g → isGeometryAvailable_checked w = true) → l = []).
Proof.
  cbv zeta. unfold compile_checks, geometry_check. cbv zeta.
  destruct (isAvailable_frame env w) as (Hc & Hg & He & l1 & Hl1 & Hi1 & Hn1 & Hz1).
  cbv zeta in *.
  assert (err (Shader.isAvailable env w).2 = err w
          ∧ ∃ l, calls (Shader.isAvailable env w).2 = calls w ++ l
                 ∧ initialization_only l ∧ (length l ≤ 2)%nat
                 ∧ (isAvailable_checked w = true →
                    (is_Some g → isGeometryAvailable_checked w = true) → l = [])) as H1.
  { split; [exact He|]. exists l1. repeat split; auto. }
  destruct (Shader.available env); [|exact H1].
  destruct g as [code|]; [|exact H1].
  destruct (isGeometryAvailable_frame env (Shader.isAvailable env w).2)
    as (He2 & l2 & Hl2 & Hi2 & _ & Hn2 & Hz2).
  cbv zeta in *. split; [congruence|].
  exists (l1 ++ l2). rewrite Hl2, Hl1, app_assoc. split; [reflexivity|].
  split; [apply Forall_app; auto|]. split.
  - rewrite length_app. specialize (Hn2 Hc). lia.
  - intros Ha Hgc. rewrite (Hz1 Ha), Hz2; [reflexivity|].
    rewrite Hg. apply Hgc. eauto.
Qed.

(** ** Viewport *)

Lemma round_half_even_comp (x y : Q) : (x == y)%Q → round_half_even x = round_half_even y.
Proof.
  intros H. unfold round_half_even. rewrite (Qfloor_comp x y H).
  assert ((x - inject_Z (Qfloor y) ?= 1 # 2)%Q = (y - inject_Z (Qfloor y) ?= 1 # 2)%Q) as ->; [|reflexivity].
  apply Qcompare_comp; [rewrite H|]; reflexivity.
Qed.

Lemma round_half_even_Z (n : Z) : round_half_even (inject_Z n) = n.
Proof.
  unfold round_half_even. rewrite Qfloor_Z.
  assert ((inject_Z n - inject_Z n ?= 1 # 2)%Q = Lt) as ->; [|reflexivity].
  apply Qlt_alt. unfold Qminus. rewrite Qplus_opp_r. reflexivity.
Qed.

Lemma round_half_even_nonneg (x : Q) : (0 <= x)%Q → 0 <= round_half_even x.
Proof.
  intros H. apply Qfloor_resp_le in H. change (Qfloor 0) with 0 in H.
  unfold round_half_even. destruct (_ ?= _)%Q; [destruct (Z.even _)|..]; lia.
Qed.

Lemma ilog2_le (a : Q) : (0 < a)%Q → (2 ^ ilog2 a <= a)%Q.
Proof.
  intros Ha. unfold ilog2. cbv zeta.
  destruct (Qle_bool _ a) eqn:E; [apply Qle_bool_iff, E|]. clear E.
  destruct a as [p q]. cbn [Qnum Qden].
  assert (0 < p) as Hp by (unfold Qlt in Ha; cbn in Ha; lia).
  pose proof (Z.log2_spec p Hp) as [Hlp _].
  pose proof (Z.log2_spec (Zpos q) eq_refl) as [_ Hlq].
  pose proof (Z.log2_nonneg p) as H0. pose proof (Z.log2_nonneg (Zpos q)) as H1.
  replace (Z.log2 p - Z.log2 (Z.pos q) - 1) with (Z.log2 p - Z.succ (Z.log2 (Z.pos q)))
    by lia.
  rewrite Qpower_minus by discriminate.
  rewrite <- !(Zpower_Qpower 2) by lia.
  set (A := 2 ^ Z.log2 p) in *. set (B := 2 ^ Z.succ (Z.log2 (Z.pos q))) in *.
  assert (0 < B) as HB by lia.
  destruct B as [|B|B]; try lia.
  change (inject_Z A / inject_Z (Z.pos B))%Q with (inject_Z A * (1 # B))%Q.
  unfold Qle. cbn. nia.
Qed.

Lemma ilog2_lt (a : Q) : (0 < a)%Q → (a < 2 ^ (ilog2 a + 1))%Q.
Proof.
  intros Ha. unfold ilog2. cbv zeta.
  destruct (Qle_bool _ a) eqn:E.
  - clear E. destruct a as [p q]. cbn [Qnum Qden].
    assert (0 < p) as Hp by (unfold Qlt in Ha; cbn in Ha; lia).
    pose proof (Z.log2_spec p Hp) as [_ Hlp].
    pose proof (Z.log2_spec (Zpos q) eq_refl) as [Hlq _].
    pose proof (Z.log2_nonneg p) as H0. pose proof (Z.log2_nonneg (Zpos q)) as H1.
    replace (Z.log2 p - Z.log2 (Z.pos q) + 1) with (Z.succ (Z.log2 p) - Z.log2 (Z.pos q))
      by lia.
    rewrite Qpower_minus by discriminate.
    rewrite <- !(Zpower_Qpower 2) by lia.
    set (A := 2 ^ Z.succ (Z.log2 p)) in *. set (B := 2 ^ Z.log2 (Z.pos q)) in *.
    assert (0 < B) as HB by lia.
    destruct B as [|B|B]; try lia.
    change (inject_Z A / inject_Z (Z.pos B))%Q with (inject_Z A * (1 # B))%Q.
    unfold Qlt. cbn. nia.
  - replace (Z.log2 (Qnum a) - Z.log2 (Z.pos (Qden a)) - 1 + 1)
      with (Z.log2 (Qnum a) - Z.log2 (Z.pos (Qden a))) by lia.
    apply Qnot_le_lt. intros H. apply Qle_bool_iff in H. congruence.
Qed.

Lemma binary32_comp (x y : Q) : (x == y)%Q → binary32 x = binary32 y.
Proof. intros H. unfold binary32. rewrite (Qred_complete x y H). reflexivity. Qed.

Lemma binary32_nonneg (x : Q) : (0 <= x)%Q → (0 <= binary32 x)%Q.
Proof.
  intros H. unfold binary32. cbv zeta. destruct (Qeq_bool _ _); [apply Qle_refl|].
  apply Qmult_le_0_compat; [|apply Qpower_0_le; discriminate].
  change 0%Q with (inject_Z 0). rewrite <- Zle_Qle. apply round_half_even_nonneg.
  apply Qle_shift_div_l; [apply Qpower_0_lt; reflexivity|].
  rewrite Qmult_0_l. apply (Qred_le 0 x) in H. exact H.
Qed.

(** A number with a significand of at most 24 bits and an exponent that is
    not below the smallest one is not changed by rounding. *)
Lemma binary32_exact (m e : Z) :
  Z.abs m < 2 ^ 24 → -149 <= e →
  (binary32 (inject_Z m * 2 ^ e) == inject_Z m * 2 ^ e)%Q.
Proof.
  intros Hm He. set (x := (inject_Z m * 2 ^ e)%Q). unfold binary32. cbv zeta.
  destruct (Qeq_bool (Qred x) 0) eqn:E0.
  { apply Qeq_bool_iff in E0. rewrite Qred_correct in E0. symmetry. exact E0. }
  assert (¬ (x == 0)%Q) as Hx.
  { intros H. rewrite <- (Qred_correct x) in H. apply Qeq_bool_iff in H. congruence. }
  assert (0 < 2 ^ e)%Q as Hpe by (apply Qpower_0_lt; reflexivity).
  set (a := Qabs (Qred x)).
  assert (a == inject_Z (Z.abs m) * 2 ^ e)%Q as Ha.
  { unfold a. rewrite Qred_correct. unfold x. rewrite Qabs_Qmult.
    rewrite (Qabs_pos (2 ^ e)) by (apply Qlt_le_weak, Hpe).
    apply Qmult_comp; [|reflexivity]. unfold Qabs, inject_Z. reflexivity. }
  assert (0 < a)%Q as Hpos.
  { destruct (Qlt_le_dec 0 a) as [|Hle]; [assumption|]. exfalso. apply Hx.
    pose proof (Qabs_nonneg (Qred x)) as H0. fold a in H0.
    assert (a == 0)%Q as Hz by (apply Qle_antisym; assumption).
    unfold a in Hz. rewrite Qred_correct in Hz.
    destruct (Qabs_Qle_condition x 0) as [H1 _].
    destruct H1 as [H1 H2]; [rewrite Hz; apply Qle_refl|].
    apply Qle_antisym; assumption. }
  assert (ilog2 a < 24 + e) as Hlog.
  { apply (Qpower_lt_compat_l_inv 2); [|reflexivity].
    apply Qle_lt_trans with a; [apply ilog2_le, Hpos|].
    rewrite Ha, Qpower_plus by discriminate.
    apply Qmult_lt_compat_r; [exact Hpe|].
    rewrite <- (Zpower_Qpower 2) by lia. rewrite <- Zlt_Qlt. exact Hm. }
  set (E := Z.max (ilog2 a - 23) (-149)).
  assert (E <= e) as HE by (unfold E; lia).
  assert (0 < 2 ^ E)%Q as HpE by (apply Qpower_0_lt; reflexivity).
  assert (2 ^ e == inject_Z (2 ^ (e - E)) * 2 ^ E)%Q as Hsplit.
  { rewrite (Zpower_Qpower 2) by lia. rewrite <- Qpower_plus by discriminate.
    replace (e - E + E) with e by lia. reflexivity. }
  rewrite (round_half_even_comp _ (inject_Z (m * 2 ^ (e - E)))).
  - rewrite round_half_even_Z, inject_Z_mult. unfold x. rewrite Hsplit.
    rewrite Qmult_assoc. reflexivity.
  - rewrite Qred_correct. unfold x. rewrite Hsplit, inject_Z_mult.
    field. intros H. rewrite H in HpE. discriminate.
Qed.

Lemma binary32_Z (n : Z) : Z.abs n < 2 ^ 24 → (binary32 (inject_Z n) == inject_Z n)%Q.
Proof.
  intros H. pose proof (binary32_exact n 0 H ltac:(lia)) as H1.
  rewrite (binary32_comp (inject_Z n) (inject_Z n * 2 ^ 0)%Q).
  - rewrite H1. change (2 ^ 0)%Q with 1%Q. apply Qmult_1_r.
  - change (2 ^ 0)%Q with 1%Q. symmetry. apply Qmult_1_r.
Qed.

Lemma static_cast_int_toward_zero (y : Q) : static_cast_int y = toward_zero y.
Proof.
  unfold static_cast_int, toward_zero, Qceiling, Qfloor.
  destruct y as [n d]. cbn [Qnum Qden Qopp].
  destruct (Qle_bool 0 (n # d)) eqn:E.
  - apply Qle_bool_iff in E. unfold Qle in E. cbn in E.
    apply Z.quot_div_nonneg; lia.
  - assert (n < 0) as Hn.
    { destruct (Z.ltb_spec n 0) as [|Hge]; [done|].
      assert (Qle_bool 0 (n # d) = true) as E'; [|congruence].
      apply Qle_bool_iff. unfold Qle. cbn. lia. }
    replace n with (- (- n)) at 1 by lia.
    rewrite Z.quot_opp_l by lia.
    rewrite Z.quot_div_nonneg by lia. reflexivity.
Qed.

Lemma toward_zero_comp (x y : Q) : (x == y)%Q → toward_zero x = toward_zero y.
Proof.
  intros H. unfold toward_zero, Qceiling.
  rewrite (Qfloor_comp x y H), (Qfloor_comp (- x) (- y)) by (rewrite H; reflexivity).
  assert (Qle_bool 0 x = Qle_bool 0 y) as ->; [|reflexivity].
  destruct (Qle_bool 0 y) eqn:E.
  - apply Qle_bool_iff. apply Qle_bool_iff in E. rewrite H. exact E.
  - destruct (Qle_bool 0 x) eqn:E'; [|reflexivity].
    apply Qle_bool_iff in E'. rewrite H in E'. apply Qle_bool_iff in E'. congruence.
Qed.

Lemma static_cast_int_comp (x y : Q) : (x == y)%Q → static_cast_int x = static_cast_int y.
Proof. rewrite !static_cast_int_toward_zero. apply toward_zero_comp. Qed.

Lemma viewport_coordinate_nonneg size x :
  (0 <= x)%Q → (0 <= viewport_coordinate size x)%Q.
Proof.
  intros Hx. unfold viewport_coordinate, fadd, fmul, static_cast_float.
  apply binary32_nonneg.
  apply Qle_trans with (0 + 0)%Q; [apply Qle_refl|].
  apply Qplus_le_compat; [discriminate|]. apply binary32_nonneg.
  apply Qmult_le_0_compat; [|exact Hx]. apply binary32_nonneg.
  change 0%Q with (inject_Z 0). rewrite <- Zle_Qle. lia.
Qed.

Lemma viewport_coordinate_exact size x :
  exact_coordinate size x →
  (viewport_coordinate size x == 0.5 + inject_Z (Z.of_N size) * x)%Q.
Proof.
  intros (H1 & H2 & H3). unfold viewport_coordinate, fadd, fmul, static_cast_float.
  rewrite (binary32_comp (binary32 (inject_Z (Z.of_N size)) * x)
             (inject_Z (Z.of_N size) * x)) by (rewrite H1; reflexivity).
  rewrite (binary32_comp (0.5 + binary32 (inject_Z (Z.of_N size) * x))
             (0.5 + inject_Z (Z.of_N size) * x)) by (rewrite H2; reflexivity).
  exact H3.
Qed.

(** The two coordinates of the full viewport. *)
Lemma viewport_coordinate_one (n : N) :
  Z.of_N n < 2 ^ 23 → static_cast_int (viewport_coordinate n (inject_Z 1)) = Z.of_N n.
Proof.
  intros Hn.
  assert (exact_coordinate n (inject_Z 1)) as He.
  { unfold exact_coordinate. cbv zeta. split; [|split].
    - apply binary32_Z. lia.
    - rewrite (binary32_comp _ (inject_Z (Z.of_N n))) by apply Qmult_1_r.
      rewrite Qmult_1_r. apply binary32_Z. lia.
    - assert (0.5 + inject_Z (Z.of_N n) * inject_Z 1
              == inject_Z (2 * Z.of_N n + 1) * 2 ^ (-1))%Q as Heq.
      { rewrite inject_Z_plus, inject_Z_mult. change (2 ^ (-1))%Q with (1 # 2).
        change (inject_Z 1) with 1%Q. change (inject_Z 2) with 2%Q. field. }
      rewrite (binary32_comp _ _ Heq), Heq. apply binary32_exact; lia. }
  rewrite (static_cast_int_comp _ _ (viewport_coordinate_exact n _ He)).
  unfold static_cast_int. cbn.
  rewrite !Z.mul_1_r, Pos.mul_1_r. cbn.
  rewrite Z.quot_div_nonneg by lia.
  replace (5 + Z.of_N n * 10) with (Z.of_N n * 10 + 5) by lia.
  rewrite Z.div_add_l by lia. change (5 / 10) with 0. lia.
Qed.

Lemma viewport_coordinate_zero (n : N) :
  static_cast_int (viewport_coordinate n (inject_Z 0)) = 0.
Proof.
  unfold viewport_coordinate, fadd, fmul.
  rewrite (binary32_comp (static_cast_float n * inject_Z 0) 0) by apply Qmult_0_r.
  reflexivity.
Qed.

(** C8, as stated: [getViewport] would return [floor(0.5 + x)] for every
    coordinate, negative ones included.  It does not: on a 4x4 target, the
    viewport whose left edge is at -1/2 gives 0.5 + 4 * (-0.5) = -1.5 (no
    rounding is involved), which the conversion to [int] turns into -1, while
    the floor is -2. *)
Lemma getViewport_floor_counterexample :
  ¬ (∀ (this : RenderTarget) (view : View),
       RenderTarget.getViewport this view = getViewport_floor this view).
Proof.
  intros H.
  specialize (H (RenderTarget.new (example_env true true 8) example_view
                   (mkVector2u 4 4) false)
                (mkView (mkFloatRect (-1 # 2) (inject_Z 0) (inject_Z 1) (inject_Z 1))
                        Transform_Identity)).
  apply (f_equal left) in H. vm_compute in H. discriminate H.
Qed.

(** The formula of the specification can also differ from [getViewport] on a
    viewport without negative coordinates, when a [float] operation rounds:
    on a 1x1 target with the left edge at [1/2 - 2^-25], the sum
    [0.5f + 1.f * left] is [1 - 2^-25], which is halfway between two
    [float]s and rounds to 1, while [floor(1 - 2^-25)] is 0. *)
Lemma getViewport_rounds_the_sum :
  let this := RenderTarget.new (example_env true true 8) example_view
                (mkVector2u 1 1) false in
  let view := mkView (mkFloatRect ((1 # 2) - (1 # 2 ^ 25)) (inject_Z 0) (inject_Z 1)
                        (inject_Z 1)) Transform_Identity in
  left (RenderTarget.getViewport this view) = 1
  ∧ left (getViewport_floor this view) = 0.
Proof. vm_compute. split; reflexivity. Qed.

(** C8, amended: every coordinate of [getViewport] is the [float] value of
    [0.5f + size * x] rounded toward zero, where [x] is the normalized
    coordinate and the conversion to [int] is defined: the floor of that
    [float] for a viewport with no negative coordinate.  The result is the
    specification's [floor(0.5 + x)] when moreover no [float] operation
    rounds. *)
Theorem getViewport_rounds_toward_zero (this : RenderTarget) (view : View) :
  let viewport := getViewport_ view in
  let l := viewport_coordinate (ux (getSize this)) (fleft viewport) in
  let t := viewport_coordinate (uy (getSize this)) (ftop viewport) in
  let w := viewport_coordinate (ux (getSize this)) (fwidth viewport) in
  let h := viewport_coordinate (uy (getSize this)) (fheight viewport) in
  int_representable l → int_representable t →
  int_representable w → int_representable h →
  RenderTarget.getViewport this view
  = mkIntRect (toward_zero l) (toward_zero t) (toward_zero w) (toward_zero h)
  ∧ ((0 <= fleft viewport)%Q ∧ (0 <= ftop viewport)%Q
     ∧ (0 <= fwidth viewport)%Q ∧ (0 <= fheight viewport)%Q →
     RenderTarget.getViewport this view
     = mkIntRect (Qfloor l) (Qfloor t) (Qfloor w) (Qfloor h)
     ∧ (exact_coordinate (ux (getSize this)) (fleft viewport)
        ∧ exact_coordinate (uy (getSize this)) (ftop viewport)
        ∧ exact_coordinate (ux (getSize this)) (fwidth viewport)
        ∧ exact_coordinate (uy (getSize this)) (fheight viewport) →
        RenderTarget.getViewport this view = getViewport_floor this view)).
Proof.
  intros viewport l t w h _ _ _ _.
  assert (RenderTarget.getViewport this view
          = mkIntRect (toward_zero l) (toward_zero t) (toward_zero w) (toward_zero h))
    as Heq.
  { unfold RenderTarget.getViewport. cbv zeta.
    rewrite !static_cast_int_toward_zero. reflexivity. }
  split; [exact Heq|].
  intros (Hl & Ht & Hw & Hh).
  assert (∀ size x, (0 <= x)%Q →
            toward_zero (viewport_coordinate size x)
            = Qfloor (viewport_coordinate size x)) as Hnn.
  { intros size x Hx. unfold toward_zero.
    pose proof (viewport_coordinate_nonneg size x Hx) as Hy.
    apply Qle_bool_iff in Hy. rewrite Hy. reflexivity. }
  assert (RenderTarget.getViewport this view
          = mkIntRect (Qfloor l) (Qfloor t) (Qfloor w) (Qfloor h)) as Hfloor.
  { rewrite Heq. unfold l, t, w, h. rewrite !Hnn by assumption. reflexivity. }
  split; [exact Hfloor|].
  intros (El & Et & Ew & Eh). rewrite Hfloor. unfold getViewport_floor, l, t, w, h.
  cbv zeta. fold viewport.
  rewrite (Qfloor_comp _ _ (viewport_coordinate_exact _ _ El)),
    (Qfloor_comp _ _ (viewport_coordinate_exact _ _ Et)),
    (Qfloor_comp _ _ (viewport_coordinate_exact _ _ Ew)),
    (Qfloor_comp _ _ (viewport_coordinate_exact _ _ Eh)).
  reflexivity.
Qed.

Lemma getViewport_rounds_toward_zero_witness :
  let this := RenderTarget.new (example_env true true 8) example_view
                (mkVector2u 4 4) false in
  let view := mkView (mkFloatRect (-1 # 2) (inject_Z 0) (inject_Z 1) (inject_Z 1))
                Transform_Identity in
  let viewport := getViewport_ view in
  let l := viewport_coordinate (ux (getSize this)) (fleft viewport) in
  let t := viewport_coordinate (uy (getSize this)) (ftop viewport) in
  let w := viewport_coordinate (ux (getSize this)) (fwidth viewport) in
  let h := viewport_coordinate (uy (getSize this)) (fheight viewport) in
  int_representable l ∧ int_representable t
  ∧ int_representable w ∧ int_representable h
  ∧ RenderTarget.getViewport this view
    = mkIntRect (toward_zero l) (toward_zero t) (toward_zero w) (toward_zero h)
  ∧ ((0 <= fleft viewport)%Q ∧ (0 <= ftop viewport)%Q
     ∧ (0 <= fwidth viewport)%Q ∧ (0 <= fheight viewport)%Q →
     RenderTarget.getViewport this view
     = mkIntRect (Qfloor l) (Qfloor t) (Qfloor w) (Qfloor h)
     ∧ (exact_coordinate (ux (getSize this)) (fleft viewport)
        ∧ exact_coordinate (uy (getSize this)) (ftop viewport)
        ∧ exact_coordinate (ux (getSize this)) (fwidth viewport)
        ∧ exact_coordinate (uy (getSize this)) (fheight viewport) →
        RenderTarget.getViewport this view = getViewport_floor this view)).
Proof.
  intros this view viewport l t w h.
  assert (int_representable l) as H1 by (vm_compute; split; [discriminate|reflexivity]).
  assert (int_representable t) as H2 by (vm_compute; split; [discriminate|reflexivity]).
  assert (int_representable w) as H3 by (vm_compute; split; [discriminate|reflexivity]).
  assert (int_representable h) as H4 by (vm_compute; split; [discriminate|reflexivity]).
  split; [exact H1|]. split; [exact H2|]. split; [exact H3|]. split; [exact H4|].
  exact (getViewport_rounds_toward_zero this view H1 H2 H3 H4).
Defined.

(** ** Uniform locations *)

Lemma getUniformLocation_cached env (this : Shader) name location w :
  m_uniforms this !! name = Some location →
  Shader.getUniformLocation env this name w = (location, this, w).
Proof. intros H. unfold Shader.getUniformLocation. rewrite H. reflexivity. Qed.

Lemma getUniformLocation_first env (this : Shader) name w :
  m_uniforms this !! name = None →
  let location := glGetUniformLocation_result env (m_shaderProgram this) name in
  Shader.getUniformLocation env this name w =
    (location,
     set_m_uniforms (<[name := location]> (m_uniforms this)) this,
     let w := glCheck (GL.GLEXT_glGetUniformLocation (m_shaderProgram this) name) w in
     if location =? -1 then err_endl (Shader.uniform_not_found name) w else w).
Proof. intros H. unfold Shader.getUniformLocation. rewrite H. reflexivity. Qed.

(** A lookup returns what the name resolves to, and leaves every name
    resolving as before. *)
Lemma getUniformLocation_resolve env (this : Shader) name w :
  let '(location, this1, _) := Shader.getUniformLocation env this name w in
  location = resolve env this name
  ∧ m_uniforms this1 !! name = Some location
  ∧ m_shaderProgram this1 = m_shaderProgram this
  ∧ m_textures this1 = m_textures this
  ∧ m_currentTexture this1 = m_currentTexture this
  ∧ (∀ n location', m_uniforms this !! n = Some location' →
       m_uniforms this1 !! n = Some location')
  ∧ (∀ n, resolve env this1 n = resolve env this n).
Proof.
  unfold Shader.getUniformLocation, resolve.
  destruct (m_uniforms this !! name) as [location|] eqn:E; cbn.
  - repeat split; auto.
  - rewrite lookup_insert_eq. repeat split; auto.
    + intros n location' Hn. rewrite lookup_insert_ne; [done|]. congruence.
    + intros n. destruct (decide (name = n)) as [->|Hne].
      * rewrite lookup_insert_eq, E. reflexivity.
      * rewrite lookup_insert_ne by done. reflexivity.
Qed.

(** A lookup that does not answer [-1] writes nothing to the error stream. *)
Lemma getUniformLocation_err env (this : Shader) name w :
  (Shader.getUniformLocation env this name w).1.1 ≠ -1 →
  err (Shader.getUniformLocation env this name w).2 = err w.
Proof.
  unfold Shader.getUniformLocation.
  destruct (m_uniforms this !! name) as [location|]; cbn; [done|].
  intros H. apply Z.eqb_neq in H. rewrite H. reflexivity.
Qed.

Lemma lookups_keep env names : ∀ (this : Shader) w n location,
  m_uniforms this !! n = Some location →
  m_uniforms (lookups env names this w).1 !! n = Some location.
Proof.
  induction names as [|name names IH]; intros this w n location H; cbn; [done|].
  pose proof (getUniformLocation_resolve env this name w) as Hr.
  destruct (Shader.getUniformLocation env this name w) as [[l this1] w1].
  destruct Hr as (_ & _ & _ & _ & _ & Hkeep & _).
  apply IH, Hkeep, H.
Qed.

(** C5: the first lookup of a name on a shader asks the driver, stores the
    answer (also [-1]) in the cache and, when the answer is [-1], writes one
    line to the error stream; every later lookup of that name, whatever other
    names were looked up in between, returns the stored value and leaves the
    shader, the calls issued and the error stream as they were.  A [compile]
    that gets past its availability checks empties the cache. *)
Theorem uniform_location_memoized env (this : Shader) (name : string) (w : World) :
  let first := Shader.getUniformLocation env this name w in
  let location := first.1.1 in
  (m_uniforms this !! name = None →
     location = glGetUniformLocation_result env (m_shaderProgram this) name
     ∧ m_uniforms first.1.2 = <[name := location]> (m_uniforms this)
     ∧ calls first.2 =
         calls w ++ [GL.GLEXT_glGetUniformLocation (m_shaderProgram this) name]
     ∧ err first.2 =
         err w ++ (if location =? -1 then [Shader.uniform_not_found name] else []))
  ∧ (∀ others : list string,
       let later := lookups env others first.1.2 first.2 in
       Shader.getUniformLocation env later.1 name later.2 = (location, later.1, later.2))
  ∧ (∀ vertexShaderCode geometryShaderCode fragmentShaderCode w',
       Shader.available env = true →
       (is_Some geometryShaderCode → Shader.geometry_available env = true) →
       m_uniforms (Shader.compile env first.1.2 vertexShaderCode geometryShaderCode
                     fragmentShaderCode w').1.2 = ∅).
Proof.
  intros first location. split; [|split].
  - intros Hnone. subst location first.
    rewrite (getUniformLocation_first env this name w Hnone). cbn.
    repeat split; try reflexivity.
    + destruct (_ =? -1); reflexivity.
    + destruct (_ =? -1); cbn; [reflexivity|]. by rewrite app_nil_r.
  - intros others later. apply getUniformLocation_cached.
    subst later. apply lookups_keep.
    pose proof (getUniformLocation_resolve env this name w) as Hr.
    subst location first.
    destruct (Shader.getUniformLocation env this name w) as [[l this1] w1]. cbn.
    tauto.
  - intros v gs f w' Hav Hgeo. enter_compile. rewrite Hav. cbn [negb].
    destruct (bool_decide (is_Some gs) && negb (Shader.geometry_available env)) eqn:Eg.
    { apply andb_true_iff in Eg as [Hg Hn]. apply bool_decide_eq_true in Hg.
      rewrite (Hgeo Hg) in Hn. discriminate. }
    destruct (m_shaderProgram first.1.2 =? 0)%N;
      repeat (match goal with
              | |- context [Shader.compile_stage ?e ?t ?c ?p ?x] =>
                  destruct (Shader.compile_stage e t c p x) as [[] ?]
              | |- context [link_status ?e ?a ?b ?c] => destruct (link_status e a b c)
              end; cbn); reflexivity.
Qed.

(** ** Uniforms on a shader without a program *)

Lemma withBinder_no_program env upload (this : Shader) name w :
  m_shaderProgram this = 0%N →
  Shader.withBinder env upload this name w = (this, w).
Proof.
  intros H. unfold Shader.withBinder, Shader.UniformBinder_new, castToGlHandle.
  rewrite H. reflexivity.
Qed.

(** C9: on a shader whose program handle is 0, every uniform-setting
    operation returns the shader and the world it was given: no call is
    issued, the program in use is not changed, neither the location cache nor
    the texture table gains an entry, and nothing is written to the error
    stream. *)
Theorem set_uniform_without_program env (this : Shader) (name : string)
    (op : UniformOp) (w : World) :
  Shader.getNativeHandle this = 0%N →
  set_uniform env this name op w = (this, w).
Proof.
  unfold Shader.getNativeHandle. intros H.
  destruct op; cbn [set_uniform];
    unfold Shader.setUniform_float, Shader.setUniform_Vec2, Shader.setUniform_Vec3,
      Shader.setUniform_Vec4, Shader.setUniform_bool, Shader.setUniform_Bvec2,
      Shader.setUniform_Bvec3, Shader.setUniform_Bvec4, Shader.setUniform_int,
      Shader.setUniform_Ivec2, Shader.setUniform_Ivec3, Shader.setUniform_Ivec4,
      Shader.setUniform_Mat3, Shader.setUniform_Mat4,
      Shader.setUniformArray_float, Shader.setUniformArray_Vec2,
      Shader.setUniformArray_Vec3, Shader.setUniformArray_Vec4,
      Shader.setUniformArray_Mat3, Shader.setUniformArray_Mat4,
      Shader.setParameter_float, Shader.setParameter_float2,
      Shader.setParameter_float3, Shader.setParameter_float4,
      Shader.setParameter_Texture, Shader.setParameter_CurrentTexture,
      Shader.setUniform_float, Shader.setUniform_Vec2, Shader.setUniform_Vec3,
      Shader.setUniform_Vec4, Shader.setUniform_int, Shader.setUniform_Ivec2,
      Shader.setUniform_Ivec3, Shader.setUniform_Ivec4;
    try (apply withBinder_no_program; exact H);
    unfold Shader.setUniform_Texture, Shader.setUniform_CurrentTexture;
    rewrite H; reflexivity.
Qed.

Lemma set_uniform_without_program_witness :
  Shader.getNativeHandle Shader.new = 0%N
  ∧ set_uniform (example_env true true 8) Shader.new "sf_modelview"%string
      (Set_Mat4 (Glsl.mkMat4 (getMatrix Transform_Identity))) example_world
    = (Shader.new, example_world).
Proof.
  split; [reflexivity|].
  apply (set_uniform_without_program (example_env true true 8) Shader.new
           "sf_modelview"%string (Set_Mat4 (Glsl.mkMat4 (getMatrix Transform_Identity)))
           example_world).
  reflexivity.
Defined.

(** ** The texture table *)

Lemma setUniform_Texture_wf env (this : Shader) name texture w :
  textures_wf this →
  textures_wf (Shader.setUniform_Texture env this name texture w).1.
Proof.
  unfold textures_wf, Shader.setUniform_Texture. intros Hwf.
  destruct (m_shaderProgram this =? 0)%N; [exact Hwf|].
  pose proof (getUniformLocation_resolve env this name w) as Hr.
  destruct (Shader.getUniformLocation env this name w) as [[location this1] w1].
  destruct Hr as (_ & _ & _ & Ht & _).
  destruct (location =? -1) eqn:El; cbn; [by rewrite Ht|].
  apply Z.eqb_neq in El.
  destruct (m_textures this1 !! location);
    [|enter_capacity_check; destruct (_ >=? _)]; cbn; rewrite ?Ht; try done;
    rewrite lookup_insert_ne by done; done.
Qed.

(** C10: when the name resolves to a location that the texture table already
    holds, [setUniform(name, texture)] replaces the texture stored there,
    whatever the size of the table and the number of texture units: the
    table keeps its size and its other entries, and no line is written to
    the error stream. *)
Theorem setUniform_Texture_replaces env (this : Shader) (name : string)
    (texture : Texture) (w : World) :
  Shader.getNativeHandle this ≠ 0%N →
  textures_wf this →
  is_Some (m_textures this !! resolve env this name) →
  let result := Shader.setUniform_Texture env this name texture w in
  m_textures result.1 = <[resolve env this name := texture]> (m_textures this)
  ∧ size (m_textures result.1) = size (m_textures this)
  ∧ err result.2 = err w.
Proof.
  unfold Shader.getNativeHandle, textures_wf. intros Hprog Hwf [old Hold].
  unfold Shader.setUniform_Texture.
  apply N.eqb_neq in Hprog. rewrite Hprog.
  pose proof (getUniformLocation_resolve env this name w) as Hr.
  pose proof (getUniformLocation_err env this name w) as Herr.
  destruct (Shader.getUniformLocation env this name w) as [[location this1] w1].
  destruct Hr as (Hloc & _ & _ & Ht & _). cbn in Herr.
  assert (location ≠ -1) as Hvalid.
  { intros E. rewrite <- Hloc, E in Hold. congruence. }
  apply Herr in Hvalid as Herr'.
  apply Z.eqb_neq in Hvalid. rewrite Hvalid.
  rewrite Ht, Hloc, Hold. cbn.
  split; [reflexivity|]. split; [|exact Herr'].
  apply map_size_insert_Some. eauto.
Qed.

Lemma setUniform_Texture_replaces_witness :
  let this := mkShader 7 (-1) {[ 3 := example_texture 1 ]} ∅ in
  let env := example_env true true 2 in
  (Shader.getNativeHandle this ≠ 0%N
   ∧ textures_wf this
   ∧ is_Some (m_textures this !! resolve env this "tex"%string))
  ∧ (let result :=
       Shader.setUniform_Texture env this "tex"%string (example_texture 2)
         example_world in
     m_textures result.1
       = <[resolve env this "tex"%string := example_texture 2]> (m_textures this)
     ∧ size (m_textures result.1) = size (m_textures this)
     ∧ err result.2 = err example_world).
Proof.
  intros this env.
  assert (Shader.getNativeHandle this ≠ 0%N) as H1 by (vm_compute; discriminate).
  assert (textures_wf this) as H2 by reflexivity.
  assert (is_Some (m_textures this !! resolve env this "tex"%string)) as H3
    by (vm_compute; eauto).
  split; [auto|].
  exact (setUniform_Texture_replaces env this "tex"%string (example_texture 2)
           example_world H1 H2 H3).
Defined.

(** The two outcomes of [setUniform(name, texture)] for a valid location that
    the table does not hold yet. *)
Lemma setUniform_Texture_new env (this : Shader) name texture w :
  m_shaderProgram this ≠ 0%N →
  resolve env this name ≠ -1 →
  m_textures this !! resolve env this name = None →
  let result := Shader.setUniform_Texture env this name texture w in
  m_shaderProgram result.1 = m_shaderProgram this
  ∧ (∀ n, resolve env result.1 n = resolve env this n)
  ∧ if static_cast_size_t (Z.of_nat (size (m_textures this)) + 1)
       >=? Shader.maxUnits env
    then m_textures result.1 = m_textures this
         ∧ err result.2 = err w ++ [Shader.texture_units_exhausted name]
    else m_textures result.1 = <[resolve env this name := texture]> (m_textures this)
         ∧ err result.2 = err w.
Proof.
  intros Hprog Hvalid Hnew. unfold Shader.setUniform_Texture.
  apply N.eqb_neq in Hprog. rewrite Hprog.
  pose proof (getUniformLocation_resolve env this name w) as Hr.
  pose proof (getUniformLocation_err env this name w) as Herr.
  destruct (Shader.getUniformLocation env this name w) as [[location this1] w1].
  destruct Hr as (Hloc & _ & Hp & Ht & _ & _ & Hres). cbn in Herr.
  rewrite <- Hloc in *. specialize (Herr Hvalid).
  apply Z.eqb_neq in Hvalid. rewrite Hvalid, Ht, Hnew.
  assert (∀ m n, resolve env (set_m_textures m this1) n = resolve env this n) as Hres'.
  { intros m n. rewrite <- Hres. reflexivity. }
  enter_capacity_check.
  destruct (_ >=? _); cbn; rewrite ?getMaxTextureUnits_err, ?Herr; auto.
Qed.

Lemma setUniform_Textures_fresh env bindings : ∀ (this : Shader) w,
  m_shaderProgram this ≠ 0%N →
  NoDup (resolve env this <$> bindings.*1) →
  Forall (λ n, resolve env this n ≠ -1
               ∧ m_textures this !! resolve env this n = None) bindings.*1 →
  Z.of_nat (size (m_textures this) + length bindings) < Shader.maxUnits env →
  Shader.maxUnits env < size_t_modulus →
  let result := setUniform_Textures env bindings this w in
  m_shaderProgram result.1 = m_shaderProgram this
  ∧ (∀ n, resolve env result.1 n = resolve env this n)
  ∧ m_textures result.1
    = list_to_map (prod_map (resolve env this) id <$> bindings) ∪ m_textures this
  ∧ err result.2 = err w.
Proof.
  induction bindings as [|[name texture] bindings IH]; intros this w Hprog Hnd Hall Hsize Hmax.
  { cbn. rewrite (left_id_L ∅ (∪)). auto. }
  cbn [setUniform_Textures]. cbn in Hnd, Hall, Hsize.
  apply NoDup_cons in Hnd as [Hnotin Hnd]. apply Forall_cons in Hall as [[Hvalid Hnew] Hall].
  pose proof (setUniform_Texture_new env this name texture w Hprog Hvalid Hnew) as Hstep.
  cbn zeta in Hstep.
  destruct (Shader.setUniform_Texture env this name texture w) as [this1 w1].
  cbn [fst snd] in Hstep. destruct Hstep as (Hp1 & Hres1 & Hstep).
  destruct (_ >=? _) eqn:Efull.
  { exfalso. unfold static_cast_size_t in Efull.
    rewrite Z.mod_small in Efull by lia. lia. }
  destruct Hstep as [Ht1 Herr1].
  assert (Forall (λ n, resolve env this1 n ≠ -1
                       ∧ m_textures this1 !! resolve env this1 n = None) bindings.*1)
    as Hall1.
  { apply Forall_forall. intros n Hn. rewrite Hres1.
    rewrite Forall_forall in Hall. destruct (Hall n Hn) as [Hv Hnone].
    split; [exact Hv|]. rewrite Ht1, lookup_insert_ne; [exact Hnone|].
    intros E. apply Hnotin. rewrite E. apply list_elem_of_fmap. eauto. }
  assert (resolve env this1 <$> bindings.*1 = resolve env this <$> bindings.*1) as Hmap.
  { apply list_fmap_ext. intros ? n _. apply Hres1. }
  specialize (IH this1 w1).
  cbn zeta in IH. destruct IH as (Hp2 & Hres2 & Ht2 & Herr2).
  - congruence.
  - rewrite Hmap. exact Hnd.
  - exact Hall1.
  - rewrite Ht1, map_size_insert_None by exact Hnew. lia.
  - exact Hmax.
  - split; [congruence|]. split; [intros n; rewrite Hres2; apply Hres1|].
    split; [|congruence].
    rewrite Ht2, Ht1. cbn [fmap list_fmap prod_map fst snd id list_to_map foldr].
    assert (prod_map (resolve env this1) id <$> bindings
            = prod_map (resolve env this) id <$> bindings) as ->.
    { apply list_fmap_ext. intros ? [n t] _. cbn. f_equal. apply Hres1. }
    rewrite <- insert_union_l. symmetry. apply insert_union_r.
    apply not_elem_of_list_to_map_1. rewrite <- list_fmap_compose.
    intros Hin. apply Hnotin. rewrite <- list_fmap_compose.
    erewrite list_fmap_ext; [exact Hin|]. intros ? [n t] _. reflexivity.
Qed.

(** C2: with a driver that reports N combined texture units, N-1 calls of
    [setUniform(name, texture)] on names resolving to distinct valid
    locations, starting from an empty table, record all N-1 textures and write
    nothing to the error stream; the call for one more such name writes the
    capacity error and leaves the table, with its N-1 entries, as it was. *)
Theorem texture_unit_capacity env (this : Shader) (w : World)
    (bindings : list (string * Texture)) (name : string) (texture : Texture)
    (N : nat) :
  GL_MAX_COMBINED_TEXTURE_IMAGE_UNITS env = Z.of_nat N →
  Z.of_nat N < 2 ^ 31 →
  Shader.getNativeHandle this ≠ 0%N →
  m_textures this = ∅ →
  S (length bindings) = N →
  NoDup (resolve env this <$> (bindings.*1 ++ [name])) →
  Forall (λ n, resolve env this n ≠ -1) (bindings.*1 ++ [name]) →
  let recorded := setUniform_Textures env bindings this w in
  let refused :=
    Shader.setUniform_Texture env recorded.1 name texture recorded.2 in
  (∀ n t, (n, t) ∈ bindings → m_textures recorded.1 !! resolve env this n = Some t)
  ∧ size (m_textures recorded.1) = (N - 1)%nat
  ∧ err recorded.2 = err w
  ∧ m_textures refused.1 = m_textures recorded.1
  ∧ err refused.2 = err recorded.2 ++ [Shader.texture_units_exhausted name].
Proof.
  intros Hmax Hint Hprog Hempty Hlen Hnd Hall recorded refused.
  unfold Shader.getNativeHandle in Hprog.
  assert (Shader.maxUnits env = Z.of_nat N) as Hunits.
  { unfold Shader.maxUnits, static_cast_size_t,
      size_t_modulus. rewrite Hmax. apply Z.mod_small. lia. }
  rewrite fmap_app in Hnd. apply NoDup_app in Hnd as (Hnd & Hdisj & _).
  apply Forall_app in Hall as [Hall Hname]. apply Forall_inv in Hname.
  destruct (setUniform_Textures_fresh env bindings this w) as (Hp & Hres & Ht & Herr).
  - exact Hprog.
  - exact Hnd.
  - eapply Forall_impl; [exact Hall|]. intros n Hn. split; [exact Hn|].
    rewrite Hempty. apply lookup_empty.
  - rewrite Hunits, Hempty, map_size_empty. lia.
  - rewrite Hunits. unfold size_t_modulus. lia.
  - fold recorded in Hp, Hres, Ht, Herr.
    rewrite Hempty, (right_id_L ∅ (∪)) in Ht.
    assert (NoDup (prod_map (resolve env this) id <$> bindings).*1) as Hkeys.
    { rewrite <- list_fmap_compose. rewrite <- list_fmap_compose in Hnd.
      erewrite list_fmap_ext; [exact Hnd|]. intros ? [n t] _. reflexivity. }
    assert (size (m_textures recorded.1) = length bindings) as Hsize.
    { rewrite Ht, map_size_list_to_map by exact Hkeys. apply length_fmap. }
    split; [|split; [|split]].
    + intros n t Hin. rewrite Ht. apply elem_of_list_to_map_1; [exact Hkeys|].
      apply list_elem_of_fmap. exists (n, t). auto.
    + rewrite Hsize. lia.
    + exact Herr.
    + assert (m_textures recorded.1 !! resolve env recorded.1 name = None) as Hnew.
      { rewrite Hres, Ht. apply not_elem_of_list_to_map_1.
        rewrite <- list_fmap_compose. intros Hin. apply (Hdisj (resolve env this name)).
        - rewrite <- list_fmap_compose.
          erewrite list_fmap_ext; [exact Hin|]. intros ? [n t] _. reflexivity.
        - cbn. apply list_elem_of_singleton. reflexivity. }
      pose proof (setUniform_Texture_new env recorded.1 name texture recorded.2) as Hstep.
      cbn zeta in Hstep. fold refused in Hstep.
      destruct Hstep as (_ & _ & Hstep);
        [rewrite Hp; exact Hprog|rewrite Hres; exact Hname|exact Hnew|].
      destruct (_ >=? _) eqn:Efull; [exact Hstep|].
      exfalso. rewrite Hsize, Hunits in Efull. unfold static_cast_size_t in Efull.
      rewrite Z.mod_small in Efull by (unfold size_t_modulus; lia). lia.
Qed.

Lemma texture_unit_capacity_witness :
  let env := example_env true true 3 in
  let bindings := [("a"%string, example_texture 1); ("bb"%string, example_texture 2)] in
  let name := "ccc"%string in
  let recorded := setUniform_Textures env bindings example_shader example_world in
  let refused :=
    Shader.setUniform_Texture env recorded.1 name (example_texture 3) recorded.2 in
  (GL_MAX_COMBINED_TEXTURE_IMAGE_UNITS env = Z.of_nat 3
   ∧ Z.of_nat 3 < 2 ^ 31
   ∧ Shader.getNativeHandle example_shader ≠ 0%N
   ∧ m_textures example_shader = ∅
   ∧ S (length bindings) = 3%nat
   ∧ NoDup (resolve env example_shader <$> (bindings.*1 ++ [name]))
   ∧ Forall (λ n, resolve env example_shader n ≠ -1) (bindings.*1 ++ [name]))
  ∧ ((∀ n t, (n, t) ∈ bindings →
        m_textures recorded.1 !! resolve env example_shader n = Some t)
     ∧ size (m_textures recorded.1) = (3 - 1)%nat
     ∧ err recorded.2 = err example_world
     ∧ m_textures refused.1 = m_textures recorded.1
     ∧ err refused.2 = err recorded.2 ++ [Shader.texture_units_exhausted name]).
Proof.
  intros env bindings name recorded refused.
  assert (GL_MAX_COMBINED_TEXTURE_IMAGE_UNITS env = Z.of_nat 3) as H1 by reflexivity.
  assert (Z.of_nat 3 < 2 ^ 31) as H2 by reflexivity.
  assert (Shader.getNativeHandle example_shader ≠ 0%N) as H3 by (vm_compute; discriminate).
  assert (m_textures example_shader = ∅) as H4 by reflexivity.
  assert (S (length bindings) = 3%nat) as H5 by reflexivity.
  assert (NoDup (resolve env example_shader <$> (bindings.*1 ++ [name]))) as H6.
  { vm_compute.
    repeat (apply NoDup_cons; split;
            [intros Hin;
             repeat (apply elem_of_cons in Hin as [Hin|Hin]; [discriminate Hin|]);
             apply elem_of_nil in Hin; exact Hin|]).
    apply NoDup_nil_2. }
  assert (Forall (λ n, resolve env example_shader n ≠ -1) (bindings.*1 ++ [name])) as H7.
  { repeat (apply Forall_cons; split; [vm_compute; discriminate|]). apply Forall_nil_2. }
  split; [tauto|].
  exact (texture_unit_capacity env example_shader example_world bindings name
           (example_texture 3) 3 H1 H2 H3 H4 H5 H6 H7).
Defined.

(** ** Recompilation *)

Lemma compile_stage_spec env ty code shaderProgram w :
  (Shader.compile_stage env ty code shaderProgram w).1 = stage_ok env ty code
  ∧ ∃ issued, calls (Shader.compile_stage env ty code shaderProgram w).2
              = calls w ++ issued.
Proof.
  unfold Shader.compile_stage, stage_ok. destruct code as [code|]; cbn.
  - destruct (compile_status env ty code); cbn; (split; [reflexivity|]);
      rewrite <- ?app_assoc; eauto.
  - split; [reflexivity|]. exists []. by rewrite app_nil_r.
Qed.

(** C6: when a shader that holds a program is compiled again and a stage
    fails to compile or the program fails to link, [compile] returns false
    after having deleted the program the shader held and emptied the location
    cache, the texture table and the current-texture slot; [getNativeHandle]
    then returns 0.  The deletion is the first call [compile] issues after
    its availability checks, which issue nothing but the calls that make
    sure that the extensions are initialised (at most two, and none once the
    checks have run before). *)
Theorem failed_recompile_leaves_no_program env (this : Shader)
    (vertexShaderCode geometryShaderCode fragmentShaderCode : option string)
    (w : World) :
  Shader.getNativeHandle this ≠ 0%N →
  Shader.available env = true →
  (is_Some geometryShaderCode → Shader.geometry_available env = true) →
  compiles_and_links env vertexShaderCode geometryShaderCode fragmentShaderCode = false →
  let result := Shader.compile env this vertexShaderCode geometryShaderCode
                  fragmentShaderCode w in
  result.1.1 = false
  ∧ (∃ checks rest,
       calls result.2
       = calls w ++ checks ++ GL.GLEXT_glDeleteProgram (m_shaderProgram this) :: rest
       ∧ initialization_only checks ∧ (length checks ≤ 2)%nat
       ∧ (isAvailable_checked w = true →
          (is_Some geometryShaderCode → isGeometryAvailable_checked w = true) →
          checks = []))
  ∧ m_uniforms result.1.2 = ∅
  ∧ m_textures result.1.2 = ∅
  ∧ m_currentTexture result.1.2 = -1
  ∧ Shader.getNativeHandle result.1.2 = 0%N.
Proof.
  intros Hprog Hav Hgeo Hfail result. subst result.
  unfold Shader.getNativeHandle in *. enter_compile. rewrite Hav. cbn [negb].
  destruct (bool_decide (is_Some geometryShaderCode)
            && negb (Shader.geometry_available env)) eqn:Eg.
  { apply andb_true_iff in Eg as [Hg Hn]. apply bool_decide_eq_true in Hg.
    rewrite (Hgeo Hg) in Hn. discriminate. }
  destruct (compile_checks_frame env geometryShaderCode w)
    as (_ & checks & Hchecks & Hinit & Hlen & Hnone).
  unfold compile_checks in Hchecks. rewrite Hav in Hchecks. cbv zeta in Hchecks.
  revert Hchecks.
  generalize (geometry_check env geometryShaderCode (Shader.isAvailable env w).2).
  intros W Hchecks.
  apply N.eqb_neq in Hprog. rewrite Hprog.
  unfold compiles_and_links in Hfail. cbn zeta in Hfail.
  set (old := GL.GLEXT_glDeleteProgram (castToGlHandle (m_shaderProgram this))).
  set (w0 := glCheck GL.GLEXT_glCreateProgramObject (glCheck old W)).
  assert (∃ issued, calls w0 = calls w ++ checks ++ old :: issued) as Hw0.
  { subst w0. cbn. rewrite Hchecks, <- !app_assoc. eauto. }
  assert (∀ w1 : World, (∃ issued, calls w1 = calls w0 ++ issued) →
            ∃ checks rest,
              calls w1 = calls w ++ checks ++ old :: rest
              ∧ initialization_only checks ∧ (length checks ≤ 2)%nat
              ∧ (isAvailable_checked w = true →
                 (is_Some geometryShaderCode → isGeometryAvailable_checked w = true) →
                 checks = [])) as Hext.
  { intros w1 [issued Hi]. destruct Hw0 as [issued0 H0].
    exists checks. rewrite Hi, H0, <- !app_assoc. cbn. eauto. }
  set (p := glCreateProgramObject_result env (calls (glCheck old W))).
  pose proof (compile_stage_spec env GL.GLEXT_GL_VERTEX_SHADER vertexShaderCode p w0)
    as [Hv [iv Hcv]].
  destruct (Shader.compile_stage env GL.GLEXT_GL_VERTEX_SHADER vertexShaderCode p w0)
    as [okv wv]. cbn [fst snd] in Hv, Hcv. rewrite <- Hv in Hfail.
  destruct okv; cbn [negb]; [|cbn [fst snd]; split; [reflexivity|]; split; [apply Hext; eauto|repeat split; reflexivity]].
  set (attached := if SFML_OPENGL_ES env then None else geometryShaderCode) in *.
  pose proof (compile_stage_spec env GL.GLEXT_GL_GEOMETRY_SHADER attached p wv)
    as [Hg [ig Hcg]].
  destruct (Shader.compile_stage env GL.GLEXT_GL_GEOMETRY_SHADER attached p wv)
    as [okg wg]. cbn [fst snd] in Hg, Hcg. rewrite <- Hg in Hfail.
  assert (∃ issued, calls wg = calls w0 ++ issued) as Hwg.
  { rewrite Hcg, Hcv, <- app_assoc. eauto. }
  destruct okg; cbn [negb]; [|cbn [fst snd]; split; [reflexivity|]; split; [apply Hext; eauto|repeat split; reflexivity]].
  pose proof (compile_stage_spec env GL.GLEXT_GL_FRAGMENT_SHADER fragmentShaderCode p wg)
    as [Hf [jf Hcf]].
  destruct (Shader.compile_stage env GL.GLEXT_GL_FRAGMENT_SHADER fragmentShaderCode p wg)
    as [okf wf]. cbn [fst snd] in Hf, Hcf. rewrite <- Hf in Hfail.
  assert (∃ issued, calls wf = calls w0 ++ issued) as Hwf.
  { destruct Hwg as [i Hi]. rewrite Hcf, Hi, <- app_assoc. eauto. }
  destruct okf; cbn [negb]; [|cbn [fst snd]; split; [reflexivity|]; split; [apply Hext; eauto|repeat split; reflexivity]].
  cbn in Hfail. rewrite Hfail. cbn [negb fst snd].
  split; [reflexivity|]. split; [|repeat split; reflexivity].
  apply Hext. destruct Hwf as [i Hi]. exists (i ++ [GL.GLEXT_glLinkProgram p;
    GL.GLEXT_glGetProgramParameteriv_LINK_STATUS p; GL.GLEXT_glGetProgramInfoLog p;
    GL.GLEXT_glDeleteProgram p]).
  cbn [calls glCheck err_endl set_calls set_err]. rewrite Hi, <- !app_assoc. reflexivity.
Qed.

Lemma failed_recompile_leaves_no_program_witness :
  let env := example_env true true 8 in
  let result := Shader.compile env example_shader (Some "void main(){}"%string) None
                  (Some "syntax error"%string) example_world in
  (Shader.getNativeHandle example_shader ≠ 0%N
   ∧ Shader.available env = true
   ∧ (is_Some (@None string) → Shader.geometry_available env = true)
   ∧ compiles_and_links env (Some "void main(){}"%string) None
       (Some "syntax error"%string) = false)
  ∧ (result.1.1 = false
     ∧ (∃ checks rest,
          calls result.2
          = calls example_world ++ checks
            ++ GL.GLEXT_glDeleteProgram (m_shaderProgram example_shader) :: rest
          ∧ initialization_only checks ∧ (length checks ≤ 2)%nat
          ∧ (isAvailable_checked example_world = true →
             (is_Some (@None string) → isGeometryAvailable_checked example_world = true) →
             checks = []))
     ∧ m_uniforms result.1.2 = ∅
     ∧ m_textures result.1.2 = ∅
     ∧ m_currentTexture result.1.2 = -1
     ∧ Shader.getNativeHandle result.1.2 = 0%N).
Proof.
  intros env result.
  assert (Shader.getNativeHandle example_shader ≠ 0%N) as H1 by (vm_compute; discriminate).
  assert (Shader.available env = true) as H2 by reflexivity.
  assert (is_Some (@None string) → Shader.geometry_available env = true) as H3
    by (intros [? ?]; discriminate).
  assert (compiles_and_links env (Some "void main(){}"%string) None
            (Some "syntax error"%string) = false) as H4 by reflexivity.
  split; [tauto|].
  exact (failed_recompile_leaves_no_program env example_shader _ _ _ example_world
           H1 H2 H3 H4).
Defined.

(** ** Activation and the context tracker *)

Lemma setActive_true_tracks (this : RenderTarget) w :
  let result := RenderTarget.setActive this true w in
  contextRenderTargetMap result.2 !! getActiveContextId w = Some (m_id this)
  ∧ getActiveContextId result.2 = getActiveContextId w
  ∧ m_id result.1.2 = m_id this.
Proof.
  unfold RenderTarget.setActive. cbn zeta.
  destruct (contextRenderTargetMap w !! getActiveContextId w) as [second|] eqn:E; cbn.
  - destruct (second =? m_id this)%N eqn:Eid; cbn.
    + apply N.eqb_eq in Eid. subst second. auto.
    + rewrite lookup_insert_eq. auto.
  - rewrite lookup_insert_eq. auto.
Qed.




(** ** Walking through the calls of a draw *)

(** The recursive descent through the term that computes a world.  A step
    that matches no rule is left to [inv_leaf], which later sections extend. *)
Ltac walk_leaf := fail.
Ltac walk_side := first [ reflexivity | assumption | solve [auto] ].
Ltac walk_step :=
  lazymatch goal with
  | H : ?P ?w |- ?P ?w => exact H
  | |- _ (glCheck _ _) => first [ apply inv_call; [walk_side|] | walk_leaf ]
  | |- _ (glCheck_if ?b _ _) => unfold glCheck_if; destruct b eqn:?
  | |- _ (err_endl _ _) => first [ apply inv_line; [walk_side|] | walk_leaf ]
  | |- _ (glUseProgramObject _ _) => unfold glUseProgramObject; apply inv_program
  | |- _ (set_current_program _ _) => apply inv_program
  | |- _ (set_shaders _ _) => apply inv_shaders
  | |- _ (set_getDefaultShader _ _ _) => apply inv_default
  | |- _ (set_getDefaultTexShader _ _ _) => apply inv_defaultTex
  | |- _ (set_isAvailable_checked _ _) => apply inv_checked
  | |- _ (set_isGeometryAvailable_checked _ _) => apply inv_geometry_checked
  | |- _ (RenderTarget.drawPrimitives _ _ _ _) => unfold RenderTarget.drawPrimitives
  | |- _ (RenderTarget.applyTransform _ _ _) => unfold RenderTarget.applyTransform
  | |- _ (if ?b then _ else _) => destruct b eqn:?
  | |- _ (match ?o with Some _ => _ | None => _ end) => destruct o eqn:?
  | |- _ => walk_leaf
  end.
Ltac walk := repeat walk_step.

Section Leaves.
Context {P : World → Prop} {I : Inv P}.

Lemma inv_isAvailable env w : P w → P (Shader.isAvailable env w).2.
Proof.
  intros Hw. rewrite isAvailable_snd. destruct (isAvailable_checked w); walk.
Qed.

Lemma inv_isGeometryAvailable env w : P w → P (Shader.isGeometryAvailable env w).2.
Proof.
  intros Hw. rewrite isGeometryAvailable_snd.
  destruct (isGeometryAvailable_checked w); [exact Hw|]. cbv zeta.
  destruct (SFML_OPENGL_ES env); [walk|]. apply inv_isAvailable. walk.
Qed.

Lemma inv_geometry_check env g w : P w → P (geometry_check env g w).
Proof.
  intros Hw. destruct g; cbn [geometry_check]; [apply inv_isGeometryAvailable|];
    exact Hw.
Qed.

Lemma inv_getUniformLocation env (this : Shader) name w :
  allowed_line (Shader.uniform_not_found name) →
  P w → P (Shader.getUniformLocation env this name w).2.
Proof.
  intros Hl Hw. unfold Shader.getUniformLocation.
  destruct (m_uniforms this !! name); cbn; [exact Hw|]. walk.
Qed.

Lemma inv_withBinder env upload (this : Shader) name w :
  (∀ l, call_kind (upload l) = KOther) →
  allowed_line (Shader.uniform_not_found name) →
  P w → P (Shader.withBinder env upload this name w).2.
Proof.
  intros Hup Hl Hw. unfold Shader.withBinder, Shader.UniformBinder_new.
  destruct (castToGlHandle (m_shaderProgram this) =? 0)%N eqn:E0.
  { cbn. unfold Shader.UniformBinder_delete. cbn. rewrite E0. exact Hw. }
  match goal with |- context [Shader.getUniformLocation ?e ?s ?n ?x] =>
    assert (P (Shader.getUniformLocation e s n x).2) as Hloc;
    [ apply inv_getUniformLocation; [exact Hl|];
      destruct (SFML_OPENGL_ES env); destruct (_ =? current_program _)%N; walk
    | destruct (Shader.getUniformLocation e s n x) as [[location this1] w1] ]
  end.
  cbn in Hloc |- *. unfold Shader.UniformBinder_delete. cbn.
  destruct (location =? -1); destruct (_ && _); walk; apply Hup.
Qed.

Lemma inv_store p s w : P w → P (store p s w).
Proof. intros Hw. destruct p; cbn; walk. Qed.

Lemma inv_setUniform_Mat4_at env p name matrix w :
  allowed_line (Shader.uniform_not_found name) →
  P w → P (setUniform_Mat4_at env p name matrix w).
Proof.
  intros Hl Hw. unfold setUniform_Mat4_at, Shader.setUniform_Mat4.
  match goal with |- context [Shader.withBinder ?e ?u ?s ?n ?x] =>
    assert (P (Shader.withBinder e u s n x).2) as Hb
      by (apply inv_withBinder; auto);
    destruct (Shader.withBinder e u s n x) as [s1 w1]
  end.
  apply inv_store. exact Hb.
Qed.

Lemma inv_setUniform_Vec2_at env p name v w :
  allowed_line (Shader.uniform_not_found name) →
  P w → P (setUniform_Vec2_at env p name v w).
Proof.
  intros Hl Hw. unfold setUniform_Vec2_at, Shader.setUniform_Vec2.
  match goal with |- context [Shader.withBinder ?e ?u ?s ?n ?x] =>
    assert (P (Shader.withBinder e u s n x).2) as Hb
      by (apply inv_withBinder; auto);
    destruct (Shader.withBinder e u s n x) as [s1 w1]
  end.
  apply inv_store. exact Hb.
Qed.

Lemma inv_bindTextures_loop it : ∀ i w,
  P w → P (Shader.bindTextures_loop i it w).
Proof.
  induction it as [|[first second] it IH]; intros i w Hw; cbn; [exact Hw|].
  apply IH. walk.
Qed.

Lemma inv_bind env shader w :
  allowed_line Shader.bind_unavailable →
  P w → P (Shader.bind env shader w).
Proof.
  intros Hl Hw. unfold Shader.bind, Shader.bindTextures.
  rewrite isAvailable_eta. cbv beta iota.
  apply (inv_isAvailable env) in Hw. revert Hw.
  generalize (Shader.isAvailable env w).2. clear w. intros w Hw.
  destruct (negb (Shader.available env)); [walk|].
  destruct shader as [shader|]; [|walk].
  destruct (m_shaderProgram shader =? 0)%N; [walk|].
  destruct (m_currentTexture shader =? -1); walk;
    apply inv_bindTextures_loop; walk.
Qed.

Lemma inv_compile_stage env ty code shaderProgram w :
  (∀ l, allowed_line l) →
  P w → P (Shader.compile_stage env ty code shaderProgram w).2.
Proof.
  intros Hl Hw. unfold Shader.compile_stage.
  destruct code as [code|]; [|exact Hw].
  destruct (compile_status env ty code); cbn; walk.
Qed.

Lemma inv_compile env (this : Shader) v g f w :
  (∀ l, allowed_line l) →
  P w → P (Shader.compile env this v g f w).2.
Proof.
  intros Hl Hw. enter_compile.
  apply (inv_isAvailable env) in Hw.
  destruct (negb (Shader.available env)); [cbn; walk|].
  apply (inv_geometry_check env g) in Hw. revert Hw.
  generalize (geometry_check env g (Shader.isAvailable env w).2). clear w. intros w Hw.
  destruct (_ && _); [cbn; walk|].
  destruct (m_shaderProgram this =? 0)%N.
  all: repeat
    match goal with
    | |- context [Shader.compile_stage ?e ?t ?c ?p ?x] =>
        assert (P (Shader.compile_stage e t c p x).2)
          by (apply inv_compile_stage; [exact Hl|]; walk);
        destruct (Shader.compile_stage e t c p x) as [[] ?]; cbn [negb fst snd] in *
    end; try assumption.
  all: destruct (link_status _ _ _ _); cbn; walk.
Qed.

Lemma inv_getDefaultShader env w :
  (∀ l, allowed_line l) → P w → P (Shader.getDefaultShader env w).
Proof.
  intros Hl Hw. unfold Shader.getDefaultShader, Shader.loadFromMemory.
  destruct (getDefaultShader_first w); [|exact Hw].
  match goal with |- context [Shader.compile ?e ?s ?a ?b ?c ?x] =>
    assert (P (Shader.compile e s a b c x).2) by (apply inv_compile; auto);
    destruct (Shader.compile e s a b c x) as [[ok s1] w1]
  end.
  walk.
Qed.

Lemma inv_getDefaultTexShader env w :
  (∀ l, allowed_line l) → P w → P (Shader.getDefaultTexShader env w).
Proof.
  intros Hl Hw. unfold Shader.getDefaultTexShader, Shader.loadFromMemory.
  destruct (getDefaultTexShader_first w); [|exact Hw].
  match goal with |- context [Shader.compile ?e ?s ?a ?b ?c ?x] =>
    assert (P (Shader.compile e s a b c x).2) by (apply inv_compile; auto);
    destruct (Shader.compile e s a b c x) as [[ok s1] w1]
  end.
  walk.
Qed.

Lemma inv_applyTexture (this : RenderTarget) t w :
  P w → P (RenderTarget.applyTexture this t w).2.
Proof. intros Hw. unfold RenderTarget.applyTexture. cbn. walk. Qed.

Lemma inv_applyShader env p w :
  allowed_line Shader.bind_unavailable →
  P w → P (RenderTarget.applyShader env p w).
Proof. intros Hl Hw. unfold RenderTarget.applyShader. apply inv_bind; assumption. Qed.

Lemma inv_setup_texture_uniforms env p t w :
  (∀ l, allowed_line l) →
  P w → P (RenderTarget.setup_texture_uniforms env p t w).
Proof.
  intros Hl Hw. unfold RenderTarget.setup_texture_uniforms.
  destruct (m_pixelsFlipped t); destruct (_ && _);
    repeat first [ apply inv_setUniform_Vec2_at | apply inv_setUniform_Mat4_at ]; auto.
Qed.

End Leaves.

(** ** What the operations of a target do to the target itself *)

Lemma applyBlendMode_fst env (this : RenderTarget) mode w :
  (RenderTarget.applyBlendMode env this mode w).1
  = upd_cache (set_lastBlendMode mode) this.
Proof. reflexivity. Qed.

Lemma setActive_fst (this : RenderTarget) active w :
  let t := (RenderTarget.setActive this active w).1.2 in
  (RenderTarget.setActive this active w).1.1 = true
  ∧ m_id t = m_id this ∧ m_view t = m_view this ∧ m_defaultView t = m_defaultView this
  ∧ getSize t = getSize this ∧ isSrgb t = isSrgb this
  ∧ ∃ e s, m_cache t = set_enable e (set_glStatesSet s (m_cache this)).
Proof.
  unfold RenderTarget.setActive. cbn zeta.
  assert (∀ c : StatesCache, c = set_enable (enable c) (set_glStatesSet (glStatesSet c) c))
    as Hid by (intros []; reflexivity).
  destruct active;
    [destruct (contextRenderTargetMap w !! getActiveContextId w) as [second|];
     [destruct (second =? m_id this)%N|]|];
    cbn; repeat split; eauto.
Qed.

Lemma isActive_or_setActive_fst (this : RenderTarget) w :
  let t := (RenderTarget.isActive_or_setActive this w).1.2 in
  (RenderTarget.isActive_or_setActive this w).1.1 = true
  ∧ m_id t = m_id this ∧ m_view t = m_view this ∧ m_defaultView t = m_defaultView this
  ∧ getSize t = getSize this ∧ isSrgb t = isSrgb this
  ∧ ∃ e s, m_cache t = set_enable e (set_glStatesSet s (m_cache this)).
Proof.
  unfold RenderTarget.isActive_or_setActive.
  destruct (RenderTargetImpl.isActive (m_id this) w); [|apply setActive_fst].
  cbn. repeat split. exists (enable (m_cache this)), (glStatesSet (m_cache this)).
  destruct (m_cache this); reflexivity.
Qed.

Lemma resetGLStates_fst env (this : RenderTarget) w :
  (RenderTarget.resetGLStates env this w).1 = reset_target env this.
Proof.
  unfold RenderTarget.resetGLStates. rewrite isAvailable_eta. cbv beta iota.
  generalize (Shader.isAvailable env w).2. clear w. intros w.
  assert (∃ t0 w0, (if SFML_SYSTEM_MACOS env
                    then let '(_, this0, w1) := RenderTarget.setActive this false w in
                         (this0, w1)
                    else (this, w)) = (t0, w0)
                   ∧ m_id t0 = m_id this ∧ m_view t0 = m_view this
                   ∧ m_defaultView t0 = m_defaultView this
                   ∧ getSize t0 = getSize this ∧ isSrgb t0 = isSrgb this
                   ∧ ∃ e s, m_cache t0 = set_enable e (set_glStatesSet s (m_cache this)))
    as (t0 & w0 & -> & Hid & Hv & Hdv & Hsz & Hs & e & s & Hc).
  { destruct (SFML_SYSTEM_MACOS env).
    - pose proof (setActive_fst this false w) as Ha. cbn zeta in Ha.
      destruct (RenderTarget.setActive this false w) as [[ok t0] w0].
      exists t0, w0. cbn [fst snd] in Ha. tauto.
    - exists this, w. repeat split.
      exists (enable (m_cache this)), (glStatesSet (m_cache this)).
      destruct (m_cache this); reflexivity. }
  pose proof (isActive_or_setActive_fst t0 w0) as Ha. cbn zeta in Ha.
  destruct (RenderTarget.isActive_or_setActive t0 w0) as [[ok t1] w1].
  cbn [fst snd] in Ha. destruct Ha as (-> & Hid1 & Hv1 & Hdv1 & Hsz1 & Hs1 & e1 & s1 & Hc1).
  cbn [negb].
  unfold RenderTarget.applyTexture, RenderTarget.setView, RenderTarget.getView,
    reset_target, upd_cache, set_m_cache, set_m_view.
  cbn. rewrite Hc1, Hc, Hid1, Hid, Hv1, Hv, Hdv1, Hdv, Hsz1, Hsz, Hs1, Hs.
  destruct (m_cache this). reflexivity.
Qed.

Lemma neq_false (l r0 : BlendMode.t) : BlendMode.neq l r0 = false → l = r0.
Proof.
  unfold BlendMode.neq. intros H. apply negb_false_iff, bool_decide_eq_true in H.
  exact H.
Qed.

Lemma neq_true (l r0 : BlendMode.t) : BlendMode.neq l r0 = true → l ≠ r0.
Proof.
  unfold BlendMode.neq. intros H. apply negb_true_iff, bool_decide_eq_false in H.
  exact H.
Qed.

(** Case analysis on every test of the goal. *)
Ltac cases :=
  repeat match goal with
         | |- context [if ?c then _ else _] => destruct c eqn:?
         | |- context [match ?o with Some _ => _ | None => _ end] => destruct o eqn:?
         end.

(** Worlds that the goal only passes around are replaced by variables, so
    that case analysis never looks inside them. *)
Ltac forget_worlds :=
  repeat match goal with
         | |- context [?X] =>
             lazymatch type of X with
             | World => tryif is_var X then fail else (generalize X; intro)
             end
         end.

(** One step through a [let '(a, b) := X in ...]: case analysis when [X] is
    a conditional, computation when it is a pair, and [open_call] when it is
    a call. *)
Ltac open_call X := fail.
Ltac open_pair :=
  match goal with
  | |- context [match ?X with (_, _) => _ end] =>
      lazymatch X with
      | if ?c then _ else _ => destruct c eqn:?
      | match ?o with Some _ => _ | None => _ end => destruct o eqn:?
      | (_, _) => cbv beta iota
      | _ => open_call X
      end
  end.

Ltac open_call X ::=
  lazymatch X with
  | RenderTarget.resetGLStates ?e ?t ?x =>
      let Hr := fresh "Hr" in
      pose proof (resetGLStates_fst e t x) as Hr;
      destruct X as [? ?]; cbn [fst] in Hr; subst
  | RenderTarget.applyBlendMode _ _ _ _ => unfold RenderTarget.applyBlendMode
  | RenderTarget.applyTexture _ _ _ => unfold RenderTarget.applyTexture
  | RenderTarget.applyCurrentView _ _ => unfold RenderTarget.applyCurrentView
  | RenderTargetImpl.equationToGlConstant _ _ _ => destruct X as [? ?]
  end.

Lemma setupDraw_fst env (this : RenderTarget) cached states w :
  let t := (RenderTarget.setupDraw env this cached states w).1 in
  glStatesSet (m_cache t) = true
  ∧ lastBlendMode (m_cache t) = blendMode states
  ∧ m_id t = m_id this
  ∧ vertexCache (m_cache t) = vertexCache (m_cache this)
  ∧ (glStatesSet (m_cache this) = true →
     enable (m_cache t) = enable (m_cache this)
     ∧ useVertexCache (m_cache t) = useVertexCache (m_cache this)).
Proof.
  unfold RenderTarget.setupDraw. cbv zeta.
  destruct (SFML_OPENGL_ES env);
    repeat (forget_worlds; open_pair); forget_worlds.
  all: cbn.
  all: cases; cbn.
  all: repeat match goal with
           | H : _ || _ = false |- _ => apply orb_false_iff in H as [? ?]
           | H : negb _ = false |- _ => apply negb_false_iff in H
           | H : BlendMode.neq _ _ = false |- _ => apply neq_false in H
           end.
  all: cbn in *; repeat split; try congruence.
Qed.

(** ** Invariants along a draw

    [P] holds up to the blend mode, [Q] from there to the draw call, [R]
    after it. *)

(** Opening [let '(a, b) := X in ...] when [X] is a call whose world
    satisfies [P] by [tac]. *)
Ltac open_with P X tac :=
  let HP := fresh "HP" in
  assert (HP : P X.2) by tac;
  destruct X as [? ?]; cbn [snd] in HP.

(** Replacing the world [x] by a variable that satisfies [P]. *)
Ltac abstract_world P x :=
  tryif is_var x then idtac
  else (let HP := fresh "HP" in
        assert (HP : P x) by walk; revert HP; generalize x; intros ? HP).

Ltac walk_leaf ::=
  match goal with
  | H : ∀ c w, call_kind c = KMatrix → ?P w → ?P (glCheck c w) |- ?P (glCheck _ _) =>
      apply H; [reflexivity|]
  | H : ∀ w, ?Q w → ?R (glCheck ?c w) |- ?R (glCheck ?c _) => apply H
  | |- _ (setUniform_Mat4_at _ _ _ _ _) => apply inv_setUniform_Mat4_at; [walk_side|]
  | |- _ (setUniform_Vec2_at _ _ _ _ _) => apply inv_setUniform_Vec2_at; [walk_side|]
  | |- _ (RenderTarget.setup_texture_uniforms _ _ _ _) =>
      apply inv_setup_texture_uniforms; [walk_side|]
  | |- _ (RenderTarget.applyShader _ _ _) => apply inv_applyShader; [walk_side|]
  | |- _ (Shader.getDefaultShader _ _) => apply inv_getDefaultShader; [walk_side|]
  | |- _ (Shader.getDefaultTexShader _ _) => apply inv_getDefaultTexShader; [walk_side|]
  end.

Section Phases.
Context (env : Env) {P P1 P2 Q R : World → Prop} {IP : Inv P} {IQ : Inv Q} {IR : Inv R}.
Context (this : RenderTarget) (states : RenderStates).
Hypothesis Q_bind : @allowed_line Q IQ Shader.bind_unavailable.
Hypothesis R_bind : @allowed_line R IR Shader.bind_unavailable.
Hypothesis P_es : SFML_OPENGL_ES env = true → ∀ l, @allowed_line P IP l.
Hypothesis Q_es : SFML_OPENGL_ES env = true → ∀ l, @allowed_line Q IQ l.

Lemma inv_setupDraw_phases (t : RenderTarget) cached w :
  (glStatesSet (m_cache t) = false →
   ∀ w, P w → P (RenderTarget.resetGLStates env t w).2) →
  (∀ sh t' w, P w → P1 (transform_step env sh t' cached states w)) →
  (∀ sh t' w, P1 w → P2 (view_step env sh t' w).2) →
  (∀ t' w,
     (glStatesSet (m_cache t) = true →
      enable (m_cache t') = enable (m_cache t)
      ∧ lastBlendMode (m_cache t') = lastBlendMode (m_cache t)) →
     P2 w → Q (blend_step env t' states w).2) →
  P w → Q (RenderTarget.setupDraw env t cached states w).2.
Proof.
  clear R_bind.
  intros Hreset Htransform Hview Hblend Hw. unfold RenderTarget.setupDraw. cbv zeta.
  (* sRGB encoding and the first-call reset *)
  match goal with
  | |- context [if glStatesSet (m_cache t) then (t, ?x) else _] => abstract_world P x
  end.
  destruct (glStatesSet (m_cache t)) eqn:Eg.
  2: match goal with
     | |- context [RenderTarget.resetGLStates ?e ?t0 ?x] =>
         open_with P (RenderTarget.resetGLStates e t0 x) ltac:(apply Hreset; auto)
     end.
  all: cbv beta iota.
  all: destruct (SFML_OPENGL_ES env) eqn:Ees;
    [ specialize (P_es eq_refl); specialize (Q_es eq_refl);
      destruct (shader states) eqn:?, (texture states) eqn:?; cbv beta iota
    | ].
  (* the shader in use, on OpenGL ES *)
  all: try match goal with
           | |- context [setUniform_Mat4_at env _ _
                           (Glsl.mkMat4 (getMatrix (transform states))) ?x] =>
               abstract_world P x
           end.
  (* the transform *)
  all: match goal with
       | |- context [glCheck (GL.glViewport _ _ _ _)
                       (if ?c then setUniform_Mat4_at env ?sh ?n ?m ?x else ?b)] =>
           let y := constr:(if c then setUniform_Mat4_at env sh n m x else b) in
           assert (P1 y) as Hphase1
             by (generalize (Htransform sh this x); unfold transform_step; rewrite Ees;
                 intros H1; refine (H1 _); assumption);
           revert Hphase1; generalize y; intros ? Hphase1
       | |- context [RenderTarget.applyCurrentView ?t0
                       (if ?c then ?a else RenderTarget.applyTransform env ?m ?x)] =>
           let y := constr:(if c then a else RenderTarget.applyTransform env m x) in
           assert (P1 y) as Hphase1
             by (generalize (Htransform DefaultShader t0 x); unfold transform_step;
                 rewrite Ees; intros H1; refine (H1 _); assumption);
           revert Hphase1; generalize y; intros ? Hphase1
       end.
  (* the view *)
  all: try match goal with
           | |- context [RenderTarget.applyCurrentView ?t0 ?y] =>
               generalize (Hview DefaultShader t0 y Hphase1); unfold view_step; rewrite Ees;
               destruct (negb (enable (m_cache t0)) || viewChanged (m_cache t0));
               unfold RenderTarget.applyCurrentView; cbv beta iota zeta; cbn [snd];
               intros Hphase2
           end.
  all: try match goal with
           | |- context [RenderTarget.applyBlendMode _ ?t0 _
                           (setUniform_Mat4_at env ?sh _ _ (glCheck _ ?y))] =>
               generalize (Hview sh t0 y Hphase1); unfold view_step; rewrite Ees;
               cbv beta iota zeta; cbn [snd]; intros Hphase2
           end.
  all: match goal with
       | |- context [RenderTarget.applyBlendMode _ _ _ ?z] =>
           tryif is_var z then idtac
           else (revert Hphase2; generalize z; intros ? Hphase2)
       end.
  all: match goal with
       | |- context [if ?c then RenderTarget.applyBlendMode ?e ?t0 ?m ?x else _] =>
           change (if c then RenderTarget.applyBlendMode e t0 m x else (t0, x))
             with (blend_step e t0 states x);
           open_with Q (blend_step e t0 states x)
             ltac:(apply Hblend; [first [discriminate | intros _; split; reflexivity]
                                 | assumption])
       end.
  (* the texture, the shader and the attributes *)
  all: unfold RenderTarget.applyTexture.
  all: repeat open_pair.
  all: repeat match goal with
              | |- _ (snd (if ?c then _ else _)) => destruct c eqn:?
              end.
  all: cbn [snd]; walk.
Qed.

(** The same from the transform on, for the world in which [setupDraw]
    actually applies it. *)
Lemma inv_setupDraw_pinned (t : RenderTarget) cached w :
  let '(sh, t', wa) := setupDraw_entry env t states w in
  P1 (transform_step env sh t' cached states wa) →
  (∀ sh t' w, P1 w → P2 (view_step env sh t' w).2) →
  (∀ t' w, P2 w → Q (blend_step env t' states w).2) →
  Q (RenderTarget.setupDraw env t cached states w).2.
Proof.
  clear R_bind P_es.
  unfold RenderTarget.setupDraw, setupDraw_entry, transform_step. cbv zeta.
  (* sRGB encoding and the first-call reset *)
  match goal with
  | |- context [if glStatesSet (m_cache t) then (t, ?x) else _] =>
      generalize x; intros entered
  end.
  destruct (glStatesSet (m_cache t)) eqn:Eg.
  2: destruct (RenderTarget.resetGLStates env t entered) as [t0 x0].
  all: cbv beta iota.
  all: destruct (SFML_OPENGL_ES env) eqn:Ees;
    [ specialize (Q_es eq_refl);
      destruct (shader states) eqn:?, (texture states) eqn:?; cbv beta iota
    | ].
  (* the transform *)
  all: intros Hphase1 Hview Hblend; revert Hphase1.
  all: match goal with |- P1 ?y → _ => generalize y; intros ? Hphase1 end.
  (* the view *)
  all: try match goal with
           | |- context [RenderTarget.applyCurrentView ?t0 ?y] =>
               generalize (Hview DefaultShader t0 y Hphase1); unfold view_step; rewrite Ees;
               destruct (negb (enable (m_cache t0)) || viewChanged (m_cache t0));
               unfold RenderTarget.applyCurrentView; cbv beta iota zeta; cbn [snd];
               intros Hphase2
           end.
  all: try match goal with
           | |- context [RenderTarget.applyBlendMode _ ?t0 _
                           (setUniform_Mat4_at env ?sh _ _ (glCheck _ ?y))] =>
               generalize (Hview sh t0 y Hphase1); unfold view_step; rewrite Ees;
               cbv beta iota zeta; cbn [snd]; intros Hphase2
           end.
  all: match goal with
       | |- context [RenderTarget.applyBlendMode _ _ _ ?z] =>
           tryif is_var z then idtac
           else (revert Hphase2; generalize z; intros ? Hphase2)
       end.
  all: match goal with
       | |- context [if ?c then RenderTarget.applyBlendMode ?e ?t0 ?m ?x else _] =>
           change (if c then RenderTarget.applyBlendMode e t0 m x else (t0, x))
             with (blend_step e t0 states x);
           open_with Q (blend_step e t0 states x) ltac:(apply Hblend; assumption)
       end.
  (* the texture, the shader and the attributes *)
  all: unfold RenderTarget.applyTexture.
  all: repeat open_pair.
  all: repeat match goal with
              | |- _ (snd (if ?c then _ else _)) => destruct c eqn:?
              end.
  all: cbn [snd]; walk.
Qed.

Lemma inv_cleanupDraw (t : RenderTarget) w :
  R w → R (RenderTarget.cleanupDraw env t states w).2.
Proof.
  clear Q_bind P_es Q_es.
  intros Hw. unfold RenderTarget.cleanupDraw, RenderTarget.applyTexture. cbv zeta.
  destruct (texture states) as [tx|]; [destruct (m_fboAttachment tx)|]; cbn [snd]; walk.
Qed.

(** The guard that opens a drawing operation: the target it leaves differs
    from [this] only when [this] was not active. *)
Lemma inv_guard w :
  P (RenderTarget.isActive_or_setActive this w).2 →
  ∃ t1 w1, RenderTarget.isActive_or_setActive this w = (true, t1, w1)
           ∧ P w1 ∧ m_id t1 = m_id this
           ∧ (RenderTargetImpl.isActive (m_id this) w = true → t1 = this).
Proof.
  clear. intros Hact.
  pose proof (isActive_or_setActive_fst this w) as Hf. cbv zeta in Hf.
  unfold RenderTarget.isActive_or_setActive in *.
  destruct (RenderTargetImpl.isActive (m_id this) w) eqn:Ea.
  - exists this, w. auto.
  - destruct (RenderTarget.setActive this true w) as [[ok t1] w1].
    cbn [fst snd] in Hf, Hact. destruct Hf as (-> & Hid & _).
    exists t1, w1. repeat split; auto. discriminate.
Qed.

Lemma inv_draw_phases vertices vertexCount type w :
  P (RenderTarget.isActive_or_setActive this w).2 →
  (∀ t w', m_id t = m_id this →
           (RenderTargetImpl.isActive (m_id this) w = true →
            glStatesSet (m_cache t) = glStatesSet (m_cache this)) →
           glStatesSet (m_cache t) = false →
           P w' → P (RenderTarget.resetGLStates env t w').2) →
  (∀ sh t' w', P w' →
     P1 (transform_step env sh t' (vertexCount <=? VertexCacheSize env)%nat states w')) →
  (∀ sh t' w', P1 w' → P2 (view_step env sh t' w').2) →
  (∀ t' w',
     (RenderTargetImpl.isActive (m_id this) w = true →
      glStatesSet (m_cache this) = true →
      enable (m_cache t') = enable (m_cache this)
      ∧ lastBlendMode (m_cache t') = lastBlendMode (m_cache this)) →
     P2 w' → Q (blend_step env t' states w').2) →
  (∀ w', Q w' →
         R (glCheck (GL.glDrawArrays (RenderTarget.modes type) (static_cast_GLint 0)
                       (static_cast_GLint vertexCount)) w')) →
  drawable env vertices vertexCount type →
  R (RenderTarget.draw env this vertices vertexCount type states w).2.
Proof.
  intros Hact Hreset Htransform Hview Hblend Hdraw ([vs ->] & Hn & Hq).
  unfold RenderTarget.draw.
  apply Nat.eqb_neq in Hn. rewrite Hn, Hq. cbv zeta.
  destruct (inv_guard w Hact) as (t1 & w1 & -> & Hw1 & Hid1 & Hsame).
  cbv beta iota. cbn [negb].
  match goal with
  | |- context [RenderTarget.setupDraw ?e ?t0 ?c ?s ?x] =>
      assert (m_id t0 = m_id this) as Hid0
        by (destruct (vertexCount <=? VertexCacheSize env)%nat; exact Hid1);
      assert (RenderTargetImpl.isActive (m_id this) w = true →
              glStatesSet (m_cache t0) = glStatesSet (m_cache this)
              ∧ enable (m_cache t0) = enable (m_cache this)
              ∧ lastBlendMode (m_cache t0) = lastBlendMode (m_cache this)) as Hsame0
        by (intros Ha; rewrite (Hsame Ha);
            destruct (vertexCount <=? VertexCacheSize env)%nat; cbn; auto);
      open_with Q (RenderTarget.setupDraw e t0 c s x)
        ltac:(apply inv_setupDraw_phases;
              [ intros Hg w' Hw'; apply Hreset; try assumption;
                intros Ha; apply (Hsame0 Ha)
              | exact Htransform
              | exact Hview
              | intros t' w' Hguard; apply Hblend; intros Ha Hg;
                destruct (Hsame0 Ha) as (Hg0 & He0 & Hl0);
                destruct Hguard; [congruence|]; split; congruence
              | exact Hw1 ])
  end.
  match goal with
  | |- context [RenderTarget.cleanupDraw ?e ?t0 ?s ?x] =>
      open_with R (RenderTarget.cleanupDraw e t0 s x)
        ltac:(apply inv_cleanupDraw; destruct (SFML_OPENGL_ES env); walk)
  end.
  cbn [snd]. exact HP0.
Qed.

(** A draw of more vertices than the vertex cache holds, from the world in
    which it applies the transform. *)
Lemma inv_draw_pinned vertices vertexCount type w :
  drawable env vertices vertexCount type →
  (vertexCount <=? VertexCacheSize env)%nat = false →
  let '(sh, t', wa) := draw_entry env this states w in
  P1 (transform_step env sh t' false states wa) →
  (∀ sh t' w', P1 w' → P2 (view_step env sh t' w').2) →
  (∀ t' w', P2 w' → Q (blend_step env t' states w').2) →
  (∀ w', Q w' →
         R (glCheck (GL.glDrawArrays (RenderTarget.modes type) (static_cast_GLint 0)
                       (static_cast_GLint vertexCount)) w')) →
  R (RenderTarget.draw env this vertices vertexCount type states w).2.
Proof.
  clear P_es.
  intros ([vs ->] & Hn & Hq) Hc. unfold RenderTarget.draw, draw_entry.
  apply Nat.eqb_neq in Hn. rewrite Hn, Hq, Hc. cbv zeta.
  pose proof (isActive_or_setActive_fst this w) as Hf. cbv zeta in Hf.
  destruct (RenderTarget.isActive_or_setActive this w) as [[ok t1] w1].
  cbn [fst snd] in Hf. destruct Hf as (-> & _). cbv beta iota. cbn [negb].
  pose proof (inv_setupDraw_pinned t1 false w1) as Hs.
  destruct (setupDraw_entry env t1 states w1) as [[sh t'] wa].
  intros H1 Hview Hblend Hdraw. specialize (Hs H1 Hview Hblend).
  destruct (RenderTarget.setupDraw env t1 false states w1) as [t2 w2]. cbn [snd] in Hs.
  match goal with
  | |- context [RenderTarget.cleanupDraw ?e ?t0 ?s ?x] =>
      open_with R (RenderTarget.cleanupDraw e t0 s x)
        ltac:(apply inv_cleanupDraw; destruct (SFML_OPENGL_ES env); walk)
  end.
  cbn [snd]. assumption.
Qed.

End Phases.

Section Draw.
Context (env : Env) {P Q R : World → Prop} {IP : Inv P} {IQ : Inv Q} {IR : Inv R}.
Context (this : RenderTarget) (states : RenderStates).
Hypothesis P_matrix : ∀ c w, call_kind c = KMatrix → P w → P (glCheck c w).
Hypothesis P_bind : @allowed_line P IP Shader.bind_unavailable.
Hypothesis Q_bind : @allowed_line Q IQ Shader.bind_unavailable.
Hypothesis R_bind : @allowed_line R IR Shader.bind_unavailable.
Hypothesis P_es : SFML_OPENGL_ES env = true → ∀ l, @allowed_line P IP l.
Hypothesis Q_es : SFML_OPENGL_ES env = true → ∀ l, @allowed_line Q IQ l.

Lemma inv_resetGLStates (t : RenderTarget) w :
  (∀ t' w', P w' → P (RenderTarget.applyBlendMode env t' (BlendAlpha env) w').2) →
  P (RenderTarget.isActive_or_setActive (reset_entry env t w).1 (reset_entry env t w).2).2 →
  P (RenderTarget.resetGLStates env t w).2.
Proof.
  clear Q_es Q_bind R_bind.
  intros Hblend Hact. unfold RenderTarget.resetGLStates. cbv zeta.
  unfold reset_entry in Hact.
  rewrite isAvailable_eta in Hact |- *. cbv beta iota in Hact |- *.
  revert Hact. generalize (Shader.isAvailable env w).2. clear w. intros w Hact.
  match goal with
  | |- context [match ?X with (_, _) => _ end] => destruct X as [t0 w0]
  end.
  cbn [fst snd] in Hact.
  pose proof (isActive_or_setActive_fst t0 w0) as Hf. cbv zeta in Hf.
  destruct (RenderTarget.isActive_or_setActive t0 w0) as [[ok t1] w1].
  cbn [fst snd] in Hf, Hact. destruct Hf as (-> & _). cbn [negb].
  match goal with
  | |- context [RenderTarget.applyBlendMode ?e ?t2 ?m ?x] =>
      open_with P (RenderTarget.applyBlendMode e t2 m x)
        ltac:(apply Hblend; destruct (SFML_OPENGL_ES env); walk)
  end.
  unfold RenderTarget.applyTexture. cbv beta iota. cbn [snd]. walk.
Qed.

Lemma inv_transform_step sh (t : RenderTarget) cached w :
  P w → P (transform_step env sh t cached states w).
Proof.
  clear Q_es Q_bind R_bind P_bind.
  intros Hw. unfold transform_step.
  destruct (SFML_OPENGL_ES env) eqn:Ees; [specialize (P_es eq_refl)|]; walk.
Qed.

Lemma inv_view_step sh (t : RenderTarget) w :
  P w → P (view_step env sh t w).2.
Proof.
  clear Q_es Q_bind R_bind P_bind.
  intros Hw. unfold view_step, RenderTarget.applyCurrentView.
  destruct (SFML_OPENGL_ES env) eqn:Ees; [specialize (P_es eq_refl)|].
  - cbv zeta. cbn [snd]. walk.
  - destruct (_ || _); cbv zeta; cbn [snd]; walk.
Qed.

Lemma inv_setupDraw (t : RenderTarget) cached w :
  (glStatesSet (m_cache t) = false →
   ∀ w, P w → P (RenderTarget.resetGLStates env t w).2) →
  (∀ t' w,
     (glStatesSet (m_cache t) = true →
      enable (m_cache t') = enable (m_cache t)
      ∧ lastBlendMode (m_cache t') = lastBlendMode (m_cache t)) →
     P w → Q (blend_step env t' states w).2) →
  P w → Q (RenderTarget.setupDraw env t cached states w).2.
Proof.
  clear R_bind P_bind.
  intros Hreset Hblend Hw.
  apply (inv_setupDraw_phases env (P1 := P) (P2 := P) (IP := IP) (IQ := IQ));
    auto using inv_transform_step, inv_view_step.
Qed.

Lemma inv_draw vertices vertexCount type w :
  P (RenderTarget.isActive_or_setActive this w).2 →
  (∀ t w', m_id t = m_id this →
           (RenderTargetImpl.isActive (m_id this) w = true →
            glStatesSet (m_cache t) = glStatesSet (m_cache this)) →
           glStatesSet (m_cache t) = false →
           P w' → P (RenderTarget.resetGLStates env t w').2) →
  (∀ t' w',
     (RenderTargetImpl.isActive (m_id this) w = true →
      glStatesSet (m_cache this) = true →
      enable (m_cache t') = enable (m_cache this)
      ∧ lastBlendMode (m_cache t') = lastBlendMode (m_cache this)) →
     P w' → Q (blend_step env t' states w').2) →
  (∀ w', Q w' →
         R (glCheck (GL.glDrawArrays (RenderTarget.modes type) (static_cast_GLint 0)
                       (static_cast_GLint vertexCount)) w')) →
  drawable env vertices vertexCount type →
  R (RenderTarget.draw env this vertices vertexCount type states w).2.
Proof.
  clear P_bind.
  intros Hact Hreset Hblend Hdraw Hd.
  apply (inv_draw_phases env (P1 := P) (P2 := P) (IP := IP) (IQ := IQ) (IR := IR));
    auto using inv_transform_step, inv_view_step.
Qed.

Lemma inv_draw_VertexBuffer_range vertexBuffer firstVertex vertexCount w :
  P (RenderTarget.isActive_or_setActive this w).2 →
  (∀ t w', m_id t = m_id this →
           (RenderTargetImpl.isActive (m_id this) w = true →
            glStatesSet (m_cache t) = glStatesSet (m_cache this)) →
           glStatesSet (m_cache t) = false →
           P w' → P (RenderTarget.resetGLStates env t w').2) →
  (∀ t' w',
     (RenderTargetImpl.isActive (m_id this) w = true →
      glStatesSet (m_cache this) = true →
      enable (m_cache t') = enable (m_cache this)
      ∧ lastBlendMode (m_cache t') = lastBlendMode (m_cache this)) →
     P w' → Q (blend_step env t' states w').2) →
  (∀ w', Q w' →
         R (glCheck (GL.glDrawArrays (RenderTarget.modes (m_primitiveType vertexBuffer))
                       (static_cast_GLint firstVertex)
                       (static_cast_GLint
                          (Nat.min vertexCount (vb_size vertexBuffer - firstVertex))))
              w')) →
  drawable_buffer env vertexBuffer firstVertex vertexCount →
  R (RenderTarget.draw_VertexBuffer_range env this vertexBuffer firstVertex vertexCount
       states w).2.
Proof.
  intros Hact Hreset Hblend Hdraw (Hav & Hfirst & Hn & Hb & Hq).
  unfold RenderTarget.draw_VertexBuffer_range.
  apply Nat.eqb_neq in Hn. apply N.eqb_neq in Hb.
  apply Nat.ltb_ge in Hfirst.
  rewrite Hav, Hfirst. cbv zeta. rewrite Hn, Hb, Hq. cbn [negb orb].
  destruct (inv_guard (P := P) this w Hact) as (t1 & w1 & -> & Hw1 & Hid1 & Hsame).
  cbv beta iota. cbn [negb].
  match goal with
  | |- context [RenderTarget.setupDraw ?e ?t0 ?c ?s ?x] =>
      open_with Q (RenderTarget.setupDraw e t0 c s x)
        ltac:(apply inv_setupDraw;
              [ intros Hg w' Hw'; apply Hreset; try assumption;
                intros Ha; rewrite (Hsame Ha); reflexivity
              | intros t' w' Hguard; apply Hblend; intros Ha Hg;
                rewrite (Hsame Ha) in Hguard; auto
              | exact Hw1 ])
  end.
  match goal with
  | |- context [RenderTarget.cleanupDraw ?e ?t0 ?s ?x] =>
      open_with R (RenderTarget.cleanupDraw e t0 s x)
        ltac:(apply (inv_cleanupDraw env (IR := IR)); auto;
              destruct (SFML_OPENGL_ES env); walk)
  end.
  cbn [snd]. exact HP0.
Qed.

End Draw.

(** ** The target stays active, and the blend calls of a draw *)

#[local] Instance active_Inv id : Inv (active id).
Proof.
  refine (mkInv _ (λ _, True) _ _ _ _ _ _ _ _); intros; assumption.
Defined.

Lemma filter_other l c :
  is_blend_call c = false →
  List.filter is_blend_call (l ++ [c]) = List.filter is_blend_call l.
Proof.
  intros H. rewrite List.filter_app. cbn. rewrite H. apply app_nil_r.
Qed.

Lemma kind_not_blend c : call_kind c ≠ KBlend → is_blend_call c = false.
Proof. unfold is_blend_call. destruct (call_kind c); congruence. Qed.

Lemma blend_trace_call w0 X c w :
  call_kind c ≠ KBlend → blend_trace w0 X w → blend_trace w0 X (glCheck c w).
Proof.
  intros Hc (l & Hl & HX). exists (l ++ [c]). split.
  - cbn. rewrite Hl, app_assoc. reflexivity.
  - rewrite filter_other; auto using kind_not_blend.
Qed.

#[local] Instance blend_trace_Inv w0 X : Inv (blend_trace w0 X).
Proof.
  refine (mkInv _ (λ _, True) _ _ _ _ _ _ _ _); intros; try assumption.
  apply blend_trace_call; [congruence|assumption].
Defined.

(** The calls of [draw] itself join the ones [open_pair] knows. *)
Ltac open_call X ::=
  lazymatch X with
  | RenderTarget.resetGLStates ?e ?t ?x =>
      let Hr := fresh "Hr" in
      pose proof (resetGLStates_fst e t x) as Hr;
      destruct X as [? ?]; cbn [fst] in Hr; subst
  | RenderTarget.setupDraw ?e ?t ?c ?s ?x =>
      let Hs := fresh "Hs" in
      pose proof (setupDraw_fst e t c s x) as Hs; cbv zeta in Hs;
      destruct X as [? ?]; cbn [fst] in Hs
  | RenderTarget.isActive_or_setActive ?t ?x =>
      let Ha := fresh "Ha" in
      pose proof (isActive_or_setActive_fst t x) as Ha; cbv zeta in Ha;
      destruct X as [[? ?] ?]; cbn [fst snd] in Ha;
      destruct Ha as (-> & ? & ? & ? & ? & ? & ? & ? & ?)
  | RenderTarget.cleanupDraw _ _ _ _ => unfold RenderTarget.cleanupDraw
  | RenderTarget.applyBlendMode _ _ _ _ => unfold RenderTarget.applyBlendMode
  | RenderTarget.applyTexture _ _ _ => unfold RenderTarget.applyTexture
  | RenderTarget.applyCurrentView _ _ => unfold RenderTarget.applyCurrentView
  | RenderTargetImpl.equationToGlConstant _ _ _ => destruct X as [? ?]
  end.

Lemma draw_fst env (this : RenderTarget) vertices vertexCount type states w :
  drawable env (Some vertices) vertexCount type →
  let t := (RenderTarget.draw env this (Some vertices) vertexCount type states w).1 in
  enable (m_cache t) = true ∧ glStatesSet (m_cache t) = true
  ∧ lastBlendMode (m_cache t) = blendMode states
  ∧ useVertexCache (m_cache t) = (vertexCount <=? VertexCacheSize env)%nat
  ∧ m_id t = m_id this
  ∧ vertexCache (m_cache t)
    = if (vertexCount <=? VertexCacheSize env)%nat
      then RenderTarget.pretransform env states vertices vertexCount
             (vertexCache (m_cache this))
      else vertexCache (m_cache this).
Proof.
  intros (_ & Hn & Hq). unfold RenderTarget.draw.
  apply Nat.eqb_neq in Hn. rewrite Hn, Hq. cbv zeta.
  repeat (forget_worlds; open_pair); forget_worlds.
  all: cbn [negb].
  all: destruct Hs as (Hg & Hb & Hid & Hvc & _).
  all: destruct (vertexCount <=? VertexCacheSize env)%nat.
  all: cbn in *; rewrite ?H4 in *; cbn in *; repeat split; congruence.
Qed.

Lemma equationToGlConstant_frame env e w :
  let r := RenderTargetImpl.equationToGlConstant env e w in
  r.1 = (RenderTargetImpl.equationToGlConstant env e example_world).1
  ∧ calls r.2 = calls w
  ∧ contextRenderTargetMap r.2 = contextRenderTargetMap w
  ∧ getActiveContextId r.2 = getActiveContextId w
  ∧ applyBlendMode_warned r.2 = applyBlendMode_warned w.
Proof.
  unfold RenderTargetImpl.equationToGlConstant,
    RenderTargetImpl.equationToGlConstant_fallback.
  destruct e, (GLEXT_blend_subtract env), (GLEXT_blend_minmax env),
    (equationToGlConstant_warned w); cbn; auto.
Qed.

Lemma applyBlendMode_frame env (t : RenderTarget) mode w :
  let w' := (RenderTarget.applyBlendMode env t mode w).2 in
  calls w' = calls w ++ blend_calls env mode
  ∧ contextRenderTargetMap w' = contextRenderTargetMap w
  ∧ getActiveContextId w' = getActiveContextId w.
Proof.
  unfold RenderTarget.applyBlendMode, blend_calls. cbv zeta. cbn [snd].
  match goal with
  | |- context [if GLEXT_blend_func_separate env then glCheck ?a w else glCheck ?b w] =>
      replace (if GLEXT_blend_func_separate env then glCheck a w else glCheck b w)
        with (glCheck (if GLEXT_blend_func_separate env then a else b) w)
        by (destruct (GLEXT_blend_func_separate env); reflexivity);
      generalize (if GLEXT_blend_func_separate env then a else b)
  end.
  intros c.
  destruct (GLEXT_blend_minmax env || GLEXT_blend_subtract env);
    [destruct (GLEXT_blend_equation_separate env)|].
  - pose proof (equationToGlConstant_frame env (BlendMode.colorEquation mode)
                  (glCheck c w)) as H1. cbv zeta in H1.
    destruct (RenderTargetImpl.equationToGlConstant env (BlendMode.colorEquation mode)
                (glCheck c w)) as [c1 w1].
    pose proof (equationToGlConstant_frame env (BlendMode.alphaEquation mode) w1) as H2.
    cbv zeta in H2.
    destruct (RenderTargetImpl.equationToGlConstant env (BlendMode.alphaEquation mode) w1)
      as [c2 w2].
    cbn [fst snd] in *.
    destruct H1 as (<- & Hc1 & Hm1 & Hx1 & _), H2 as (<- & Hc2 & Hm2 & Hx2 & _).
    cbn. rewrite Hc2, Hc1, Hm2, Hm1, Hx2, Hx1. cbn. rewrite <- app_assoc. auto.
  - pose proof (equationToGlConstant_frame env (BlendMode.colorEquation mode)
                  (glCheck c w)) as H1. cbv zeta in H1.
    destruct (RenderTargetImpl.equationToGlConstant env (BlendMode.colorEquation mode)
                (glCheck c w)) as [c1 w1].
    cbn [fst snd] in *.
    destruct H1 as (<- & Hc1 & Hm1 & Hx1 & _).
    cbn. rewrite Hc1, Hm1, Hx1. cbn. rewrite <- app_assoc. auto.
  - destruct (_ || _), (applyBlendMode_warned w); cbn; auto.
    all: destruct (applyBlendMode_warned w); cbn; auto.
Qed.

Lemma active_frame id w w' :
  contextRenderTargetMap w' = contextRenderTargetMap w →
  getActiveContextId w' = getActiveContextId w →
  active id w → active id w'.
Proof.
  unfold active, RenderTargetImpl.isActive. intros -> ->. auto.
Qed.

Lemma active_applyBlendMode env id (t : RenderTarget) mode w :
  active id w → active id (RenderTarget.applyBlendMode env t mode w).2.
Proof.
  destruct (applyBlendMode_frame env t mode w) as (_ & Hm & Hc).
  apply active_frame; assumption.
Qed.

Lemma active_blend_step env id (t : RenderTarget) states w :
  active id w → active id (blend_step env t states w).2.
Proof.
  unfold blend_step. destruct (_ || _); [apply active_applyBlendMode|auto].
Qed.

Lemma active_isActive_or_setActive (t : RenderTarget) w :
  active (m_id t) (RenderTarget.isActive_or_setActive t w).2.
Proof.
  unfold RenderTarget.isActive_or_setActive.
  destruct (RenderTargetImpl.isActive (m_id t) w) eqn:E; [exact E|].
  destruct (setActive_true_tracks t w) as (Hm & Hc & _).
  unfold active, RenderTargetImpl.isActive. rewrite Hc, Hm, N.eqb_refl. reflexivity.
Qed.

Lemma reset_entry_id env (t : RenderTarget) w : m_id (reset_entry env t w).1 = m_id t.
Proof.
  unfold reset_entry. rewrite isAvailable_eta. cbv beta iota.
  generalize (Shader.isAvailable env w).2. clear w. intros w.
  destruct (SFML_SYSTEM_MACOS env); [|reflexivity].
  pose proof (setActive_fst t false w) as H. cbv zeta in H.
  destruct (RenderTarget.setActive t false w) as [[? ?] ?]. cbn in *. tauto.
Qed.

Lemma active_resetGLStates env (t : RenderTarget) w :
  active (m_id t) (RenderTarget.resetGLStates env t w).2.
Proof.
  apply (inv_resetGLStates env (IP := active_Inv (m_id t))).
  - intros c w' Hc Hw'. exact Hw'.
  - exact I.
  - intros _ l. exact I.
  - intros t' w'. apply active_applyBlendMode.
  - rewrite <- (reset_entry_id env t w) at 1. apply active_isActive_or_setActive.
Qed.

Lemma draw_VertexBuffer_range_fst env (this : RenderTarget) vertexBuffer firstVertex
    vertexCount states w :
  drawable_buffer env vertexBuffer firstVertex vertexCount →
  let t := (RenderTarget.draw_VertexBuffer_range env this vertexBuffer firstVertex
              vertexCount states w).1 in
  enable (m_cache t) = true ∧ glStatesSet (m_cache t) = true
  ∧ lastBlendMode (m_cache t) = blendMode states
  ∧ useVertexCache (m_cache t) = false
  ∧ m_id t = m_id this
  ∧ vertexCache (m_cache t) = vertexCache (m_cache this).
Proof.
  intros (Hav & Hfirst & Hn & Hb & Hq). unfold RenderTarget.draw_VertexBuffer_range.
  apply Nat.eqb_neq in Hn. apply N.eqb_neq in Hb. apply Nat.ltb_ge in Hfirst.
  rewrite Hav, Hfirst. cbv zeta. rewrite Hn, Hb, Hq. cbn [negb orb].
  repeat (forget_worlds; open_pair); forget_worlds.
  all: cbn [negb].
  all: destruct Hs as (Hg & Hbm & Hid & Hvc & _).
  all: cbn in *; rewrite ?H4 in *; cbn in *; repeat split; congruence.
Qed.

Lemma run_draw_fst env (this : RenderTarget) d w :
  performed env d →
  let t := (run_draw env this d w).1 in
  enable (m_cache t) = true ∧ glStatesSet (m_cache t) = true
  ∧ lastBlendMode (m_cache t) = blendMode (draw_states d)
  ∧ m_id t = m_id this.
Proof.
  destruct d as [[vs|] n ty st|vb f n st]; cbn [performed run_draw draw_states]; intros Hd.
  - pose proof (draw_fst env this vs n ty st w Hd) as H. cbv zeta in *. tauto.
  - destruct Hd as ([? [=]] & _).
  - pose proof (draw_VertexBuffer_range_fst env this vb f n st w Hd) as H.
    cbv zeta in *. tauto.
Qed.

Section RunDraw.
Context (env : Env) {P Q R : World → Prop} {IP : Inv P} {IQ : Inv Q} {IR : Inv R}.
Context (this : RenderTarget) (d : DrawCall).
Hypothesis P_matrix : ∀ c w, call_kind c = KMatrix → P w → P (glCheck c w).
Hypothesis Q_bind : @allowed_line Q IQ Shader.bind_unavailable.
Hypothesis R_bind : @allowed_line R IR Shader.bind_unavailable.
Hypothesis P_es : SFML_OPENGL_ES env = true → ∀ l, @allowed_line P IP l.
Hypothesis Q_es : SFML_OPENGL_ES env = true → ∀ l, @allowed_line Q IQ l.

Lemma inv_run_draw w :
  P (RenderTarget.isActive_or_setActive this w).2 →
  (∀ t w', m_id t = m_id this →
           (RenderTargetImpl.isActive (m_id this) w = true →
            glStatesSet (m_cache t) = glStatesSet (m_cache this)) →
           glStatesSet (m_cache t) = false →
           P w' → P (RenderTarget.resetGLStates env t w').2) →
  (∀ t' w',
     (RenderTargetImpl.isActive (m_id this) w = true →
      glStatesSet (m_cache this) = true →
      enable (m_cache t') = enable (m_cache this)
      ∧ lastBlendMode (m_cache t') = lastBlendMode (m_cache this)) →
     P w' → Q (blend_step env t' (draw_states d) w').2) →
  (∀ w', Q w' → R (glCheck (draw_arrays d) w')) →
  performed env d →
  R (run_draw env this d w).2.
Proof.
  destruct d; cbn [run_draw draw_states draw_arrays performed]; intros.
  - apply (inv_draw env (IP := IP) (IQ := IQ) (IR := IR)); assumption.
  - apply (inv_draw_VertexBuffer_range env (IP := IP) (IQ := IQ) (IR := IR)); assumption.
Qed.

End RunDraw.

Lemma run_draw_active env (this : RenderTarget) d w :
  performed env d → active (m_id this) (run_draw env this d w).2.
Proof.
  intros Hd.
  apply (inv_run_draw env (IP := active_Inv (m_id this)) (IQ := active_Inv (m_id this))
           (IR := active_Inv (m_id this))); try exact I; auto.
  - intros _ l. exact I.
  - intros _ l. exact I.
  - apply active_isActive_or_setActive.
  - intros t w' Hid _ _ _. rewrite <- Hid. apply active_resetGLStates.
  - intros t' w' _. apply active_blend_step.
Qed.

Lemma blend_calls_kind env mode :
  List.filter is_blend_call (blend_calls env mode) = blend_calls env mode.
Proof.
  unfold blend_calls.
  destruct (GLEXT_blend_func_separate env), (GLEXT_blend_minmax env || GLEXT_blend_subtract env),
    (GLEXT_blend_equation_separate env); reflexivity.
Qed.

Lemma blend_trace_refl w : blend_trace w [] w.
Proof. exists []. split; [symmetry; apply app_nil_r|reflexivity]. Qed.

Lemma blend_trace_applyBlendMode env w0 (t : RenderTarget) mode w :
  blend_trace w0 [] w →
  blend_trace w0 (blend_calls env mode) (RenderTarget.applyBlendMode env t mode w).2.
Proof.
  intros (l & Hl & HX). destruct (applyBlendMode_frame env t mode w) as (Hc & _).
  exists (l ++ blend_calls env mode). split.
  - rewrite Hc, Hl, app_assoc. reflexivity.
  - rewrite List.filter_app, HX, blend_calls_kind. reflexivity.
Qed.

Lemma run_draw_blend_trace env (this : RenderTarget) d w :
  performed env d →
  active (m_id this) w →
  enable (m_cache this) = true → glStatesSet (m_cache this) = true →
  blend_trace w
    (expected_blend_calls env (lastBlendMode (m_cache this)) (blendMode (draw_states d)))
    (run_draw env this d w).2.
Proof.
  intros Hd Ha He Hg.
  set (X := expected_blend_calls _ _ _).
  apply (inv_run_draw env (IP := blend_trace_Inv w []) (IQ := blend_trace_Inv w X)
           (IR := blend_trace_Inv w X)); try exact I; auto.
  - intros c w' Hc. apply blend_trace_call. congruence.
  - intros _ l. exact I.
  - intros _ l. exact I.
  - unfold RenderTarget.isActive_or_setActive. rewrite Ha. apply blend_trace_refl.
  - intros t w' _ Hs Hf. rewrite (Hs Ha), Hg in Hf. discriminate.
  - intros t' w' Hsame Hw'. destruct (Hsame Ha Hg) as (He' & Hl').
    unfold blend_step. rewrite He', Hl', He. cbn [negb orb].
    subst X. unfold expected_blend_calls, BlendMode.neq.
    destruct (bool_decide _); cbn [negb snd]; [exact Hw'|].
    apply blend_trace_applyBlendMode, Hw'.
  - intros w'. apply blend_trace_call. destruct d; discriminate.
Qed.


(** ** The fallback trace is kept by every step of a draw *)

Lemma blend_warnings_line l w :
  l ≠ blend_equation_warning → blend_warnings (err_endl l w) = blend_warnings w.
Proof.
  intros Hl. unfold blend_warnings.
  change (err (err_endl l w)) with (err w ++ [l]).
  rewrite List.filter_app. cbn [List.filter].
  destruct (String.eqb_spec blend_equation_warning l); [congruence|].
  rewrite app_nil_r. reflexivity.
Qed.

Lemma fallback_trace_call w0 D c w :
  is_equation_call c = false → is_draw_call c = false →
  fallback_trace w0 D w → fallback_trace w0 D (glCheck c w).
Proof.
  intros He Hd ((l & Hl & HE & HD) & Hb). split; [|exact Hb].
  exists (l ++ [c]). change (calls (glCheck c w)) with (calls w ++ [c]).
  rewrite Hl, app_assoc, !List.filter_app. cbn [List.filter].
  rewrite He, Hd, HE, HD, !app_nil_r. auto.
Qed.

Lemma fallback_trace_line w0 D l w :
  l ≠ blend_equation_warning →
  fallback_trace w0 D w → fallback_trace w0 D (err_endl l w).
Proof.
  intros Hl (Ht & Hb). split; [exact Ht|].
  unfold warning_budget in *. rewrite blend_warnings_line by exact Hl. exact Hb.
Qed.

#[local] Instance fallback_trace_Inv w0 D : Inv (fallback_trace w0 D).
Proof.
  refine (mkInv _ (λ l, l ≠ blend_equation_warning) _ _ _ _ _ _ _ _);
    intros; try assumption.
  - apply fallback_trace_call; [destruct c; try reflexivity; discriminate
                               |unfold is_draw_call; rewrite H; reflexivity|assumption].
  - apply fallback_trace_line; assumption.
Defined.

Section Fallback.
Context (env : Env).
Hypothesis no_minmax : GLEXT_blend_minmax env = false.
Hypothesis no_subtract : GLEXT_blend_subtract env = false.

Lemma fallback_desktop : SFML_OPENGL_ES env = false.
Proof.
  clear no_minmax. unfold GLEXT_blend_subtract in no_subtract.
  destruct (SFML_OPENGL_ES env); [discriminate|reflexivity].
Qed.

Lemma bind_unavailable_allowed : Shader.bind_unavailable ≠ blend_equation_warning.
Proof. clear. vm_compute. discriminate. Qed.

Lemma budget_warning w :
  applyBlendMode_warned w = false →
  warning_budget
    (set_applyBlendMode_warned true
       (fold_left (λ w line, err_endl line w) (RenderTarget.blend_unavailable_warning env) w))
  = warning_budget w.
Proof.
  clear no_minmax. intros Hw. unfold warning_budget, blend_warnings.
  rewrite Hw. unfold RenderTarget.blend_unavailable_warning.
  rewrite fallback_desktop. cbn [fold_left].
  change (applyBlendMode_warned (set_applyBlendMode_warned true _)) with true.
  match goal with
  | |- context [err (set_applyBlendMode_warned true
                       (err_endl ?c (err_endl ?b (err_endl ?a w))))] =>
      change (err (set_applyBlendMode_warned true (err_endl c (err_endl b (err_endl a w)))))
        with (((err w ++ [a]) ++ [b]) ++ [c])
  end.
  rewrite !List.filter_app, !length_app.
  vm_compute (List.filter _ [_]). cbn [length]. lia.
Qed.

Lemma fallback_applyBlendMode w0 D (t : RenderTarget) mode w :
  fallback_trace w0 D w →
  fallback_trace w0 D (RenderTarget.applyBlendMode env t mode w).2.
Proof.
  intros Hw. unfold RenderTarget.applyBlendMode. cbv zeta. cbn [snd].
  rewrite no_minmax, no_subtract. cbn [orb].
  match goal with
  | |- context [if GLEXT_blend_func_separate env then glCheck ?a w else glCheck ?b w] =>
      assert (fallback_trace w0 D
                (if GLEXT_blend_func_separate env then glCheck a w else glCheck b w))
        as Hw1
        by (destruct (GLEXT_blend_func_separate env);
            apply fallback_trace_call; auto);
      revert Hw1;
      generalize (if GLEXT_blend_func_separate env then glCheck a w else glCheck b w)
  end.
  intros w1 Hw1.
  destruct (_ || _); [|exact Hw1].
  destruct (applyBlendMode_warned w1) eqn:E; [exact Hw1|].
  destruct Hw1 as (Ht & Hb). split; [exact Ht|].
  rewrite budget_warning; assumption.
Qed.

Lemma fallback_blend_step w0 D (t : RenderTarget) states w :
  fallback_trace w0 D w → fallback_trace w0 D (blend_step env t states w).2.
Proof.
  unfold blend_step. destruct (_ || _); [apply fallback_applyBlendMode|auto].
Qed.

Lemma fallback_setActive w0 D (t : RenderTarget) a w :
  fallback_trace w0 D w → fallback_trace w0 D (RenderTarget.setActive t a w).2.
Proof.
  clear. unfold RenderTarget.setActive. cbv zeta.
  destruct a, (contextRenderTargetMap w !! getActiveContextId w) as [second|];
    try destruct (second =? m_id t)%N; cbn [snd]; auto.
Qed.

Lemma fallback_isActive_or_setActive w0 D (t : RenderTarget) w :
  fallback_trace w0 D w →
  fallback_trace w0 D (RenderTarget.isActive_or_setActive t w).2.
Proof.
  clear. unfold RenderTarget.isActive_or_setActive.
  destruct (RenderTargetImpl.isActive (m_id t) w); [auto|apply fallback_setActive].
Qed.

Lemma fallback_resetGLStates w0 D (t : RenderTarget) w :
  fallback_trace w0 D w → fallback_trace w0 D (RenderTarget.resetGLStates env t w).2.
Proof.
  intros Hw.
  apply (inv_resetGLStates env (IP := fallback_trace_Inv w0 D)).
  - intros c w' Hc. apply fallback_trace_call.
    + destruct c; try reflexivity; discriminate.
    + unfold is_draw_call. rewrite Hc. reflexivity.
  - apply bind_unavailable_allowed.
  - rewrite fallback_desktop. discriminate.
  - intros t' w'. apply fallback_applyBlendMode.
  - apply fallback_isActive_or_setActive. unfold reset_entry.
    rewrite isAvailable_eta. cbv beta iota.
    apply (inv_isAvailable (I := fallback_trace_Inv w0 D) env) in Hw. revert Hw.
    generalize (Shader.isAvailable env w).2. clear w. intros w Hw.
    destruct (SFML_SYSTEM_MACOS env); [|exact Hw].
    pose proof (fallback_setActive w0 D t false w Hw) as H.
    destruct (RenderTarget.setActive t false w) as [[? ?] ?]. exact H.
Qed.

Lemma fallback_run_draw w0 D (t : RenderTarget) d w :
  performed env d →
  fallback_trace w0 D w →
  fallback_trace w0 (D ++ [draw_arrays d]) (run_draw env t d w).2.
Proof.
  intros Hd Hw.
  apply (inv_run_draw env (IP := fallback_trace_Inv w0 D) (IQ := fallback_trace_Inv w0 D)
           (IR := fallback_trace_Inv w0 (D ++ [draw_arrays d]))); auto.
  - intros c w' Hc. apply fallback_trace_call.
    + destruct c; try reflexivity; discriminate.
    + unfold is_draw_call. rewrite Hc. reflexivity.
  - apply bind_unavailable_allowed.
  - apply bind_unavailable_allowed.
  - rewrite fallback_desktop. discriminate.
  - rewrite fallback_desktop. discriminate.
  - apply fallback_isActive_or_setActive, Hw.
  - intros. apply fallback_resetGLStates. assumption.
  - intros. apply fallback_blend_step. assumption.
  - intros w' ((l & Hl & HE & HD) & Hb). split; [|exact Hb].
    exists (l ++ [draw_arrays d]).
    change (calls (glCheck (draw_arrays d) w')) with (calls w' ++ [draw_arrays d]).
    rewrite Hl, app_assoc, !List.filter_app, HE, HD.
    destruct d; auto.
Qed.

Lemma fallback_skipped w0 D (t : RenderTarget) d w :
  ¬ performed env d →
  fallback_trace w0 D w → fallback_trace w0 D (run_draw env t d w).2.
Proof.
  clear no_minmax no_subtract. intros Hd Hw.
  destruct d as [vs n ty st|vb f n st]; cbn [run_draw performed] in *.
  - unfold RenderTarget.draw. destruct vs as [vs|]; [|exact Hw].
    destruct (n =? 0)%nat eqn:En; [exact Hw|].
    destruct (SFML_OPENGL_ES env && RenderTarget.is_Quads ty) eqn:Eq.
    + apply fallback_trace_line; [vm_compute; discriminate|exact Hw].
    + destruct Hd. apply Nat.eqb_neq in En. repeat split; eauto.
  - unfold RenderTarget.draw_VertexBuffer_range.
    destruct (VertexBuffer_isAvailable env) eqn:Ea; cbn [negb].
    2: { apply fallback_trace_line; [vm_compute; discriminate|exact Hw]. }
    destruct (vb_size vb <? f)%nat eqn:Ef; [exact Hw|]. cbv zeta.
    destruct (Nat.min n (vb_size vb - f) =? 0)%nat eqn:En; [exact Hw|].
    destruct (m_buffer vb =? 0)%N eqn:Eb; [exact Hw|]. cbn [orb].
    destruct (SFML_OPENGL_ES env && RenderTarget.is_Quads (m_primitiveType vb)) eqn:Eq.
    + apply fallback_trace_line; [vm_compute; discriminate|exact Hw].
    + destruct Hd. apply Nat.eqb_neq in En. apply N.eqb_neq in Eb.
      apply Nat.ltb_ge in Ef. repeat split; auto.
Qed.

Lemma fallback_run_draws requests : ∀ targets w0 D w,
  fallback_trace w0 D w →
  fallback_trace w0 (D ++ issued_draws env (length targets) requests)
    (run_draws env requests targets w).2.
Proof.
  induction requests as [|r requests IH]; intros targets w0 D w Hw.
  - cbn. rewrite app_nil_r. exact Hw.
  - cbn [run_draws issued_draws flat_map].
    destruct (targets !! request_target r) as [t|] eqn:Et.
    + apply lookup_lt_Some in Et as Hlt.
      assert (fallback_trace w0 D (set_getActiveContextId (request_context r) w))
        as Hw' by exact Hw.
      revert Hw'. generalize (set_getActiveContextId (request_context r) w). intros w1 Hw1.
      destruct (decide (performed env (request_draw r))) as [Hd|Hd].
      * pose proof (fallback_run_draw w0 D t _ w1 Hd Hw1) as H.
        destruct (run_draw env t (request_draw r) w1) as [t' w2]. cbn [snd] in H.
        specialize (IH (<[request_target r := t']> targets) w0 _ w2 H).
        rewrite length_insert in IH.
        rewrite decide_True by auto. rewrite <- app_assoc in IH. exact IH.
      * pose proof (fallback_skipped w0 D t _ w1 Hd Hw1) as H.
        destruct (run_draw env t (request_draw r) w1) as [t' w2]. cbn [snd] in H.
        specialize (IH (<[request_target r := t']> targets) w0 _ w2 H).
        rewrite length_insert in IH.
        rewrite decide_False by tauto. exact IH.
    + apply lookup_ge_None in Et.
      rewrite decide_False by lia. apply IH, Hw.
Qed.

End Fallback.

(** ** The transform is applied before the draw call *)

Lemma grows_refl w : grows w w.
Proof. exists []. symmetry. apply app_nil_r. Qed.

Lemma grows_calls w0 w w' l : calls w' = calls w ++ l → grows w0 w → grows w0 w'.
Proof. intros Hl (l0 & H0). exists (l0 ++ l). rewrite Hl, H0, app_assoc. reflexivity. Qed.

#[local] Instance grows_Inv w0 : Inv (grows w0).
Proof.
  refine (mkInv _ (λ _, True) _ _ _ _ _ _ _ _); intros; try assumption.
  eapply grows_calls; [|eassumption]. reflexivity.
Defined.

Lemma quiet_other env post l :
  List.filter is_draw_call l = [] → List.filter is_matrix_call l = [] →
  quiet env post → quiet env (post ++ l).
Proof.
  intros Hd Hm (Hd0 & Hm0). split.
  - rewrite List.filter_app, Hd0, Hd. reflexivity.
  - intros Hes. rewrite List.filter_app, Hm, app_nil_r. auto.
Qed.

Lemma quiet_since_calls env wt w w' l :
  calls w' = calls w ++ l →
  List.filter is_draw_call l = [] → List.filter is_matrix_call l = [] →
  quiet_since env wt w → quiet_since env wt w'.
Proof.
  intros Hl Hd Hm (post & Hc & Hq).
  exists (post ++ l). split.
  - rewrite Hl, Hc, app_assoc. reflexivity.
  - apply quiet_other; assumption.
Qed.

#[local] Instance quiet_since_Inv env wt : Inv (quiet_since env wt).
Proof.
  refine (mkInv _ (λ _, True) _ _ _ _ _ _ _ _); intros; try assumption.
  eapply quiet_since_calls; [| | |eassumption]; [reflexivity| |].
  - cbn. unfold is_draw_call. rewrite H. reflexivity.
  - cbn. unfold is_matrix_call. rewrite H. reflexivity.
Defined.

Lemma drawn_after_calls env d wt w w' l :
  calls w' = calls w ++ l → drawn_after env d wt w → drawn_after env d wt w'.
Proof.
  intros Hl (post & rest & Hc & Hq).
  exists post, (rest ++ l). split; [|exact Hq].
  rewrite Hl, Hc, <- !app_assoc. reflexivity.
Qed.

#[local] Instance drawn_after_Inv env d wt : Inv (drawn_after env d wt).
Proof.
  refine (mkInv _ (λ _, True) _ _ _ _ _ _ _ _); intros; try assumption.
  eapply drawn_after_calls; [|eassumption]. reflexivity.
Defined.

Lemma setActive_calls (t : RenderTarget) a w :
  calls (RenderTarget.setActive t a w).2 = calls w.
Proof.
  unfold RenderTarget.setActive. cbv zeta.
  destruct a, (contextRenderTargetMap w !! getActiveContextId w) as [second|];
    try destruct (second =? m_id t)%N; reflexivity.
Qed.

Lemma isActive_or_setActive_calls (t : RenderTarget) w :
  calls (RenderTarget.isActive_or_setActive t w).2 = calls w.
Proof.
  unfold RenderTarget.isActive_or_setActive.
  destruct (RenderTargetImpl.isActive (m_id t) w); [reflexivity|apply setActive_calls].
Qed.

Lemma grows_applyBlendMode env w0 (t : RenderTarget) mode w :
  grows w0 w → grows w0 (RenderTarget.applyBlendMode env t mode w).2.
Proof.
  destruct (applyBlendMode_frame env t mode w) as (Hc & _). apply grows_calls with (1 := Hc).
Qed.

Lemma grows_resetGLStates env w0 (t : RenderTarget) w :
  grows w0 w → grows w0 (RenderTarget.resetGLStates env t w).2.
Proof.
  intros Hw.
  apply (inv_resetGLStates env (IP := grows_Inv w0)); try exact I.
  - intros c w' _. apply grows_calls with (l := [c]). reflexivity.
  - intros _ l. exact I.
  - intros t' w'. apply grows_applyBlendMode.
  - eapply grows_calls; [rewrite isActive_or_setActive_calls, app_nil_r; reflexivity|].
    unfold reset_entry. rewrite isAvailable_eta. cbv beta iota.
    apply (inv_isAvailable (I := grows_Inv w0) env) in Hw. revert Hw.
    generalize (Shader.isAvailable env w).2. clear w. intros w Hw.
    destruct (SFML_SYSTEM_MACOS env); [|exact Hw].
    pose proof (setActive_calls t false w) as H.
    destruct (RenderTarget.setActive t false w) as [[? ?] ?]. cbn [fst snd] in *.
    eapply grows_calls; [rewrite H, app_nil_r; reflexivity|exact Hw].
Qed.

Lemma blend_calls_quiet env mode :
  List.filter is_draw_call (blend_calls env mode) = []
  ∧ List.filter is_matrix_call (blend_calls env mode) = [].
Proof.
  unfold blend_calls.
  destruct (GLEXT_blend_func_separate env), (GLEXT_blend_minmax env || GLEXT_blend_subtract env),
    (GLEXT_blend_equation_separate env); split; reflexivity.
Qed.

Lemma quiet_since_blend_step env wt (t : RenderTarget) states w :
  quiet_since env wt w → quiet_since env wt (blend_step env t states w).2.
Proof.
  unfold blend_step. destruct (_ || _); [|auto].
  destruct (applyBlendMode_frame env t (blendMode states) w) as (Hc & _).
  destruct (blend_calls_quiet env (blendMode states)).
  apply quiet_since_calls with (1 := Hc); assumption.
Qed.

Lemma quiet_since_start env wt : quiet_since env wt wt.
Proof.
  exists []. rewrite app_nil_r. repeat split; auto. intros _. left. reflexivity.
Qed.

Lemma quiet_since_view_step env wt sh (t : RenderTarget) :
  quiet_since env wt (view_step env sh t wt).2.
Proof.
  pose proof (quiet_since_start env wt) as H0.
  unfold view_step. destruct (SFML_OPENGL_ES env) eqn:Ees.
  - cbv zeta. cbn [snd]. apply inv_setUniform_Mat4_at; [exact I|].
    apply inv_call; [reflexivity|exact H0].
  - destruct (_ || _); [|exact H0].
    unfold RenderTarget.applyCurrentView. cbv zeta. cbn [snd].
    eexists [_; _; _; _]. split.
    + rewrite !calls_glCheck, <- !app_assoc. reflexivity.
    + split; [reflexivity|]. intros _. right. eexists. reflexivity.
Qed.

Lemma pretransform_length env states vertices n : ∀ cache,
  length (RenderTarget.pretransform env states vertices n cache) = length cache.
Proof.
  induction n as [|n IH]; intros cache; cbn [RenderTarget.pretransform]; [reflexivity|].
  cbv zeta. rewrite length_insert. apply IH.
Qed.

Lemma pretransform_lookup env states vertices n : ∀ cache i,
  (n ≤ length cache)%nat → (i < n)%nat →
  RenderTarget.pretransform env states vertices n cache !! i
  = Some (mkVertex (Transform_mul env (transform states) (position (vertices i)))
            (color (vertices i)) (texCoords (vertices i))).
Proof.
  induction n as [|n IH]; intros cache i Hn Hi; [lia|].
  cbn [RenderTarget.pretransform]. cbv zeta.
  destruct (decide (i = n)) as [->|Hne].
  - apply list_lookup_insert_eq. rewrite pretransform_length. lia.
  - rewrite list_lookup_insert_ne by congruence. apply IH; lia.
Qed.

Lemma pretransform_beyond env states vertices n : ∀ cache i,
  (n ≤ i)%nat →
  RenderTarget.pretransform env states vertices n cache !! i = cache !! i.
Proof.
  induction n as [|n IH]; intros cache i Hi; [reflexivity|].
  cbn [RenderTarget.pretransform]. cbv zeta.
  rewrite list_lookup_insert_ne by lia. apply IH. lia.
Qed.

Lemma calls_store p s w : calls (store p s w) = calls w.
Proof. destruct p; reflexivity. Qed.

(** The calls of [setUniform(name, matrix)] through a pointer. *)
Lemma setUniform_Mat4_at_calls env sh name matrix w :
  calls (setUniform_Mat4_at env sh name matrix w)
  = calls w ++ uniform_calls env (deref sh w) name (current_program w)
                 (λ location,
                    GL.GLEXT_glUniformMatrix4fv location 1 (Glsl.array4 matrix)).
Proof.
  unfold setUniform_Mat4_at, Shader.setUniform_Mat4, Shader.withBinder,
    Shader.UniformBinder_new, uniform_calls, resolve. cbv zeta.
  generalize (deref sh w). intros s.
  destruct (castToGlHandle (m_shaderProgram s) =? 0)%N eqn:E0.
  { cbn. rewrite calls_store. unfold Shader.UniformBinder_delete. cbn. rewrite E0.
    cbn. rewrite app_nil_r. reflexivity. }
  unfold Shader.getUniformLocation.
  change (current_program (glCheck ?c w)) with (current_program w).
  destruct (castToGlHandle (m_shaderProgram s) =? current_program w)%N eqn:Es;
    destruct (m_uniforms s !! name) as [location|] eqn:Eu; cbv zeta;
    cbn [Shader.location fst snd];
    [destruct (location =? -1)
    |destruct (glGetUniformLocation_result env _ name =? -1)
    |destruct (location =? -1)
    |destruct (glGetUniformLocation_result env _ name =? -1)];
    rewrite calls_store; unfold Shader.UniformBinder_delete;
    cbn [Shader.currentProgram Shader.savedProgram]; rewrite E0, Es;
    cbn [negb andb]; unfold glUseProgramObject;
    repeat first [ rewrite calls_glCheck
                 | progress change (calls (set_current_program ?p ?x)) with (calls x)
                 | progress change (calls (err_endl ?l ?x)) with (calls x) ];
    rewrite <- ?app_assoc; reflexivity.
Qed.

Lemma gpu_transform_calls env sh tr w :
  calls (gpu_transform env sh tr w) = calls w ++ transform_calls env sh tr w.
Proof.
  unfold gpu_transform, transform_calls. destruct (SFML_OPENGL_ES env).
  - apply setUniform_Mat4_at_calls.
  - unfold RenderTarget.applyTransform, load_transform.
    destruct (Transform_eq env tr Transform_Identity); apply calls_glCheck.
Qed.

(** On OpenGL ES the calls that apply a transform hold the upload of its
    matrix, when the shader in use holds a program that has the uniform. *)
Lemma transform_calls_upload env sh tr w :
  SFML_OPENGL_ES env = true →
  m_shaderProgram (deref sh w) ≠ 0%N →
  resolve env (deref sh w) "sf_modelview" ≠ -1 →
  GL.GLEXT_glUniformMatrix4fv (resolve env (deref sh w) "sf_modelview") 1 (getMatrix tr)
  ∈ transform_calls env sh tr w.
Proof.
  intros Hes Hp Hl. unfold transform_calls, uniform_calls, castToGlHandle.
  rewrite Hes. cbv zeta.
  apply N.eqb_neq in Hp. apply Z.eqb_neq in Hl. rewrite Hp, Hl.
  rewrite !elem_of_app. right. right. right. left. apply list_elem_of_singleton.
  reflexivity.
Qed.

(** The world in which a draw applies the transform continues the calls of
    the world in which the draw started. *)
Lemma draw_entry_grows env (this : RenderTarget) states w :
  grows w (draw_entry env this states w).2.
Proof.
  unfold draw_entry.
  pose proof (isActive_or_setActive_calls this w) as Hc.
  destruct (RenderTarget.isActive_or_setActive this w) as [[ok t1] w1]. cbn [snd] in Hc.
  assert (grows w w1) as H1
    by (eapply grows_calls; [rewrite Hc, app_nil_r; reflexivity|apply grows_refl]).
  revert H1. generalize w1. clear w1 Hc. intros w1 H1.
  unfold setupDraw_entry. cbv zeta.
  match goal with
  | |- context [if glStatesSet (m_cache t1) then (t1, ?x) else _] =>
      assert (grows w x) as H2
        by (destruct (enable (m_cache t1)); [exact H1|];
            destruct (isSrgb t1);
            (eapply grows_calls; [apply calls_glCheck|exact H1]));
      revert H2; generalize x; intros entered H2
  end.
  assert (grows w (if glStatesSet (m_cache t1) then (t1, entered)
                   else RenderTarget.resetGLStates env t1 entered).2) as H3
    by (destruct (glStatesSet (m_cache t1)); [exact H2|apply grows_resetGLStates, H2]).
  destruct (if glStatesSet (m_cache t1) then (t1, entered)
            else RenderTarget.resetGLStates env t1 entered) as [t2 w2].
  cbn [snd] in H3.
  destruct (SFML_OPENGL_ES env); [|exact H3].
  destruct (shader states), (texture states); cbn [snd]; try exact H3.
  - apply (inv_getDefaultTexShader (I := grows_Inv w) env); [intros l; exact I|exact H3].
  - apply (inv_getDefaultShader (I := grows_Inv w) env); [intros l; exact I|exact H3].
Qed.

Lemma draw_drawn_after env (this : RenderTarget) vertices vertexCount type states w :
  drawable env vertices vertexCount type →
  (vertexCount <=? VertexCacheSize env)%nat = false →
  let '(sh, _, wa) := draw_entry env this states w in
  drawn_after env
    (GL.glDrawArrays (RenderTarget.modes type) (static_cast_GLint 0)
       (static_cast_GLint vertexCount))
    (gpu_transform env sh (transform states) wa)
    (RenderTarget.draw env this vertices vertexCount type states w).2.
Proof.
  intros Hd Hn.
  set (d := GL.glDrawArrays _ _ _).
  destruct (draw_entry env this states w) as [[sh t'] wa] eqn:E.
  set (wt := gpu_transform env sh (transform states) wa).
  pose proof (inv_draw_pinned env (P1 := λ y, y = wt) (P2 := quiet_since env wt)
                (IQ := quiet_since_Inv env wt) (IR := drawn_after_Inv env d wt)
                this states) as H.
  specialize (H I I (λ _ _, I) vertices vertexCount type w Hd Hn). rewrite E in H.
  apply H.
  - unfold transform_step, wt, gpu_transform. destruct (SFML_OPENGL_ES env); reflexivity.
  - intros sh0 t0 w' ->. apply quiet_since_view_step.
  - intros t0 w'. apply quiet_since_blend_step.
  - intros w' (post & Hc & Hq). exists post, []. split; [|exact Hq].
    rewrite calls_glCheck, Hc, <- app_assoc. reflexivity.
Qed.


Lemma same_fields_eq l r0 : same_fields l r0 = bool_decide (l = r0).
Proof.
  unfold same_fields. destruct l, r0. cbn.
  repeat match goal with
         | |- context [bool_decide (?a = ?b)] =>
             lazymatch a with
             | BlendMode.mk _ _ _ _ _ _ => fail
             | _ => destruct (bool_decide_reflect (a = b)); [subst|]
             end
         end; cbn;
    try (symmetry; apply bool_decide_eq_false; congruence).
  symmetry. apply bool_decide_eq_true. reflexivity.
Qed.

Lemma blend_calls_nonempty env mode : blend_calls env mode ≠ [].
Proof. unfold blend_calls. discriminate. Qed.

(** ** Blend-mode memoization *)

(** C4: for two consecutive drawing operations on the same target, neither
    of them skipped, the first leaves the cache enabled with the first blend
    mode as [lastBlendMode].  If the blend mode of the second equals it in
    all six sub-fields, the second issues no call that changes the blend
    state; if one sub-field differs, the second issues the calls of
    [applyBlendMode] for the new mode (at least the blend function), once.
    In both cases [lastBlendMode] is the second mode afterwards. *)
Theorem blend_mode_memoized env (this : RenderTarget) (first second : DrawCall)
    (w : World) :
  performed env first → performed env second →
  let '(t1, w1) := run_draw env this first w in
  let '(t2, w2) := run_draw env t1 second w1 in
  enable (m_cache t1) = true
  ∧ lastBlendMode (m_cache t1) = blendMode (draw_states first)
  ∧ (∃ issued,
       calls w2 = calls w1 ++ issued
       ∧ List.filter is_blend_call issued
         = if same_fields (blendMode (draw_states second)) (lastBlendMode (m_cache t1))
           then []
           else blend_calls env (blendMode (draw_states second)))
  ∧ blend_calls env (blendMode (draw_states second)) ≠ []
  ∧ lastBlendMode (m_cache t2) = blendMode (draw_states second).
Proof.
  intros H1 H2.
  pose proof (run_draw_fst env this first w H1) as Hf. cbv zeta in Hf.
  pose proof (run_draw_active env this first w H1) as Ha.
  destruct (run_draw env this first w) as [t1 w1]. cbn [fst snd] in Hf, Ha.
  destruct Hf as (He & Hg & Hl & Hid). rewrite <- Hid in Ha.
  pose proof (run_draw_fst env t1 second w1 H2) as Hf2. cbv zeta in Hf2.
  pose proof (run_draw_blend_trace env t1 second w1 H2 Ha He Hg) as Ht.
  destruct (run_draw env t1 second w1) as [t2 w2]. cbn [fst snd] in Hf2, Ht.
  destruct Hf2 as (_ & _ & Hl2 & _).
  repeat split; auto using blend_calls_nonempty.
  rewrite same_fields_eq. exact Ht.
Qed.

(** ** Blend-equation fallback *)

(** C7: when neither the blend-subtract nor the blend-minmax extension is
    available, whatever drawing operations a process runs, on whatever
    targets and in whatever contexts, with whatever blend modes: no blend
    equation is ever selected (the equation of the GL stays the additive one
    it starts with), each operation that is not skipped for another reason
    issues its [glDrawArrays], and the warning of [applyBlendMode] is written
    at most once more if it has not been written yet, never again if it
    has. *)
Theorem blend_equation_fallback env (requests : list DrawRequest)
    (targets : list RenderTarget) (w : World) :
  GLEXT_blend_minmax env = false → GLEXT_blend_subtract env = false →
  let w' := (run_draws env requests targets w).2 in
  (∃ issued,
     calls w' = calls w ++ issued
     ∧ List.filter is_equation_call issued = []
     ∧ List.filter is_draw_call issued = issued_draws env (length targets) requests)
  ∧ (blend_warnings w' ≤ blend_warnings w + if applyBlendMode_warned w then 0 else 1)%nat.
Proof.
  intros Hm Hs w'.
  assert (fallback_trace w [] w) as H0.
  { split; [|reflexivity]. exists []. rewrite app_nil_r. auto. }
  destruct (fallback_run_draws env Hm Hs requests targets w [] w H0) as (Ht & Hb).
  split; [exact Ht|].
  fold w' in Hb. unfold warning_budget in Hb. lia.
Qed.

(** ** Vertex-cache threshold *)

(** C3, as stated: every draw of a non-null array with a non-zero count on an
    active target would leave [useVertexCache] equal to "the count fits the
    cache".  On an OpenGL ES build a draw of [Quads] returns before the
    cache is touched: three quad vertices on a target that has never drawn
    leave the flag false. *)
Lemma vertex_cache_threshold_quads_counterexample :
  ¬ (∀ env (this : RenderTarget) (vertices : nat → Vertex) (vertexCount : nat)
       (type : PrimitiveType) (states : RenderStates) (w : World),
       vertexCount ≠ 0%nat →
       RenderTargetImpl.isActive (m_id this) w = true →
       useVertexCache
         (m_cache (RenderTarget.draw env this (Some vertices) vertexCount type
                     states w).1)
       = (vertexCount <=? VertexCacheSize env)%nat).
Proof.
  intros H.
  pose (env := example_env true true 8).
  pose (B := activate (example_targets env).1.2 5%N (example_targets env).2).
  specialize (H env B.1 example_vertices 3%nat Quads (example_states example_BlendAlpha)
                B.2).
  vm_compute in H.
  assert (3%nat ≠ 0%nat) as Hn by discriminate.
  specialize (H Hn eq_refl). discriminate H.
Qed.

(** C3, amended: for every draw of a non-null array with a non-zero count
    and a primitive type the platform has (not [Quads] on OpenGL ES), on a
    target whose vertex cache has its fixed capacity: if the count is at most
    the capacity, [useVertexCache] is true after the call and the cache holds,
    for each index below the count, the vertex with its position transformed
    by [states.transform] and its colour and texture coordinates copied (the
    other slots are unchanged); if the count exceeds the capacity,
    [useVertexCache] is false after the call, the cache is unchanged and the
    transform has been applied as GPU state before the draw call: in the
    world [wa] that the draw has reached when it comes to the transform, with
    the shader [usedShader] it has selected there, it issues the calls that
    load the matrix of [states.transform] (the model-view matrix on the fixed
    pipeline, the [sf_modelview] uniform of the shader in use on OpenGL ES),
    then calls that neither draw nor, on the fixed pipeline, change the
    model-view matrix, then the draw call. *)
Theorem vertex_cache_threshold env (this : RenderTarget) (vertices : nat → Vertex)
    (vertexCount : nat) (type : PrimitiveType) (states : RenderStates) (w : World) :
  drawable env (Some vertices) vertexCount type →
  length (vertexCache (m_cache this)) = VertexCacheSize env →
  let '(t, w') := RenderTarget.draw env this (Some vertices) vertexCount type states w in
  if (vertexCount <=? VertexCacheSize env)%nat then
    useVertexCache (m_cache t) = true
    ∧ (∀ i, (i < vertexCount)%nat →
            vertexCache (m_cache t) !! i
            = Some (mkVertex
                      (Transform_mul env (transform states) (position (vertices i)))
                      (color (vertices i)) (texCoords (vertices i))))
    ∧ (∀ i, (vertexCount ≤ i)%nat →
            vertexCache (m_cache t) !! i = vertexCache (m_cache this) !! i)
  else
    useVertexCache (m_cache t) = false
    ∧ vertexCache (m_cache t) = vertexCache (m_cache this)
    ∧ (let '(usedShader, _, wa) := draw_entry env this states w in
       ∃ pre post rest,
         calls wa = calls w ++ pre
         ∧ calls w'
           = calls wa ++ transform_calls env usedShader (transform states) wa
             ++ post
             ++ GL.glDrawArrays (RenderTarget.modes type) (static_cast_GLint 0)
                  (static_cast_GLint vertexCount) :: rest
         ∧ quiet env post).
Proof.
  intros Hd Hlen.
  pose proof (draw_fst env this vertices vertexCount type states w Hd) as Hf.
  cbv zeta in Hf.
  pose proof (draw_drawn_after env this (Some vertices) vertexCount type states w Hd)
    as Ha.
  destruct (RenderTarget.draw env this (Some vertices) vertexCount type states w)
    as [t w'].
  cbn [fst snd] in Hf, Ha. destruct Hf as (_ & _ & _ & Hu & _ & Hc).
  destruct (vertexCount <=? VertexCacheSize env)%nat eqn:En.
  - apply Nat.leb_le in En. rewrite Hc. repeat split; [exact Hu| |].
    + intros i Hi. apply pretransform_lookup; lia.
    + intros i Hi. apply pretransform_beyond; lia.
  - split; [exact Hu|]. split; [exact Hc|]. specialize (Ha eq_refl).
    pose proof (draw_entry_grows env this states w) as (pre & Hpre).
    destruct (draw_entry env this states w) as [[usedShader t'] wa].
    destruct Ha as (post & rest & Hcalls & Hq). exists pre, post, rest.
    split; [exact Hpre|]. split; [|exact Hq].
    rewrite Hcalls, gpu_transform_calls, <- app_assoc. reflexivity.
Qed.

(** ** Worked examples *)

Lemma blend_mode_memoized_witness :
  let env := example_env false true 8 in
  let additive :=
    BlendMode.mk BlendMode.One BlendMode.One BlendMode.Add
                 BlendMode.One BlendMode.One BlendMode.Add in
  let first :=
    DrawVertices (Some example_vertices) 3 Triangles (example_states example_BlendAlpha) in
  let second :=
    DrawVertices (Some example_vertices) 5 TriangleStrip (example_states additive) in
  performed env first ∧ performed env second
  ∧ (let '(t1, w1) :=
       run_draw env (example_targets env).1.1 first (example_targets env).2 in
     let '(t2, w2) := run_draw env t1 second w1 in
     enable (m_cache t1) = true
     ∧ lastBlendMode (m_cache t1) = blendMode (draw_states first)
     ∧ (∃ issued,
          calls w2 = calls w1 ++ issued
          ∧ List.filter is_blend_call issued
            = if same_fields (blendMode (draw_states second))
                   (lastBlendMode (m_cache t1))
              then []
              else blend_calls env (blendMode (draw_states second)))
     ∧ blend_calls env (blendMode (draw_states second)) ≠ []
     ∧ lastBlendMode (m_cache t2) = blendMode (draw_states second)).
Proof.
  intros env additive first second.
  assert (performed env first) as H1
    by (split; [eexists; reflexivity|split; [discriminate|reflexivity]]).
  assert (performed env second) as H2
    by (split; [eexists; reflexivity|split; [discriminate|reflexivity]]).
  split; [exact H1|]. split; [exact H2|].
  exact (blend_mode_memoized env (example_targets env).1.1 first second
           (example_targets env).2 H1 H2).
Defined.

Lemma blend_equation_fallback_witness :
  let env := example_env false false 8 in
  let subtract :=
    BlendMode.mk BlendMode.One BlendMode.One BlendMode.Subtract
                 BlendMode.One BlendMode.One BlendMode.Subtract in
  let minimum :=
    BlendMode.mk BlendMode.One BlendMode.One BlendMode.Min
                 BlendMode.One BlendMode.One BlendMode.Min in
  let requests :=
    [ mkDrawRequest 0 5%N
        (DrawVertices (Some example_vertices) 3 Triangles (example_states subtract));
      mkDrawRequest 1 5%N
        (DrawVertices (Some example_vertices) 6 Triangles (example_states minimum));
      mkDrawRequest 0 7%N
        (DrawVertices (Some example_vertices) 3 Lines (example_states minimum)) ] in
  let targets := [(example_targets env).1.1; (example_targets env).1.2] in
  let w := (example_targets env).2 in
  GLEXT_blend_minmax env = false ∧ GLEXT_blend_subtract env = false
  ∧ (let w' := (run_draws env requests targets w).2 in
     (∃ issued,
        calls w' = calls w ++ issued
        ∧ List.filter is_equation_call issued = []
        ∧ List.filter is_draw_call issued = issued_draws env (length targets) requests)
     ∧ (blend_warnings w'
        ≤ blend_warnings w + if applyBlendMode_warned w then 0 else 1)%nat).
Proof.
  intros env subtract minimum requests targets w.
  assert (GLEXT_blend_minmax env = false) as H1 by reflexivity.
  assert (GLEXT_blend_subtract env = false) as H2 by reflexivity.
  split; [exact H1|]. split; [exact H2|].
  exact (blend_equation_fallback env requests targets w H1 H2).
Defined.

Lemma vertex_cache_threshold_witness :
  let env := example_env false true 8 in
  let this := (example_targets env).1.1 in
  let w := (example_targets env).2 in
  let states := example_states example_BlendAlpha in
  drawable env (Some example_vertices) 5 TriangleFan
  ∧ length (vertexCache (m_cache this)) = VertexCacheSize env
  ∧ (let '(t, w') :=
       RenderTarget.draw env this (Some example_vertices) 5 TriangleFan states w in
     if (5 <=? VertexCacheSize env)%nat then
       useVertexCache (m_cache t) = true
       ∧ (∀ i, (i < 5)%nat →
               vertexCache (m_cache t) !! i
               = Some (mkVertex
                         (Transform_mul env (transform states)
                            (position (example_vertices i)))
                         (color (example_vertices i)) (texCoords (example_vertices i))))
       ∧ (∀ i, (5 ≤ i)%nat →
               vertexCache (m_cache t) !! i = vertexCache (m_cache this) !! i)
     else
       useVertexCache (m_cache t) = false
       ∧ vertexCache (m_cache t) = vertexCache (m_cache this)
       ∧ (let '(usedShader, _, wa) := draw_entry env this states w in
          ∃ pre post rest,
            calls wa = calls w ++ pre
            ∧ calls w'
              = calls wa ++ transform_calls env usedShader (transform states) wa
                ++ post
                ++ GL.glDrawArrays (RenderTarget.modes TriangleFan) (static_cast_GLint 0)
                     (static_cast_GLint 5) :: rest
            ∧ quiet env post)).
Proof.
  intros env this w states.
  assert (drawable env (Some example_vertices) 5 TriangleFan) as H1
    by (split; [eexists; reflexivity|split; [discriminate|reflexivity]]).
  assert (length (vertexCache (m_cache this)) = VertexCacheSize env) as H2
    by (vm_compute; reflexivity).
  split; [exact H1|]. split; [exact H2|].
  exact (vertex_cache_threshold env this example_vertices 5 TriangleFan states w H1 H2).
Defined.

(** * Further properties of the shader and the render target *)

(** ** The program in use while a uniform is set *)

Ltac to_withBinder :=
  unfold Shader.setParameter_float, Shader.setParameter_float2, Shader.setParameter_float3,
    Shader.setParameter_float4, Shader.setParameter_Texture,
    Shader.setParameter_CurrentTexture,
    Shader.setUniform_bool, Shader.setUniform_Bvec2, Shader.setUniform_Bvec3,
    Shader.setUniform_Bvec4;
  unfold Shader.setUniform_float, Shader.setUniform_Vec2, Shader.setUniform_Vec3,
    Shader.setUniform_Vec4, Shader.setUniform_int, Shader.setUniform_Ivec2,
    Shader.setUniform_Ivec3, Shader.setUniform_Ivec4, Shader.setUniform_Mat3,
    Shader.setUniform_Mat4, Shader.setUniformArray_float, Shader.setUniformArray_Vec2,
    Shader.setUniformArray_Vec3, Shader.setUniformArray_Vec4, Shader.setUniformArray_Mat3,
    Shader.setUniformArray_Mat4;
  cbv zeta.

Lemma getUniformLocation_current_program env (this : Shader) name w :
  current_program (Shader.getUniformLocation env this name w).2 = current_program w
  ∧ m_shaderProgram (Shader.getUniformLocation env this name w).1.2 = m_shaderProgram this.
Proof.
  unfold Shader.getUniformLocation.
  destruct (m_uniforms this !! name); [split; reflexivity|].
  cbv zeta. destruct (_ =? -1); split; reflexivity.
Qed.

Lemma withBinder_current_program env upload (this : Shader) name w :
  current_program (Shader.withBinder env upload this name w).2 = current_program w
  ∧ m_shaderProgram (Shader.withBinder env upload this name w).1 = m_shaderProgram this.
Proof.
  unfold Shader.withBinder, Shader.UniformBinder_new, castToGlHandle. cbv zeta.
  destruct (m_shaderProgram this =? 0)%N eqn:E0.
  { cbn. unfold Shader.UniformBinder_delete. cbn. rewrite E0. cbn. auto. }
  match goal with
  | |- context [Shader.getUniformLocation env this name ?x] =>
      pose proof (getUniformLocation_current_program env this name x) as [Hc Hp];
      destruct (Shader.getUniformLocation env this name x) as [[loc this1] w1]
  end.
  cbn [fst snd] in *. unfold Shader.UniformBinder_delete.
  cbn [Shader.currentProgram Shader.savedProgram Shader.location].
  rewrite E0. cbn [negb andb].
  change (current_program (glCheck ?c w)) with (current_program w) in *.
  destruct (m_shaderProgram this =? current_program w)%N eqn:E1.
  - apply N.eqb_eq in E1. cbn [negb]. destruct (loc =? -1); cbn; rewrite Hc; auto.
  - cbn [negb]. destruct (loc =? -1); cbn; auto.
Qed.

Lemma set_uniform_handle env (this : Shader) (name : string) (op : UniformOp)
    (w : World) :
  Shader.getNativeHandle (set_uniform env this name op w).1 = Shader.getNativeHandle this.
Proof.
  unfold Shader.getNativeHandle.
  destruct op; cbn [set_uniform]; to_withBinder;
    try (eapply proj2, withBinder_current_program).
  all: unfold Shader.setUniform_Texture, Shader.setUniform_CurrentTexture.
  all: destruct (m_shaderProgram this =? 0)%N; [reflexivity|].
  all: pose proof (getUniformLocation_current_program env this name w) as [_ Hp].
  all: destruct (Shader.getUniformLocation env this name w) as [[loc this1] w1].
  all: cbn [fst snd] in *.
  all: try (destruct (loc =? -1); [auto|];
            destruct (m_textures this1 !! loc); [auto|];
            enter_capacity_check;
            destruct (_ >=? _); cbn [fst snd err_endl set_err current_program];
            rewrite ?getMaxTextureUnits_current_program; auto).
  all: auto.
Qed.

(** X1: setting a uniform, by any overload of [setUniform] and
    [setUniformArray] and by the overloads of [setParameter] that take
    floats, a texture or the current texture, leaves the program in use in
    the current context as it found it, and leaves the shader its program. *)
Theorem set_uniform_keeps_program_in_use env (this : Shader) (name : string)
    (op : UniformOp) (w : World) :
  current_program (set_uniform env this name op w).2 = current_program w
  ∧ Shader.getNativeHandle (set_uniform env this name op w).1 = Shader.getNativeHandle this.
Proof.
  unfold Shader.getNativeHandle.
  destruct op; cbn [set_uniform]; to_withBinder;
    try apply withBinder_current_program.
  all: unfold Shader.setUniform_Texture, Shader.setUniform_CurrentTexture.
  all: destruct (m_shaderProgram this =? 0)%N; [split; reflexivity|].
  all: pose proof (getUniformLocation_current_program env this name w) as [Hc Hp].
  all: destruct (Shader.getUniformLocation env this name w) as [[loc this1] w1].
  all: cbn [fst snd] in *.
  all: try (destruct (loc =? -1); [auto|];
            destruct (m_textures this1 !! loc); [auto|];
            enter_capacity_check;
            destruct (_ >=? _); cbn [fst snd err_endl set_err current_program];
            rewrite ?getMaxTextureUnits_current_program; auto).
  all: auto.
Qed.

(** ** Texture units *)

Lemma maxUnits_range env :
  0 ≤ Shader.maxUnits env < size_t_modulus.
Proof.
  unfold Shader.maxUnits, static_cast_size_t.
  apply Z.mod_pos_bound. reflexivity.
Qed.

Lemma withBinder_textures env upload (this : Shader) name w :
  m_textures (Shader.withBinder env upload this name w).1 = m_textures this.
Proof.
  unfold Shader.withBinder, Shader.UniformBinder_new. cbv zeta.
  destruct (_ =? 0)%N; [reflexivity|].
  match goal with
  | |- context [Shader.getUniformLocation env this name ?x] =>
      pose proof (getUniformLocation_resolve env this name x) as H;
      destruct (Shader.getUniformLocation env this name x) as [[loc this1] w1]
  end.
  cbn. tauto.
Qed.

Lemma setUniform_Texture_spared env (this : Shader) name texture w :
  units_spared env this →
  units_spared env (Shader.setUniform_Texture env this name texture w).1.
Proof.
  intros Hs. unfold Shader.setUniform_Texture.
  destruct (_ =? 0)%N; [exact Hs|].
  pose proof (getUniformLocation_resolve env this name w) as H.
  destruct (Shader.getUniformLocation env this name w) as [[loc this1] w1].
  destruct H as (_ & _ & _ & Ht & _).
  unfold units_spared in *. cbn [fst snd].
  destruct (loc =? -1); [cbn; rewrite Ht; exact Hs|].
  destruct (m_textures this1 !! loc) eqn:El.
  - cbn. rewrite map_size_insert_Some by eauto. rewrite Ht. exact Hs.
  - enter_capacity_check.
    destruct (_ >=? _) eqn:Efull; [cbn; rewrite Ht; exact Hs|].
    cbn. rewrite map_size_insert_None by exact El. right.
    rewrite Ht in *. pose proof (maxUnits_range env) as Hr.
    unfold static_cast_size_t in Efull.
    assert (Z.of_nat (size (m_textures this)) + 1 < size_t_modulus) as Hlt.
    { destruct Hs as [->|Hs]; [reflexivity|lia]. }
    rewrite Z.mod_small in Efull by lia. lia.
Qed.

Lemma compile_textures env (this : Shader) v g f w :
  let r := Shader.compile env this v g f w in
  m_textures r.1.2 = m_textures this ∨ m_textures r.1.2 = ∅.
Proof.
  enter_compile. cbv zeta.
  destruct (negb (Shader.available env)); [left; reflexivity|].
  destruct (_ && _); [left; reflexivity|].
  right.
  repeat match goal with
         | |- context [match ?X with (_, _) => _ end] =>
             lazymatch X with
             | if ?c then _ else _ => destruct c
             | _ => destruct X as [[] ?]
             end
         | |- context [if ?c then _ else _] => destruct c
         end; reflexivity.
Qed.

Lemma run_shader_op_spared env o (this : Shader) w :
  units_spared env this → units_spared env (run_shader_op env o this w).1.
Proof.
  intros Hs. destruct o as [name op|v g f]; cbn [run_shader_op].
  - destruct op; cbn [set_uniform]; to_withBinder;
      try (unfold units_spared; rewrite withBinder_textures; exact Hs);
      try (apply setUniform_Texture_spared; exact Hs).
    all: unfold Shader.setUniform_CurrentTexture.
    all: destruct (_ =? 0)%N; [exact Hs|].
    all: pose proof (getUniformLocation_resolve env this name w) as H.
    all: destruct (Shader.getUniformLocation env this name w) as [[loc this1] w1].
    all: destruct H as (_ & _ & _ & Ht & _).
    all: unfold units_spared; cbn; rewrite Ht; exact Hs.
  - pose proof (compile_textures env this v g f w) as H. cbv zeta in H.
    destruct (Shader.compile env this v g f w) as [[ok this1] w1]. cbn [fst snd] in *.
    unfold units_spared. destruct H as [->| ->]; [exact Hs|]. left. apply map_size_empty.
Qed.

Lemma bindTextures_loop_calls it : ∀ i w,
  Z.of_nat (i + length it) < 2 ^ 31 →
  ∃ l, calls (Shader.bindTextures_loop i it w) = calls w ++ l
       ∧ active_texture_units l = Z.of_nat <$> seq (S i) (length it)
       ∧ sampler_units l = zip (it.*1) (Z.of_nat <$> seq (S i) (length it)).
Proof.
  induction it as [|[first second] it IH]; intros i w Hi.
  - exists []. cbn. rewrite app_nil_r. auto.
  - cbn [Shader.bindTextures_loop]. cbv zeta.
    cbn [length] in Hi.
    destruct (IH (S i)
                (glCheck (GL.Texture_bind (Some second) Normalized)
                   (glCheck (GL.GLEXT_glActiveTexture (static_cast_GLint (i + 1)))
                      (glCheck (GL.GLEXT_glUniform1i first (static_cast_GLint (i + 1))) w))))
      as (l & Hl & Hu & Hs); [lia|].
    eexists (_ :: _ :: _ :: l). split; [|split].
    + rewrite Hl. cbn. rewrite <- !app_assoc. reflexivity.
    + cbn [active_texture_units omap list_omap]. cbn [length seq fmap list_fmap].
      fold (active_texture_units l). rewrite Hu. f_equal.
      unfold static_cast_GLint. replace (Z.of_nat (i + 1)) with (Z.of_nat (S i)) by lia.
      rewrite Z.mod_small by lia. lia.
    + cbn [sampler_units omap list_omap]. cbn [length seq fmap list_fmap zip zip_with fst].
      fold (sampler_units l). rewrite Hs. f_equal. f_equal.
      unfold static_cast_GLint. replace (Z.of_nat (i + 1)) with (Z.of_nat (S i)) by lia.
      rewrite Z.mod_small by lia. lia.
Qed.

Lemma in_key_order_length (m : gmap Z Texture) :
  length (Shader.in_key_order m) = size m.
Proof.
  unfold Shader.in_key_order.
  rewrite (Permutation_length (merge_sort_Permutation _ _)).
  apply length_map_to_list.
Qed.

(** X2: whatever uniforms are set and whatever sources are compiled on a
    shader object, its texture table stays empty or smaller than the number
    of texture units: unit 0 is never taken by the table. *)
Theorem texture_table_spares_a_unit env (ops : list ShaderOp) (w : World) :
  units_spared env (run_shader_ops env ops Shader.new w).1.
Proof.
  assert (∀ ops (this : Shader) w,
            units_spared env this → units_spared env (run_shader_ops env ops this w).1)
    as H.
  { clear. induction ops as [|o ops IH]; intros this w Hs; [exact Hs|].
    cbn [run_shader_ops].
    pose proof (run_shader_op_spared env o this w Hs) as H1.
    destruct (run_shader_op env o this w) as [this1 w1]. apply IH, H1. }
  apply H. left. reflexivity.
Qed.

(** X3: binding a shader that holds a program selects the units 1, 2, ...,
    one for each texture of its table in the order of the locations, sets
    each sampler to its unit, and goes back to unit 0, to which the sampler
    of the current texture is set when there is one.  Every unit selected is
    below the number of units of the driver. *)
Theorem bind_assigns_texture_units env (this : Shader) (w : World) :
  Shader.available env = true →
  Shader.getNativeHandle this ≠ 0%N →
  units_spared env this →
  0 ≤ GL_MAX_COMBINED_TEXTURE_IMAGE_UNITS env < 2 ^ 31 →
  let n := size (m_textures this) in
  ∃ issued,
    calls (Shader.bind env (Some this) w) = calls w ++ issued
    ∧ active_texture_units issued = (Z.of_nat <$> seq 1 n) ++ [0]
    ∧ sampler_units issued
      = zip (Shader.in_key_order (m_textures this)).*1 (Z.of_nat <$> seq 1 n)
        ++ (if m_currentTexture this =? -1 then [] else [(m_currentTexture this, 0)])
    ∧ Forall (λ unit, unit = 0 ∨ 0 < unit < GL_MAX_COMBINED_TEXTURE_IMAGE_UNITS env)
        (active_texture_units issued).
Proof.
  intros Hav Hp Hs Hmax n.
  assert (Shader.maxUnits env = GL_MAX_COMBINED_TEXTURE_IMAGE_UNITS env) as Hm.
  { unfold Shader.maxUnits, static_cast_size_t.
    apply Z.mod_small. unfold size_t_modulus. lia. }
  assert (n = 0%nat ∨ Z.of_nat n < GL_MAX_COMBINED_TEXTURE_IMAGE_UNITS env) as Hn.
  { destruct Hs as [Hs|Hs]; [left; exact Hs|right; rewrite <- Hm; exact Hs]. }
  unfold Shader.bind, Shader.getNativeHandle in *.
  rewrite isAvailable_eta. cbv beta iota. rewrite Hav. cbn [negb].
  destruct (isAvailable_frame env w) as (_ & _ & _ & checks & Hchecks & Hinit & _).
  cbv zeta in Hchecks. revert Hchecks. generalize (Shader.isAvailable env w).2.
  intros W Hchecks.
  assert (active_texture_units checks = [] ∧ sampler_units checks = []) as [Hcu Hcs].
  { clear Hchecks. induction Hinit as [|c checks -> _ [IH1 IH2]]; [split; reflexivity|].
    split; [exact IH1|exact IH2]. }
  apply N.eqb_neq in Hp. rewrite Hp. cbv zeta. unfold Shader.bindTextures. cbv zeta.
  destruct (bindTextures_loop_calls (Shader.in_key_order (m_textures this)) 0
              (glUseProgramObject (castToGlHandle (m_shaderProgram this)) W))
    as (l & Hl & Hu & Hsm).
  { rewrite in_key_order_length. fold n. destruct Hn as [->|Hn]; [reflexivity|lia]. }
  rewrite in_key_order_length in Hu, Hsm. fold n in Hu, Hsm.
  assert (Forall (λ unit, unit = 0 ∨ 0 < unit < GL_MAX_COMBINED_TEXTURE_IMAGE_UNITS env)
            ((Z.of_nat <$> seq 1 n) ++ [0])) as Hall.
  { apply Forall_app. split; [|repeat constructor].
    apply Forall_fmap, Forall_forall. intros k Hk. apply elem_of_seq in Hk. cbn.
    right. destruct Hn as [->|Hn]; lia. }
  assert (∀ a b, active_texture_units (a ++ b)
                 = active_texture_units a ++ active_texture_units b) as Happ
    by (intros; apply omap_app).
  assert (∀ a b, sampler_units (a ++ b) = sampler_units a ++ sampler_units b) as Happ'
    by (intros; apply omap_app).
  destruct (m_currentTexture this =? -1).
  - exists (checks
            ++ [GL.GLEXT_glUseProgramObject (castToGlHandle (m_shaderProgram this))] ++ l
            ++ [GL.GLEXT_glActiveTexture 0]).
    split; [|split; [|split]].
    + rewrite calls_glCheck, Hl. cbn. rewrite Hchecks, <- !app_assoc. reflexivity.
    + rewrite !Happ, Hcu, Hu. reflexivity.
    + rewrite !Happ', Hcs, Hsm. reflexivity.
    + rewrite !Happ, Hcu, Hu. exact Hall.
  - exists (checks
            ++ [GL.GLEXT_glUseProgramObject (castToGlHandle (m_shaderProgram this))] ++ l
            ++ [GL.GLEXT_glActiveTexture 0;
                GL.GLEXT_glUniform1i (m_currentTexture this) 0]).
    split; [|split; [|split]].
    + rewrite !calls_glCheck, Hl. cbn. rewrite Hchecks, <- !app_assoc. reflexivity.
    + rewrite !Happ, Hcu, Hu. reflexivity.
    + rewrite !Happ', Hcs, Hsm. reflexivity.
    + rewrite !Happ, Hcu, Hu. exact Hall.
Qed.

Lemma bind_assigns_texture_units_witness :
  let env := example_env false true 8 in
  let this := example_sampler_shader in
  Shader.available env = true
  ∧ Shader.getNativeHandle this ≠ 0%N
  ∧ units_spared env this
  ∧ 0 ≤ GL_MAX_COMBINED_TEXTURE_IMAGE_UNITS env < 2 ^ 31
  ∧ ∃ issued,
      calls (Shader.bind env (Some this) example_world) = calls example_world ++ issued
      ∧ active_texture_units issued = (Z.of_nat <$> seq 1 (size (m_textures this))) ++ [0]
      ∧ sampler_units issued
        = zip (Shader.in_key_order (m_textures this)).*1
            (Z.of_nat <$> seq 1 (size (m_textures this)))
          ++ (if m_currentTexture this =? -1 then [] else [(m_currentTexture this, 0)])
      ∧ Forall (λ unit, unit = 0 ∨ 0 < unit < GL_MAX_COMBINED_TEXTURE_IMAGE_UNITS env)
          (active_texture_units issued).
Proof.
  intros env this.
  assert (Shader.available env = true) as H1 by reflexivity.
  assert (Shader.getNativeHandle this ≠ 0%N) as H2 by (vm_compute; discriminate).
  assert (units_spared env this) as H3 by (right; vm_compute; reflexivity).
  assert (0 ≤ GL_MAX_COMBINED_TEXTURE_IMAGE_UNITS env < 2 ^ 31) as H4
    by (vm_compute; split; [discriminate|reflexivity]).
  repeat (split; [assumption|]).
  exact (bind_assigns_texture_units env this example_world H1 H2 H3 H4).
Defined.

(** ** Compilation and the life of a shader object *)

Lemma count_app p l1 l2 : count p (l1 ++ l2) = (count p l1 + count p l2)%nat.
Proof. unfold count. rewrite List.filter_app, length_app. reflexivity. Qed.

Lemma compile_stage_balance env ty code shaderProgram w :
  let r := Shader.compile_stage env ty code shaderProgram w in
  ∃ l, calls r.2 = calls w ++ l
       ∧ count is_create_shader l = count is_delete_shader l
       ∧ count is_create_program l = 0%nat
       ∧ count is_delete_program l = (if r.1 then 0 else 1)%nat.
Proof.
  unfold Shader.compile_stage. destruct code as [code|]; cbv zeta.
  - destruct (compile_status env ty code); cbn [fst snd].
    + eexists [_; _; _; _; _; _]. split.
      { rewrite !calls_glCheck, <- !app_assoc. reflexivity. }
      repeat split.
    + eexists [_; _; _; _; _; _; _]. split.
      { rewrite !calls_glCheck.
        change (calls (err_endl ?l ?x)) with (calls x).
        change (calls (err_endl ?l ?x)) with (calls x).
        rewrite !calls_glCheck, <- !app_assoc. reflexivity. }
      repeat split.
  - exists []. cbn. rewrite app_nil_r. auto.
Qed.

Lemma compile_balance env (this : Shader) v g f w :
  let r := Shader.compile env this v g f w in
  let checked := compile_checks env g w in
  let new := glCreateProgramObject_result env
               (calls checked ++ if (m_shaderProgram this =? 0)%N then []
                                 else [GL.GLEXT_glDeleteProgram (m_shaderProgram this)]) in
  ∃ l, calls r.2 = calls checked ++ l
       ∧ count is_create_shader l = count is_delete_shader l
       ∧ if refused env g
         then l = [] ∧ r.1.1 = false ∧ r.1.2 = this
         else count is_create_program l = 1%nat
              ∧ count is_delete_program l
                = ((if (m_shaderProgram this =? 0)%N then 0 else 1)
                   + (if r.1.1 then 0 else 1))%nat
              ∧ m_shaderProgram r.1.2 = (if r.1.1 then new else 0%N)
              ∧ m_textures r.1.2 = ∅ ∧ m_uniforms r.1.2 = ∅
              ∧ m_currentTexture r.1.2 = -1
              ∧ r.1.1 = compiles_and_links env v g f.
Proof.
  enter_compile. unfold refused, compiles_and_links, compile_checks. cbv zeta.
  destruct (Shader.available env); cbn [negb orb].
  2: { exists []. cbn. rewrite app_nil_r. auto. }
  generalize (geometry_check env g (Shader.isAvailable env w).2). clear w. intros w.
  destruct (bool_decide (is_Some g) && negb (Shader.geometry_available env)).
  { exists []. cbn. rewrite app_nil_r. auto. }
  set (w1 := if (m_shaderProgram this =? 0)%N then _ else _).
  assert (∃ this1 l1, w1 = (this1, set_calls (calls w ++ l1) w)
                      ∧ l1 = (if (m_shaderProgram this =? 0)%N then []
                              else [GL.GLEXT_glDeleteProgram (m_shaderProgram this)])
                      ∧ m_shaderProgram this1 = 0%N)
    as (this1 & l1 & -> & Hl1 & Hzero).
  { subst w1. destruct (m_shaderProgram this =? 0)%N eqn:E0.
    - exists this, []. rewrite app_nil_r. apply N.eqb_eq in E0. destruct w; auto.
    - eexists _, _. repeat split; reflexivity. }
  cbv beta iota.
  change (calls (set_calls ?l ?x)) with l. rewrite <- Hl1.
  set (new := glCreateProgramObject_result env (calls w ++ l1)).
  set (w2 := glCheck GL.GLEXT_glCreateProgramObject _).
  assert (calls w2 = calls w ++ l1 ++ [GL.GLEXT_glCreateProgramObject]) as Hw2
    by (subst w2; cbn; rewrite <- app_assoc; reflexivity).
  clearbody w2.
  set (g' := if SFML_OPENGL_ES env then None else g).
  pose proof (compile_stage_balance env GL.GLEXT_GL_VERTEX_SHADER v new w2) as Hv.
  pose proof (compile_stage_spec env GL.GLEXT_GL_VERTEX_SHADER v new w2) as [Hv1 _].
  cbv zeta in Hv.
  destruct (Shader.compile_stage env GL.GLEXT_GL_VERTEX_SHADER v new w2) as [okv w3].
  cbn [fst snd] in Hv, Hv1. destruct Hv as (lv & Hcv & Hbv & Hpv & Hdv). subst okv.
  assert (count is_delete_program l1 = (if (m_shaderProgram this =? 0)%N then 0 else 1)%nat
          ∧ count is_create_program l1 = 0%nat ∧ count is_create_shader l1 = 0%nat
          ∧ count is_delete_shader l1 = 0%nat) as (Hd1 & Hc1 & Hcs1 & Hds1)
    by (rewrite Hl1; destruct (m_shaderProgram this =? 0)%N; repeat split).
  destruct (stage_ok env GL.GLEXT_GL_VERTEX_SHADER v); cbn [negb andb fst snd].
  2: { exists (l1 ++ [GL.GLEXT_glCreateProgramObject] ++ lv). split; [|split].
       - rewrite Hcv, Hw2, <- !app_assoc. reflexivity.
       - rewrite !count_app, Hcs1, Hds1. cbn. lia.
       - rewrite !count_app, Hc1, Hd1, Hpv, Hdv. cbn.
         repeat split; try reflexivity; try lia; exact Hzero. }
  pose proof (compile_stage_balance env GL.GLEXT_GL_GEOMETRY_SHADER g' new w3) as Hg.
  pose proof (compile_stage_spec env GL.GLEXT_GL_GEOMETRY_SHADER g' new w3) as [Hg1 _].
  cbv zeta in Hg.
  destruct (Shader.compile_stage env GL.GLEXT_GL_GEOMETRY_SHADER g' new w3) as [okg w4].
  cbn [fst snd] in Hg, Hg1. destruct Hg as (lg & Hcg & Hbg & Hpg & Hdg). subst okg.
  destruct (stage_ok env GL.GLEXT_GL_GEOMETRY_SHADER g'); cbn [negb andb fst snd].
  2: { exists (l1 ++ [GL.GLEXT_glCreateProgramObject] ++ lv ++ lg). split; [|split].
       - rewrite Hcg, Hcv, Hw2, <- !app_assoc. reflexivity.
       - rewrite !count_app, Hcs1, Hds1. cbn. lia.
       - rewrite !count_app, Hc1, Hd1, Hpv, Hdv, Hpg, Hdg. cbn.
         repeat split; try reflexivity; try lia; exact Hzero. }
  pose proof (compile_stage_balance env GL.GLEXT_GL_FRAGMENT_SHADER f new w4) as Hf.
  pose proof (compile_stage_spec env GL.GLEXT_GL_FRAGMENT_SHADER f new w4) as [Hf1 _].
  cbv zeta in Hf.
  destruct (Shader.compile_stage env GL.GLEXT_GL_FRAGMENT_SHADER f new w4) as [okf w5].
  cbn [fst snd] in Hf, Hf1. destruct Hf as (lf & Hcf & Hbf & Hpf & Hdf). subst okf.
  destruct (stage_ok env GL.GLEXT_GL_FRAGMENT_SHADER f); cbn [negb andb fst snd].
  2: { exists (l1 ++ [GL.GLEXT_glCreateProgramObject] ++ lv ++ lg ++ lf). split; [|split].
       - rewrite Hcf, Hcg, Hcv, Hw2, <- !app_assoc. reflexivity.
       - rewrite !count_app, Hcs1, Hds1. cbn. lia.
       - rewrite !count_app, Hc1, Hd1, Hpv, Hdv, Hpg, Hdg, Hpf, Hdf. cbn.
         repeat split; try reflexivity; try lia; exact Hzero. }
  destruct (link_status env v g' f); cbn [negb fst snd].
  - exists (l1 ++ [GL.GLEXT_glCreateProgramObject] ++ lv ++ lg ++ lf
            ++ [GL.GLEXT_glLinkProgram new;
                GL.GLEXT_glGetProgramParameteriv_LINK_STATUS new; GL.glFlush]).
    split; [|split].
    + rewrite !calls_glCheck, Hcf, Hcg, Hcv, Hw2, <- !app_assoc. reflexivity.
    + rewrite !count_app, Hcs1, Hds1. cbn. lia.
    + rewrite !count_app, Hc1, Hd1, Hpv, Hdv, Hpg, Hdg, Hpf, Hdf. cbn.
      repeat split; lia.
  - exists (l1 ++ [GL.GLEXT_glCreateProgramObject] ++ lv ++ lg ++ lf
            ++ [GL.GLEXT_glLinkProgram new;
                GL.GLEXT_glGetProgramParameteriv_LINK_STATUS new;
                GL.GLEXT_glGetProgramInfoLog new; GL.GLEXT_glDeleteProgram new]).
    split; [|split].
    + rewrite !calls_glCheck.
      change (calls (err_endl ?l ?x)) with (calls x).
      change (calls (err_endl ?l ?x)) with (calls x).
      rewrite !calls_glCheck, Hcf, Hcg, Hcv, Hw2, <- !app_assoc. reflexivity.
    + rewrite !count_app, Hcs1, Hds1. cbn. lia.
    + rewrite !count_app, Hc1, Hd1, Hpv, Hdv, Hpg, Hdg, Hpf, Hdf. cbn.
      repeat split; lia.
Qed.

Lemma none_since_refl p w : none_since p w w.
Proof. exists []. rewrite app_nil_r. auto. Qed.

Lemma none_since_call p w0 w c :
  p c = false → none_since p w0 w → none_since p w0 (glCheck c w).
Proof.
  intros Hc (l & Hl & Hp). exists (l ++ [c]). split.
  - rewrite calls_glCheck, Hl, app_assoc. reflexivity.
  - rewrite List.filter_app, Hp. cbn. rewrite Hc. reflexivity.
Qed.

Lemma none_since_same p w0 w w' :
  calls w' = calls w → none_since p w0 w → none_since p w0 w'.
Proof. intros Hc (l & Hl & Hp). exists l. rewrite Hc. auto. Qed.

Section Quiet.
Context (p : GL.Call → bool).
Hypothesis p_current : p GL.glGetIntegerv_GL_CURRENT_PROGRAM = false.
Hypothesis p_handle : p GL.GLEXT_glGetHandle_GL_PROGRAM_OBJECT = false.
Hypothesis p_use : ∀ h, p (GL.GLEXT_glUseProgramObject h) = false.
Hypothesis p_location : ∀ h n, p (GL.GLEXT_glGetUniformLocation h n) = false.

Lemma getUniformLocation_quiet env (this : Shader) name w0 w :
  none_since p w0 w → none_since p w0 (Shader.getUniformLocation env this name w).2.
Proof using p_location.
  intros Hw. unfold Shader.getUniformLocation.
  destruct (m_uniforms this !! name); [exact Hw|]. cbv zeta. cbn [snd].
  destruct (_ =? -1).
  - eapply none_since_same; [|apply none_since_call; [apply p_location|exact Hw]].
    reflexivity.
  - apply none_since_call; [apply p_location|exact Hw].
Qed.

Lemma glUseProgramObject_quiet h w0 w :
  none_since p w0 w → none_since p w0 (glUseProgramObject h w).
Proof using p_use.
  intros Hw. eapply none_since_same; [|apply none_since_call; [apply (p_use h)|exact Hw]].
  reflexivity.
Qed.

Lemma withBinder_quiet env upload (this : Shader) name w0 w :
  (∀ l, p (upload l) = false) →
  none_since p w0 w → none_since p w0 (Shader.withBinder env upload this name w).2.
Proof using p_current p_handle p_use p_location.
  intros Hup Hw. unfold Shader.withBinder, Shader.UniformBinder_new. cbv zeta.
  destruct (_ =? 0)%N eqn:E0.
  { cbn. unfold Shader.UniformBinder_delete. cbn. rewrite E0. exact Hw. }
  match goal with
  | |- context [Shader.getUniformLocation env this name ?x] =>
      assert (none_since p w0 x) as Hx;
      [|pose proof (getUniformLocation_quiet env this name w0 x Hx) as H1;
        destruct (Shader.getUniformLocation env this name x) as [[loc this1] w1]]
  end.
  { match goal with |- context [if ?c then _ else _] => destruct c end;
      [|apply glUseProgramObject_quiet];
      (apply none_since_call; [destruct (SFML_OPENGL_ES env); assumption|exact Hw]). }
  cbn [fst snd] in *. unfold Shader.UniformBinder_delete.
  cbn [Shader.currentProgram Shader.savedProgram Shader.location].
  destruct (_ && _); [apply glUseProgramObject_quiet|];
    (destruct (loc =? -1); [exact H1|apply none_since_call; [apply Hup|exact H1]]).
Qed.

Lemma set_uniform_quiet env (this : Shader) name op w0 w :
  (∀ c, call_kind c = KOther → (∀ h, c ≠ GL.GLEXT_glDeleteProgram h) →
        c ≠ GL.GLEXT_glCreateProgramObject →
        (∀ t, c ≠ GL.GLEXT_glCreateShaderObject t) →
        (∀ h, c ≠ GL.GLEXT_glDeleteShader h) → p c = false) →
  none_since p w0 w → none_since p w0 (set_uniform env this name op w).2.
Proof using p_current p_handle p_use p_location.
  intros Hp Hw.
  destruct op; cbn [set_uniform]; to_withBinder;
    try (apply withBinder_quiet;
         [intros ?; apply Hp; [reflexivity|intros; discriminate..]|exact Hw]).
  all: unfold Shader.setUniform_Texture, Shader.setUniform_CurrentTexture.
  all: destruct (_ =? 0)%N; [exact Hw|].
  all: pose proof (getUniformLocation_quiet env this name w0 w Hw) as H1.
  all: destruct (Shader.getUniformLocation env this name w) as [[loc this1] w1].
  all: cbn [fst snd] in *.
  all: try (destruct (loc =? -1); [exact H1|];
            destruct (m_textures this1 !! loc); [exact H1|];
            enter_capacity_check;
            assert (none_since p w0 (Shader.getMaxTextureUnits env w1).2) as H2
              by (rewrite getMaxTextureUnits_snd;
                  destruct (getMaxTextureUnits_initialized w1); [exact H1|];
                  apply none_since_call;
                  [apply Hp; [reflexivity|intros; discriminate..]
                  |eapply none_since_same; [|exact H1]; reflexivity]);
            destruct (_ >=? _); exact H2).
  all: exact H1.
Qed.

End Quiet.

Lemma count_none p l : List.filter p l = [] → count p l = 0%nat.
Proof. unfold count. intros ->. reflexivity. Qed.

Lemma set_uniform_lifecycle env (this : Shader) name op w p :
  p = is_create_program ∨ p = is_delete_program
  ∨ p = is_create_shader ∨ p = is_delete_shader →
  none_since p w (set_uniform env this name op w).2.
Proof.
  intros Hp.
  apply set_uniform_quiet; try apply none_since_refl;
    try (destruct Hp as [->|[->|[->| ->]]]; reflexivity);
    try (intros; destruct Hp as [->|[->|[->| ->]]]; reflexivity).
  intros c Hk H1 H2 H3 H4.
  destruct Hp as [->|[->|[->| ->]]]; destruct c; try reflexivity.
  - contradiction.
  - exfalso. eapply H1. reflexivity.
  - exfalso. eapply H3. reflexivity.
  - exfalso. eapply H4. reflexivity.
Qed.

Lemma none_since_unique p w0 w l :
  none_since p w0 w → calls w = calls w0 ++ l → count p l = 0%nat.
Proof.
  intros (l' & Hl' & Hp) Hl. rewrite Hl in Hl'. apply app_inv_head in Hl'. subst l'.
  apply count_none, Hp.
Qed.

Lemma count_initialization_only p l :
  p GL.ensureExtensionsInit = false → initialization_only l → count p l = 0%nat.
Proof.
  intros Hp Hl. apply count_none. induction Hl as [|c l -> _ IH]; [reflexivity|].
  cbn. rewrite Hp. exact IH.
Qed.

Lemma run_shader_op_lifecycle env o (this : Shader) w :
  (∀ issued, glCreateProgramObject_result env issued ≠ 0%N) →
  let r := run_shader_op env o this w in
  ∃ l, calls r.2 = calls w ++ l
       ∧ count is_create_shader l = count is_delete_shader l
       ∧ (count is_create_program l + (if (m_shaderProgram this =? 0)%N then 0 else 1)
          = count is_delete_program l + (if (m_shaderProgram r.1 =? 0)%N then 0 else 1))%nat.
Proof.
  intros Hdriver. destruct o as [name op|v g f]; cbn [run_shader_op]; cbv zeta.
  - pose proof (set_uniform_lifecycle env this name op w is_create_program) as H1.
    pose proof (set_uniform_lifecycle env this name op w is_delete_program) as H2.
    pose proof (set_uniform_lifecycle env this name op w is_create_shader) as H3.
    pose proof (set_uniform_lifecycle env this name op w is_delete_shader) as H4.
    pose proof (set_uniform_handle env this name op w) as Hprog.
    unfold Shader.getNativeHandle in Hprog.
    destruct H1 as (l & Hl & Hc); [tauto|]. exists l. split; [exact Hl|].
    rewrite (none_since_unique _ _ _ l (H2 ltac:(tauto)) Hl),
      (none_since_unique _ _ _ l (H3 ltac:(tauto)) Hl),
      (none_since_unique _ _ _ l (H4 ltac:(tauto)) Hl), (count_none _ _ Hc), Hprog.
    split; reflexivity.
  - pose proof (compile_balance env this v g f w) as H. cbv zeta in H.
    destruct (Shader.compile env this v g f w) as [[ok this1] w1]. cbn [fst snd] in *.
    destruct H as (l & Hl & Hs & H).
    destruct (compile_checks_frame env g w) as (_ & checks & Hchecks & Hinit & _).
    cbv zeta in Hchecks. exists (checks ++ l).
    split; [rewrite Hl, Hchecks, app_assoc; reflexivity|].
    rewrite !count_app, !(count_initialization_only _ checks) by (reflexivity || exact Hinit).
    split; [exact Hs|]. cbn [Nat.add].
    destruct (refused env g).
    + destruct H as (-> & _ & ->). reflexivity.
    + destruct H as (Hc & Hd & Hp & _). rewrite Hc, Hd, Hp.
      destruct ok.
      * specialize (Hdriver (calls (compile_checks env g w)
                             ++ if (m_shaderProgram this =? 0)%N then []
                                else [GL.GLEXT_glDeleteProgram
                                        (m_shaderProgram this)])).
        apply N.eqb_neq in Hdriver. rewrite Hdriver. lia.
      * cbn. lia.
Qed.

(** X6: over the life of a shader object, from its construction through any
    uniform settings and compilations to its destruction, every program and
    every shader object created is deleted, provided the driver never hands
    out 0 as a program. *)
Theorem shader_objects_are_released env (ops : list ShaderOp) (w : World) :
  (∀ issued, glCreateProgramObject_result env issued ≠ 0%N) →
  let r := run_shader_ops env ops Shader.new w in
  ∃ issued,
    calls (Shader_delete r.1 r.2) = calls w ++ issued
    ∧ count is_create_shader issued = count is_delete_shader issued
    ∧ count is_create_program issued = count is_delete_program issued.
Proof.
  intros Hdriver.
  assert (∀ ops (this : Shader) w,
            let r := run_shader_ops env ops this w in
            ∃ l, calls r.2 = calls w ++ l
                 ∧ count is_create_shader l = count is_delete_shader l
                 ∧ (count is_create_program l
                    + (if (m_shaderProgram this =? 0)%N then 0 else 1)
                    = count is_delete_program l
                      + (if (m_shaderProgram r.1 =? 0)%N then 0 else 1))%nat) as Hrun.
  { clear ops w. induction ops as [|o ops IH]; intros this w; cbn [run_shader_ops].
    - exists []. cbn. rewrite app_nil_r. auto.
    - pose proof (run_shader_op_lifecycle env o this w Hdriver) as H1. cbv zeta in H1.
      destruct (run_shader_op env o this w) as [this1 w1]. cbn [fst snd] in H1.
      destruct H1 as (l1 & Hl1 & Hs1 & Hp1).
      destruct (IH this1 w1) as (l2 & Hl2 & Hs2 & Hp2).
      exists (l1 ++ l2). split; [|split].
      + rewrite Hl2, Hl1, app_assoc. reflexivity.
      + rewrite !count_app. lia.
      + rewrite !count_app. cbv zeta in Hp2. lia. }
  intros r. destruct (Hrun ops Shader.new w) as (l & Hl & Hs & Hp). fold r in Hl, Hp.
  change (m_shaderProgram Shader.new =? 0)%N with true in Hp.
  unfold Shader_delete. destruct (m_shaderProgram r.1 =? 0)%N.
  - exists l. repeat split; [exact Hl|exact Hs|lia].
  - exists (l ++ [GL.GLEXT_glDeleteProgram (castToGlHandle (m_shaderProgram r.1))]).
    split; [|split].
    + rewrite calls_glCheck, Hl, app_assoc. reflexivity.
    + rewrite !count_app, Hs. reflexivity.
    + rewrite !count_app. cbn. lia.
Qed.

Lemma shader_objects_are_released_witness :
  let env := example_env false true 8 in
  let r := run_shader_ops env example_shader_ops Shader.new example_world in
  (∀ issued, glCreateProgramObject_result env issued ≠ 0%N)
  ∧ ∃ issued,
      calls (Shader_delete r.1 r.2) = calls example_world ++ issued
      ∧ count is_create_shader issued = count is_delete_shader issued
      ∧ count is_create_program issued = count is_delete_program issued.
Proof.
  intros env r.
  assert (∀ issued, glCreateProgramObject_result env issued ≠ 0%N) as H
    by (intros issued; simpl; discriminate).
  split; [exact H|].
  exact (shader_objects_are_released env example_shader_ops example_world H).
Defined.

(** X4: when shaders are not available, or a geometry shader is given and
    geometry shaders are not available, [compile] fails with one line on the
    error stream and leaves the shader as it was, the program it holds
    included.  The only calls it issues are those of the availability checks
    themselves, which make sure that the extensions are initialised the first
    time each of them runs: at most two calls, and none once both checks have
    run before. *)
Theorem compile_refused_untouched env (this : Shader)
    (vertexShaderCode geometryShaderCode fragmentShaderCode : option string) (w : World) :
  Shader.available env = false
  ∨ (is_Some geometryShaderCode ∧ Shader.geometry_available env = false) →
  let r := Shader.compile env this vertexShaderCode geometryShaderCode
             fragmentShaderCode w in
  r.1.1 = false ∧ r.1.2 = this
  ∧ (∃ checks,
       calls r.2 = calls w ++ checks
       ∧ initialization_only checks ∧ (length checks ≤ 2)%nat
       ∧ (isAvailable_checked w = true →
          (is_Some geometryShaderCode → isGeometryAvailable_checked w = true) →
          checks = []))
  ∧ err r.2 = err w ++ [if Shader.available env
                        then Shader.create_geometry_unavailable
                        else Shader.create_unavailable].
Proof.
  intros H.
  destruct (compile_checks_frame env geometryShaderCode w) as (He & Hchecks).
  cbv zeta in He, Hchecks. unfold compile_checks in He, Hchecks. cbv zeta in He, Hchecks.
  enter_compile.
  destruct (Shader.available env) eqn:Ea; cbn [negb].
  - destruct H as [H|[Hg Hga]]; [discriminate|].
    rewrite bool_decide_eq_true_2 by exact Hg. rewrite Hga. cbn [negb andb fst snd].
    split; [reflexivity|]. split; [reflexivity|]. split; [exact Hchecks|].
    cbn [err err_endl set_err]. rewrite He. reflexivity.
  - cbn [fst snd]. split; [reflexivity|]. split; [reflexivity|].
    split; [exact Hchecks|]. cbn [err err_endl set_err]. rewrite He. reflexivity.
Qed.

Lemma compile_refused_untouched_witness :
  let env := example_env false true 8 in
  let geometry := Some "void main() {}"%string in
  let r := Shader.compile env example_shader None geometry None example_world in
  (Shader.available env = false
   ∨ (is_Some geometry ∧ Shader.geometry_available env = false))
  ∧ r.1.1 = false ∧ r.1.2 = example_shader
  ∧ (∃ checks,
       calls r.2 = calls example_world ++ checks
       ∧ initialization_only checks ∧ (length checks ≤ 2)%nat
       ∧ (isAvailable_checked example_world = true →
          (is_Some geometry → isGeometryAvailable_checked example_world = true) →
          checks = []))
  ∧ err r.2 = err example_world ++ [if Shader.available env
                                    then Shader.create_geometry_unavailable
                                    else Shader.create_unavailable].
Proof.
  intros env geometry r.
  assert (Shader.available env = false
          ∨ (is_Some geometry ∧ Shader.geometry_available env = false)) as H
    by (right; split; [eexists; reflexivity|reflexivity]).
  split; [exact H|].
  exact (compile_refused_untouched env example_shader None geometry None example_world H).
Defined.

(** X5: a compilation that is not refused succeeds exactly when every stage
    compiles and the program links; it deletes the program the shader held,
    creates one program, deletes every shader object it creates, and deletes
    the new program as well when it fails.  The shader is left with the new
    program on success and with none on failure, and with empty tables. *)
Theorem compile_outcome env (this : Shader)
    (vertexShaderCode geometryShaderCode fragmentShaderCode : option string) (w : World) :
  Shader.available env = true →
  (is_Some geometryShaderCode → Shader.geometry_available env = true) →
  let r := Shader.compile env this vertexShaderCode geometryShaderCode
             fragmentShaderCode w in
  let old := if (m_shaderProgram this =? 0)%N then []
             else [GL.GLEXT_glDeleteProgram (m_shaderProgram this)] in
  let new := glCreateProgramObject_result env
               (calls (compile_checks env geometryShaderCode w) ++ old) in
  r.1.1 = compiles_and_links env vertexShaderCode geometryShaderCode fragmentShaderCode
  ∧ r.1.2 = mkShader (if r.1.1 then new else 0%N) (-1) ∅ ∅
  ∧ ∃ issued,
      calls r.2 = calls w ++ issued
      ∧ count is_create_shader issued = count is_delete_shader issued
      ∧ count is_create_program issued = 1%nat
      ∧ count is_delete_program issued
        = (length old + if r.1.1 then 0 else 1)%nat.
Proof.
  intros Ha Hg r old new.
  pose proof (compile_balance env this vertexShaderCode geometryShaderCode
                fragmentShaderCode w) as H.
  cbv zeta in H. fold r in H. fold old in H. fold new in H.
  assert (refused env geometryShaderCode = false) as Hr.
  { unfold refused. rewrite Ha. cbn.
    destruct geometryShaderCode as [code|]; [|reflexivity].
    rewrite Hg by eauto. apply andb_false_r. }
  rewrite Hr in H. destruct H as (l & Hl & Hs & Hc & Hd & Hp & Ht & Hu & Hct & Hok).
  split; [exact Hok|]. split.
  - destruct (r.1.2) as [prog ct tex uni]. cbn in *. congruence.
  - destruct (compile_checks_frame env geometryShaderCode w)
      as (_ & checks & Hchecks & Hinit & _).
    cbv zeta in Hchecks. exists (checks ++ l).
    rewrite !count_app, !(count_initialization_only _ checks)
      by (reflexivity || exact Hinit).
    split; [rewrite Hl, Hchecks, app_assoc; reflexivity|].
    repeat split; try assumption.
    rewrite Hd. subst old. destruct (m_shaderProgram this =? 0)%N; reflexivity.
Qed.

Lemma compile_outcome_witness :
  let env := example_env false true 8 in
  let vertex := Some "void main() {}"%string in
  let fragment := Some "syntax error"%string in
  let r := Shader.compile env example_shader vertex None fragment example_world in
  let old := if (m_shaderProgram example_shader =? 0)%N then []
             else [GL.GLEXT_glDeleteProgram (m_shaderProgram example_shader)] in
  let new := glCreateProgramObject_result env
               (calls (compile_checks env None example_world) ++ old) in
  Shader.available env = true
  ∧ (is_Some (@None string) → Shader.geometry_available env = true)
  ∧ r.1.1 = compiles_and_links env vertex None fragment
  ∧ r.1.2 = mkShader (if r.1.1 then new else 0%N) (-1) ∅ ∅
  ∧ ∃ issued,
      calls r.2 = calls example_world ++ issued
      ∧ count is_create_shader issued = count is_delete_shader issued
      ∧ count is_create_program issued = 1%nat
      ∧ count is_delete_program issued = (length old + if r.1.1 then 0 else 1)%nat.
Proof.
  intros env vertex fragment r old new.
  assert (Shader.available env = true) as H1 by reflexivity.
  assert (is_Some (@None string) → Shader.geometry_available env = true) as H2
    by (intros [code Hcode]; discriminate Hcode).
  split; [exact H1|]. split; [exact H2|].
  exact (compile_outcome env example_shader vertex None fragment example_world H1 H2).
Defined.

(** ** Activation and identifiers *)

(** X7: [setActive] always succeeds, issues no OpenGL call and writes
    nothing.  It changes the tracking entry of the current context only:
    activation records this target, deactivation removes the entry, whichever
    target it named.  The cache stays enabled only on the activation of a
    target that was active already, and the states are marked as unset when
    the context had no entry. *)
Theorem setActive_touches_current_context_only (this : RenderTarget) (active : bool)
    (w : World) :
  let r := RenderTarget.setActive this active w in
  let C := getActiveContextId w in
  r.1.1 = true
  ∧ contextRenderTargetMap r.2 !! C = (if active then Some (m_id this) else None)
  ∧ (∀ id, RenderTargetImpl.isActive id r.2
           = if active then bool_decide (id = m_id this) else false)
  ∧ (∀ C', C' ≠ C → contextRenderTargetMap r.2 !! C' = contextRenderTargetMap w !! C')
  ∧ getActiveContextId r.2 = C ∧ calls r.2 = calls w ∧ err r.2 = err w
  ∧ enable (m_cache r.1.2)
    = active && RenderTargetImpl.isActive (m_id this) w && enable (m_cache this)
  ∧ glStatesSet (m_cache r.1.2)
    = glStatesSet (m_cache this)
      && negb (active && bool_decide (contextRenderTargetMap w !! C = None)).
Proof.
  unfold RenderTarget.setActive, RenderTargetImpl.isActive. cbv zeta.
  destruct active.
  - destruct (contextRenderTargetMap w !! getActiveContextId w) as [second|] eqn:E.
    + destruct (second =? m_id this)%N eqn:E2; cbn [fst snd].
      * apply N.eqb_eq in E2. subst second. rewrite E.
        repeat split; auto.
        -- intros id. destruct (N.eqb_spec (m_id this) id) as [->|Hne].
           ++ rewrite bool_decide_eq_true_2; reflexivity.
           ++ rewrite bool_decide_eq_false_2; [reflexivity|congruence].
        -- destruct (glStatesSet _); reflexivity.
      * cbn. rewrite lookup_insert_eq.
        repeat split; auto.
        -- intros id. destruct (N.eqb_spec (m_id this) id) as [->|Hne].
           ++ rewrite bool_decide_eq_true_2; reflexivity.
           ++ rewrite bool_decide_eq_false_2; [reflexivity|congruence].
        -- intros C' HC. apply lookup_insert_ne. congruence.
        -- destruct (glStatesSet _); reflexivity.
    + cbn. rewrite lookup_insert_eq.
      repeat split; auto.
      * intros id. destruct (N.eqb_spec (m_id this) id) as [->|Hne].
        -- rewrite bool_decide_eq_true_2; reflexivity.
        -- rewrite bool_decide_eq_false_2; [reflexivity|congruence].
      * intros C' HC. apply lookup_insert_ne. congruence.
      * rewrite andb_false_r. reflexivity.
  - destruct (contextRenderTargetMap w !! getActiveContextId w) as [second|] eqn:E;
      cbn; rewrite ?lookup_delete_eq, ?E; repeat split; auto.
    + intros C' HC. apply lookup_delete_ne. congruence.
    + destruct (glStatesSet _); reflexivity.
    + destruct (glStatesSet _); reflexivity.
Qed.

Lemma initialize_id env (t : RenderTarget) w :
  m_id (RenderTarget.initialize env t w).1 = getUniqueId_id w
  ∧ getUniqueId_id (RenderTarget.initialize env t w).2
    = ((getUniqueId_id w + 1) mod Uint64_modulus)%N.
Proof. split; reflexivity. Qed.

Lemma initialize_all_ids env targets : ∀ w,
  (getUniqueId_id w < Uint64_modulus)%N →
  m_id <$> (initialize_all env targets w).1
  = (λ k, ((getUniqueId_id w + N.of_nat k) mod Uint64_modulus)%N)
      <$> seq 0 (length targets).
Proof.
  induction targets as [|t targets IH]; intros w Hw; [reflexivity|].
  cbn [initialize_all].
  destruct (initialize_id env t w) as [Hid Hnext].
  destruct (RenderTarget.initialize env t w) as [t1 w1]. cbn [fst snd] in *.
  specialize (IH w1).
  destruct (initialize_all env targets w1) as [ts w2]. cbn [fst snd] in *.
  cbn [fmap list_fmap length seq]. f_equal.
  - rewrite Hid, N.add_0_r, N.mod_small by exact Hw. reflexivity.
  - rewrite IH by (rewrite Hnext; apply N.mod_upper_bound; discriminate).
    rewrite <- fmap_S_seq, <- list_fmap_compose. apply list_fmap_ext.
    intros i k _. cbn. rewrite Hnext.
    rewrite Nat2N.inj_succ, <- N.add_1_l, N.add_assoc.
    rewrite N.Div0.add_mod_idemp_l. reflexivity.
Qed.

(** X8: targets initialized one after the other receive pairwise distinct
    identifiers, as long as there are no more of them than 64-bit numbers. *)
Theorem initialize_gives_distinct_ids env (targets : list RenderTarget) (w : World) :
  (getUniqueId_id w < Uint64_modulus)%N →
  (N.of_nat (length targets) ≤ Uint64_modulus)%N →
  NoDup (m_id <$> (initialize_all env targets w).1).
Proof.
  intros Hw Hn. rewrite initialize_all_ids by exact Hw.
  apply NoDup_fmap_2_strong; [|apply NoDup_seq].
  intros i j Hi Hj Heq. apply elem_of_seq in Hi, Hj.
  set (M := Uint64_modulus) in *. set (c := getUniqueId_id w) in *.
  assert (∀ a b : nat, (a < length targets)%nat → (b < length targets)%nat → (a ≤ b)%nat →
            ((c + N.of_nat a) mod M = (c + N.of_nat b) mod M)%N → a = b) as Hle.
  { intros a b Ha Hb Hab He.
    assert (0 < M)%N as HM by reflexivity.
    pose proof (N.Div0.div_mod (c + N.of_nat a) M) as Da.
    pose proof (N.Div0.div_mod (c + N.of_nat b) M) as Db.
    rewrite He in Da.
    assert ((c + N.of_nat a) / M ≤ (c + N.of_nat b) / M)%N as Hq
      by (apply N.Div0.div_le_mono; lia).
    assert (N.of_nat b - N.of_nat a < M)%N as Hd by lia.
    destruct (N.eq_dec ((c + N.of_nat a) / M)%N ((c + N.of_nat b) / M)%N) as [Hqe|Hqn].
    - rewrite Hqe in Da. lia.
    - assert ((c + N.of_nat a) / M + 1 ≤ (c + N.of_nat b) / M)%N as Hq1 by lia.
      assert (M * ((c + N.of_nat a) / M + 1) ≤ M * ((c + N.of_nat b) / M))%N as Hm
        by (apply N.mul_le_mono_l; exact Hq1).
      lia. }
  destruct (Nat.le_ge_cases i j); [apply Hle; auto; lia|].
  symmetry. apply Hle; auto; lia.
Qed.

Lemma initialize_gives_distinct_ids_witness :
  let env := example_env false true 8 in
  let fresh := RenderTarget.new env example_view (mkVector2u 4 4) false in
  let targets := [fresh; fresh; fresh] in
  (getUniqueId_id example_world < Uint64_modulus)%N
  ∧ (N.of_nat (length targets) ≤ Uint64_modulus)%N
  ∧ NoDup (m_id <$> (initialize_all env targets example_world).1).
Proof.
  intros env fresh targets.
  assert (getUniqueId_id example_world < Uint64_modulus)%N as H1 by reflexivity.
  assert (N.of_nat (length targets) ≤ Uint64_modulus)%N as H2
    by (vm_compute; discriminate).
  split; [exact H1|]. split; [exact H2|].
  exact (initialize_gives_distinct_ids env targets example_world H1 H2).
Defined.

(** ** The full viewport, and the states after a reset *)

(** X9: with the viewport [(0, 0, 1, 1)] the viewport in pixels is the whole
    target, and [applyCurrentView] passes it to [glViewport] with origin
    [(0, 0)].  The sizes are below [2^23], where the conversion to [float] is
    exact. *)
Theorem full_viewport_covers_the_target (this : RenderTarget) (view : View) :
  getViewport_ view
  = mkFloatRect (inject_Z 0) (inject_Z 0) (inject_Z 1) (inject_Z 1) →
  Z.of_N (ux (getSize this)) < 2 ^ 23 → Z.of_N (uy (getSize this)) < 2 ^ 23 →
  RenderTarget.getViewport this view
  = mkIntRect 0 0 (Z.of_N (ux (getSize this))) (Z.of_N (uy (getSize this)))
  ∧ ∀ w, m_view this = view →
         ∃ rest, calls (RenderTarget.applyCurrentView this w).2
                 = calls w ++ GL.glViewport 0 0 (Z.of_N (ux (getSize this)))
                                (Z.of_N (uy (getSize this))) :: rest.
Proof.
  intros Hv HW HH.
  assert (RenderTarget.getViewport this view
          = mkIntRect 0 0 (Z.of_N (ux (getSize this))) (Z.of_N (uy (getSize this))))
    as Hrect.
  { unfold RenderTarget.getViewport. cbv zeta. rewrite Hv.
    cbn [fleft ftop fwidth fheight].
    pose proof (viewport_coordinate_one (ux (getSize this)) HW) as H1.
    pose proof (viewport_coordinate_one (uy (getSize this)) HH) as H2.
    pose proof (viewport_coordinate_zero (ux (getSize this))) as H3.
    pose proof (viewport_coordinate_zero (uy (getSize this))) as H4.
    unfold viewport_coordinate in H1, H2, H3, H4. rewrite H1, H2, H3, H4.
    reflexivity. }
  split; [exact Hrect|].
  intros w Hview. unfold RenderTarget.applyCurrentView. cbv zeta. rewrite Hview, Hrect.
  cbn [left top width height snd].
  eexists [_; _; _]. 
  replace (RenderTarget.static_cast_int_unsigned (uy (getSize this)) - (0 + _)) with 0.
  - cbn. rewrite <- !app_assoc. reflexivity.
  - unfold RenderTarget.static_cast_int_unsigned.
    rewrite Z.mod_small by lia. lia.
Qed.

Lemma full_viewport_covers_the_target_witness :
  let this := RenderTarget.new (example_env false true 8) example_view
                (mkVector2u 640 480) false in
  getViewport_ example_view
  = mkFloatRect (inject_Z 0) (inject_Z 0) (inject_Z 1) (inject_Z 1)
  ∧ Z.of_N (ux (getSize this)) < 2 ^ 23 ∧ Z.of_N (uy (getSize this)) < 2 ^ 23
  ∧ RenderTarget.getViewport this example_view
    = mkIntRect 0 0 (Z.of_N (ux (getSize this))) (Z.of_N (uy (getSize this)))
  ∧ ∀ w, m_view this = example_view →
         ∃ rest, calls (RenderTarget.applyCurrentView this w).2
                 = calls w ++ GL.glViewport 0 0 (Z.of_N (ux (getSize this)))
                                (Z.of_N (uy (getSize this))) :: rest.
Proof.
  intros this.
  assert (getViewport_ example_view
          = mkFloatRect (inject_Z 0) (inject_Z 0) (inject_Z 1) (inject_Z 1)) as H1
    by reflexivity.
  assert (Z.of_N (ux (getSize this)) < 2 ^ 23) as H2 by reflexivity.
  assert (Z.of_N (uy (getSize this)) < 2 ^ 23) as H3 by reflexivity.
  split; [exact H1|]. split; [exact H2|]. split; [exact H3|].
  exact (full_viewport_covers_the_target this example_view H1 H2 H3).
Defined.

(** X10: [resetGLStates] leaves the cache enabled and set, with the view
    marked as changed, [BlendAlpha] as the blend mode, no texture, the texture
    coordinate array enabled and the vertex cache not in use; the views, the
    identifier and the size are kept, and the target is the active one. *)
Theorem resetGLStates_restores_defaults env (this : RenderTarget) (w : World) :
  let r := RenderTarget.resetGLStates env this w in
  let c := m_cache this in
  m_cache r.1
  = mkStatesCache true true true (BlendAlpha env) 0%N true false (vertexCache c)
      (programChanged c) (posAttrib c) (colAttrib c) (texAttrib c)
  ∧ m_view r.1 = m_view this ∧ m_defaultView r.1 = m_defaultView this
  ∧ m_id r.1 = m_id this ∧ getSize r.1 = getSize this
  ∧ RenderTargetImpl.isActive (m_id this) r.2 = true.
Proof.
  cbv zeta. rewrite resetGLStates_fst. unfold reset_target. cbn.
  repeat split. apply active_resetGLStates.
Qed.

(** ** The draw call and the cache of a drawing operation *)

Lemma draws_since_calls w0 D w w' l :
  calls w' = calls w ++ l → List.filter is_draw_call l = [] →
  draws_since w0 D w → draws_since w0 D w'.
Proof.
  intros Hl Hd (l0 & H0 & HD). exists (l0 ++ l). split.
  - rewrite Hl, H0, app_assoc. reflexivity.
  - rewrite List.filter_app, HD, Hd, app_nil_r. reflexivity.
Qed.

#[local] Instance draws_since_Inv w0 D : Inv (draws_since w0 D).
Proof.
  refine (mkInv _ (λ _, True) _ _ _ _ _ _ _ _); intros; try assumption.
  eapply draws_since_calls; [| |eassumption]; [reflexivity|].
  cbn. unfold is_draw_call. rewrite H. reflexivity.
Defined.

Lemma draws_since_applyBlendMode env w0 D (t : RenderTarget) mode w :
  draws_since w0 D w → draws_since w0 D (RenderTarget.applyBlendMode env t mode w).2.
Proof.
  destruct (applyBlendMode_frame env t mode w) as (Hc & _).
  apply draws_since_calls with (1 := Hc). apply blend_calls_quiet.
Qed.

Lemma draws_since_isActive_or_setActive w0 D (t : RenderTarget) w :
  draws_since w0 D w → draws_since w0 D (RenderTarget.isActive_or_setActive t w).2.
Proof.
  apply draws_since_calls with (l := []); [|reflexivity].
  rewrite isActive_or_setActive_calls, app_nil_r. reflexivity.
Qed.

Lemma draws_since_resetGLStates env w0 D (t : RenderTarget) w :
  draws_since w0 D w → draws_since w0 D (RenderTarget.resetGLStates env t w).2.
Proof.
  intros Hw.
  apply (inv_resetGLStates env (IP := draws_since_Inv w0 D)); try exact I.
  - intros c w' Hc. apply draws_since_calls with (l := [c]); [reflexivity|].
    cbn. unfold is_draw_call. rewrite Hc. reflexivity.
  - intros _ l. exact I.
  - intros t' w'. apply draws_since_applyBlendMode.
  - apply draws_since_isActive_or_setActive. unfold reset_entry.
    rewrite isAvailable_eta. cbv beta iota.
    apply (inv_isAvailable (I := draws_since_Inv w0 D) env) in Hw. revert Hw.
    generalize (Shader.isAvailable env w).2. clear w. intros w Hw.
    destruct (SFML_SYSTEM_MACOS env); [|exact Hw].
    pose proof (setActive_calls t false w) as H.
    destruct (RenderTarget.setActive t false w) as [[? ?] ?]. cbn [fst snd] in *.
    eapply draws_since_calls with (l := []); [rewrite H, app_nil_r; reflexivity| |exact Hw].
    reflexivity.
Qed.

(** X11: a drawing operation that passes the early returns issues exactly one
    [glDrawArrays].  For a range of a vertex buffer the count is clamped to
    the vertices the buffer has from the first one on, so that the range
    drawn is not empty and lies within the buffer. *)
Theorem performed_draw_issues_one_draw_call env (this : RenderTarget) (d : DrawCall)
    (w : World) :
  performed env d →
  (∃ issued,
     calls (run_draw env this d w).2 = calls w ++ issued
     ∧ List.filter is_draw_call issued = [draw_arrays d])
  ∧ match d with
    | DrawVertices _ _ _ _ => True
    | DrawVertexBuffer vertexBuffer firstVertex vertexCount _ =>
        draw_arrays d
        = GL.glDrawArrays (RenderTarget.modes (m_primitiveType vertexBuffer))
            (static_cast_GLint firstVertex)
            (static_cast_GLint (Nat.min vertexCount (vb_size vertexBuffer - firstVertex)))
        ∧ (0 < Nat.min vertexCount (vb_size vertexBuffer - firstVertex))%nat
        ∧ (firstVertex + Nat.min vertexCount (vb_size vertexBuffer - firstVertex)
           ≤ vb_size vertexBuffer)%nat
    end.
Proof.
  intros Hd. split.
  - apply (inv_run_draw env (IP := draws_since_Inv w []) (IQ := draws_since_Inv w [])
             (IR := draws_since_Inv w [draw_arrays d])); try exact I; auto.
    + intros c w' Hc. apply draws_since_calls with (l := [c]); [reflexivity|].
      cbn. unfold is_draw_call. rewrite Hc. reflexivity.
    + intros _ l. exact I.
    + intros _ l. exact I.
    + apply draws_since_isActive_or_setActive. exists []. rewrite app_nil_r. auto.
    + intros. apply draws_since_resetGLStates. assumption.
    + intros t' w' _ Hw'. unfold blend_step. destruct (_ || _); [|exact Hw'].
      apply draws_since_applyBlendMode, Hw'.
    + intros w' (l & Hl & HD). exists (l ++ [draw_arrays d]). split.
      * rewrite calls_glCheck, Hl, app_assoc. reflexivity.
      * rewrite List.filter_app, HD. destruct d; reflexivity.
  - destruct d as [|vb first n st]; [exact I|].
    destruct Hd as (_ & Hfirst & Hn & _). cbn [draw_arrays]. repeat split; lia.
Qed.

Lemma performed_draw_issues_one_draw_call_witness :
  let env := example_env false true 8 in
  let this := (example_targets env).1.2 in
  let w := (example_targets env).2 in
  performed env example_buffer_draw
  ∧ (∃ issued,
       calls (run_draw env this example_buffer_draw w).2 = calls w ++ issued
       ∧ List.filter is_draw_call issued = [draw_arrays example_buffer_draw])
  ∧ draw_arrays example_buffer_draw
    = GL.glDrawArrays GL.GL_TRIANGLES (static_cast_GLint 4) (static_cast_GLint 6)
  ∧ (0 < Nat.min 100 (10 - 4))%nat ∧ (4 + Nat.min 100 (10 - 4) ≤ 10)%nat.
Proof.
  intros env this w.
  assert (performed env example_buffer_draw) as H
    by (repeat split; [vm_compute; lia|discriminate|discriminate]).
  split; [exact H|].
  exact (performed_draw_issues_one_draw_call env this example_buffer_draw w H).
Defined.

(** X12: a drawing operation stopped by an early return (no vertices, a count
    of zero, quads on OpenGL ES, vertex buffers unavailable, a first vertex
    beyond the buffer, no buffer object) issues no OpenGL call, keeps the
    target and the tracking map, and writes at most one line. *)
Theorem skipped_draw_is_inert env (this : RenderTarget) (d : DrawCall) (w : World) :
  ¬ performed env d →
  let r := run_draw env this d w in
  r.1 = this ∧ calls r.2 = calls w
  ∧ contextRenderTargetMap r.2 = contextRenderTargetMap w
  ∧ (err r.2 = err w
     ∨ (SFML_OPENGL_ES env = true ∧ err r.2 = err w ++ [RenderTarget.quads_unsupported])
     ∨ (VertexBuffer_isAvailable env = false
        ∧ err r.2 = err w ++ [RenderTarget.vertex_buffer_unavailable])).
Proof.
  intros Hd. destruct d as [vs n ty st|vb f n st]; cbn [run_draw performed] in *.
  - unfold RenderTarget.draw. destruct vs as [vs|]; [|cbn; auto].
    destruct (n =? 0)%nat eqn:En; [cbn; auto|].
    destruct (SFML_OPENGL_ES env && RenderTarget.is_Quads ty) eqn:Eq.
    + apply andb_true_iff in Eq as [Ees _]. cbn. auto 10.
    + destruct Hd. apply Nat.eqb_neq in En. repeat split; eauto.
  - unfold RenderTarget.draw_VertexBuffer_range.
    destruct (VertexBuffer_isAvailable env) eqn:Ea; cbn [negb]; [|cbn; auto 10].
    destruct (vb_size vb <? f)%nat eqn:Ef; [cbn; auto|]. cbv zeta.
    destruct (Nat.min n (vb_size vb - f) =? 0)%nat eqn:En; [cbn; auto|].
    destruct (m_buffer vb =? 0)%N eqn:Eb; [cbn; auto|]. cbn [orb].
    destruct (SFML_OPENGL_ES env && RenderTarget.is_Quads (m_primitiveType vb)) eqn:Eq.
    + apply andb_true_iff in Eq as [Ees _]. cbn. auto 10.
    + destruct Hd. apply Nat.eqb_neq in En. apply N.eqb_neq in Eb.
      apply Nat.ltb_ge in Ef. repeat split; auto.
Qed.

Lemma skipped_draw_is_inert_witness :
  let env := example_env true true 8 in
  let this := (example_targets env).1.1 in
  let w := (example_targets env).2 in
  let r := run_draw env this example_quads w in
  ¬ performed env example_quads
  ∧ r.1 = this ∧ calls r.2 = calls w
  ∧ contextRenderTargetMap r.2 = contextRenderTargetMap w
  ∧ (err r.2 = err w
     ∨ (SFML_OPENGL_ES env = true ∧ err r.2 = err w ++ [RenderTarget.quads_unsupported])
     ∨ (VertexBuffer_isAvailable env = false
        ∧ err r.2 = err w ++ [RenderTarget.vertex_buffer_unavailable])).
Proof.
  intros env this w r.
  assert (¬ performed env example_quads) as H
    by (intros (_ & _ & Hq); discriminate Hq).
  split; [exact H|].
  exact (skipped_draw_is_inert env this example_quads w H).
Defined.

Lemma setupDraw_texture env (this : RenderTarget) cached states w :
  let t := (RenderTarget.setupDraw env this cached states w).1 in
  lastTextureId (m_cache t) = texture_id (texture states)
  ∧ enable (m_cache t) = (if glStatesSet (m_cache this) then enable (m_cache this) else true)
  ∧ texCoordsArrayEnabled (m_cache t)
    = (if glStatesSet (m_cache this) then texCoordsArrayEnabled (m_cache this) else true)
  ∧ (SFML_OPENGL_ES env = false → viewChanged (m_cache t) = false).
Proof.
  unfold RenderTarget.setupDraw, texture_id. cbv zeta.
  destruct (SFML_OPENGL_ES env);
    repeat (forget_worlds; open_pair); forget_worlds.
  all: cbn.
  all: cases; cbn.
  all: repeat match goal with
           | H : _ || _ = false |- _ => apply orb_false_iff in H as [? ?]
           | H : negb _ = false |- _ => apply negb_false_iff in H
           | H : (_ =? _)%N = true |- _ => apply N.eqb_eq in H
           end.
  all: cbn in *; repeat split; try congruence; try discriminate.
Qed.

Ltac open_call X ::=
  lazymatch X with
  | RenderTarget.resetGLStates ?e ?t ?x =>
      let Hr := fresh "Hr" in
      pose proof (resetGLStates_fst e t x) as Hr;
      destruct X as [? ?]; cbn [fst] in Hr; subst
  | RenderTarget.setupDraw ?e ?t ?c ?s ?x =>
      let Hs := fresh "Hs" in
      let Ht := fresh "Ht" in
      pose proof (setupDraw_fst e t c s x) as Hs; cbv zeta in Hs;
      pose proof (setupDraw_texture e t c s x) as Ht; cbv zeta in Ht;
      destruct X as [? ?]; cbn [fst] in Hs, Ht
  | RenderTarget.isActive_or_setActive ?t ?x =>
      let Ha := fresh "Ha" in
      pose proof (isActive_or_setActive_fst t x) as Ha; cbv zeta in Ha;
      destruct X as [[? ?] ?]; cbn [fst snd] in Ha;
      destruct Ha as (-> & ? & ? & ? & ? & ? & ? & ? & ?)
  | RenderTarget.cleanupDraw _ _ _ _ => unfold RenderTarget.cleanupDraw
  | RenderTarget.applyBlendMode _ _ _ _ => unfold RenderTarget.applyBlendMode
  | RenderTarget.applyTexture _ _ _ => unfold RenderTarget.applyTexture
  | RenderTarget.applyCurrentView _ _ => unfold RenderTarget.applyCurrentView
  | RenderTargetImpl.equationToGlConstant _ _ _ => destruct X as [? ?]
  end.

Lemma draw_cache env (this : RenderTarget) vertices vertexCount type states w :
  drawable env (Some vertices) vertexCount type →
  let t := (RenderTarget.draw env this (Some vertices) vertexCount type states w).1 in
  lastTextureId (m_cache t)
  = (if is_attachment (texture states) then 0%N else texture_id (texture states))
  ∧ texCoordsArrayEnabled (m_cache t)
    = bool_decide (is_Some (texture states)) || bool_decide (is_Some (shader states))
  ∧ (SFML_OPENGL_ES env = false → viewChanged (m_cache t) = false).
Proof.
  intros (_ & Hn & Hq). unfold RenderTarget.draw.
  apply Nat.eqb_neq in Hn. rewrite Hn, Hq. cbv zeta.
  repeat (forget_worlds; open_pair); forget_worlds.
  all: cbn [negb].
  all: destruct Ht as (Htx & _ & _ & Hv).
  all: unfold is_attachment, texture_id in *.
  all: cbn in *.
  all: repeat match goal with
              | H : ?x = _ |- context [if ?x then _ else _] => rewrite H
              end.
  all: repeat split; try congruence; auto.
Qed.

Lemma draw_VertexBuffer_range_cache env (this : RenderTarget) vertexBuffer firstVertex
    vertexCount states w :
  drawable_buffer env vertexBuffer firstVertex vertexCount →
  let t := (RenderTarget.draw_VertexBuffer_range env this vertexBuffer firstVertex
              vertexCount states w).1 in
  lastTextureId (m_cache t)
  = (if is_attachment (texture states) then 0%N else texture_id (texture states))
  ∧ texCoordsArrayEnabled (m_cache t) = true
  ∧ (SFML_OPENGL_ES env = false → viewChanged (m_cache t) = false).
Proof.
  intros (Hav & Hfirst & Hn & Hb & Hq). unfold RenderTarget.draw_VertexBuffer_range.
  apply Nat.eqb_neq in Hn. apply N.eqb_neq in Hb. apply Nat.ltb_ge in Hfirst.
  rewrite Hav, Hfirst. cbv zeta. rewrite Hn, Hb, Hq. cbn [negb orb].
  repeat (forget_worlds; open_pair); forget_worlds.
  all: cbn [negb].
  all: destruct Ht as (Htx & _ & _ & Hv).
  all: unfold is_attachment, texture_id in *.
  all: cbn in *.
  all: repeat match goal with
              | H : ?x = _ |- context [if ?x then _ else _] => rewrite H
              end.
  all: repeat split; try congruence; auto.
Qed.

(** X13: after a drawing operation that passes the early returns the target
    is active, its cache is enabled and set and holds the states of the
    draw: the blend mode, the texture (none when the texture belongs to a
    [RenderTexture], which is unbound again), whether the vertex cache was
    used, whether the texture coordinate array is enabled, and on the fixed
    pipeline a view that is up to date. *)
Theorem performed_draw_records_its_states env (this : RenderTarget) (d : DrawCall)
    (w : World) :
  performed env d →
  let r := run_draw env this d w in
  let states := draw_states d in
  let c := m_cache r.1 in
  RenderTargetImpl.isActive (m_id this) r.2 = true
  ∧ m_id r.1 = m_id this
  ∧ enable c = true ∧ glStatesSet c = true
  ∧ lastBlendMode c = blendMode states
  ∧ lastTextureId c
    = (if is_attachment (texture states) then 0%N else texture_id (texture states))
  ∧ (SFML_OPENGL_ES env = false → viewChanged c = false)
  ∧ match d with
    | DrawVertices _ vertexCount _ _ =>
        useVertexCache c = (vertexCount <=? VertexCacheSize env)%nat
        ∧ texCoordsArrayEnabled c
          = bool_decide (is_Some (texture states)) || bool_decide (is_Some (shader states))
    | DrawVertexBuffer _ _ _ _ =>
        useVertexCache c = false ∧ texCoordsArrayEnabled c = true
    end.
Proof.
  intros Hd. cbv zeta. split; [apply run_draw_active, Hd|].
  destruct d as [[vs|] n ty st|vb f n st]; cbn [performed run_draw draw_states] in *.
  - pose proof (draw_fst env this vs n ty st w Hd) as H1.
    pose proof (draw_cache env this vs n ty st w Hd) as H2. cbv zeta in *. tauto.
  - destruct Hd as ([? [=]] & _).
  - pose proof (draw_VertexBuffer_range_fst env this vb f n st w Hd) as H1.
    pose proof (draw_VertexBuffer_range_cache env this vb f n st w Hd) as H2.
    cbv zeta in *. tauto.
Qed.

Lemma performed_draw_records_its_states_witness :
  let env := example_env false true 8 in
  let this := (example_targets env).1.2 in
  let w := (example_targets env).2 in
  let r := run_draw env this example_triangle w in
  let states := draw_states example_triangle in
  let c := m_cache r.1 in
  performed env example_triangle
  ∧ RenderTargetImpl.isActive (m_id this) r.2 = true
  ∧ m_id r.1 = m_id this
  ∧ enable c = true ∧ glStatesSet c = true
  ∧ lastBlendMode c = blendMode states
  ∧ lastTextureId c
    = (if is_attachment (texture states) then 0%N else texture_id (texture states))
  ∧ (SFML_OPENGL_ES env = false → viewChanged c = false)
  ∧ useVertexCache c = (3 <=? VertexCacheSize env)%nat
  ∧ texCoordsArrayEnabled c
    = bool_decide (is_Some (texture states)) || bool_decide (is_Some (shader states)).
Proof.
  intros env this w r states c.
  assert (performed env example_triangle) as H
    by (split; [eexists; reflexivity|split; [discriminate|reflexivity]]).
  split; [exact H|].
  exact (performed_draw_records_its_states env this example_triangle w H).
Defined.

(** ** The matrices of the fixed pipeline *)

Section FixedPipeline.
Context (env : Env) {P P1 P2 Q R : World → Prop} {IP : Inv P} {IQ : Inv Q} {IR : Inv R}.
Context (states : RenderStates).
Hypothesis fixed : SFML_OPENGL_ES env = false.
Hypothesis Q_bind : @allowed_line Q IQ Shader.bind_unavailable.
Hypothesis R_bind : @allowed_line R IR Shader.bind_unavailable.

Lemma fixed_setupDraw (t : RenderTarget) cached w :
  glStatesSet (m_cache t) = true →
  (∀ w, P w → P1 (transform_step env DefaultShader t cached states w)) →
  (∀ w, P1 w → P2 (view_step env DefaultShader t w).2) →
  (∀ t' w, P2 w → Q (blend_step env t' states w).2) →
  P w → Q (RenderTarget.setupDraw env t cached states w).2.
Proof.
  clear R_bind.
  intros Hg Htransform Hview Hblend Hw. unfold RenderTarget.setupDraw. cbv zeta.
  match goal with
  | |- context [if glStatesSet (m_cache t) then (t, ?x) else _] => abstract_world P x
  end.
  rewrite Hg, fixed. cbv beta iota.
  match goal with
  | |- context [RenderTarget.applyCurrentView t
                  (if ?c then ?a else RenderTarget.applyTransform env ?m ?x)] =>
      let y := constr:(if c then a else RenderTarget.applyTransform env m x) in
      assert (P1 y) as Hphase1
        by (generalize (Htransform x); unfold transform_step;
            rewrite fixed; intros H1; refine (H1 _); assumption);
      revert Hphase1; generalize y; intros ? Hphase1
  end.
  match goal with
  | |- context [RenderTarget.applyCurrentView t ?y] =>
      generalize (Hview y Hphase1); unfold view_step; rewrite fixed;
      destruct (negb (enable (m_cache t)) || viewChanged (m_cache t));
      unfold RenderTarget.applyCurrentView; cbv beta iota zeta; cbn [snd];
      intros Hphase2
  end.
  all: match goal with
       | |- context [RenderTarget.applyBlendMode _ _ _ ?z] =>
           tryif is_var z then idtac
           else (revert Hphase2; generalize z; intros ? Hphase2)
       end.
  all: match goal with
       | |- context [if ?c then RenderTarget.applyBlendMode ?e ?t0 ?m ?x else _] =>
           change (if c then RenderTarget.applyBlendMode e t0 m x else (t0, x))
             with (blend_step e t0 states x);
           open_with Q (blend_step e t0 states x) ltac:(apply Hblend; assumption)
       end.
  all: unfold RenderTarget.applyTexture.
  all: repeat open_pair.
  all: repeat match goal with
              | |- _ (snd (if ?c then _ else _)) => destruct c eqn:?
              end.
  all: cbn [snd]; walk.
Qed.

Lemma fixed_draw (this : RenderTarget) vertices vertexCount type w :
  RenderTargetImpl.isActive (m_id this) w = true →
  glStatesSet (m_cache this) = true →
  (∀ w', P w' →
     P1 (transform_step env DefaultShader this (vertexCount <=? VertexCacheSize env)%nat
           states w')) →
  (∀ w', P1 w' → P2 (view_step env DefaultShader this w').2) →
  (∀ t' w', P2 w' → Q (blend_step env t' states w').2) →
  (∀ w', Q w' →
         R (glCheck (GL.glDrawArrays (RenderTarget.modes type) (static_cast_GLint 0)
                       (static_cast_GLint vertexCount)) w')) →
  drawable env vertices vertexCount type →
  P w → R (RenderTarget.draw env this vertices vertexCount type states w).2.
Proof.
  intros Ha Hg Htransform Hview Hblend Hdraw ([vs ->] & Hn & Hq) Hw.
  unfold RenderTarget.draw, RenderTarget.isActive_or_setActive.
  apply Nat.eqb_neq in Hn. rewrite Hn, Hq, Ha. cbv zeta beta iota. cbn [negb].
  match goal with
  | |- context [RenderTarget.setupDraw ?e ?t0 ?c ?s ?x] =>
      open_with Q (RenderTarget.setupDraw e t0 c s x)
        ltac:(apply fixed_setupDraw;
              [ destruct (vertexCount <=? VertexCacheSize env)%nat; exact Hg
              | intros w' Hw';
                generalize (Htransform w' Hw');
                destruct (vertexCount <=? VertexCacheSize env)%nat; exact (λ H, H)
              | intros w' Hw';
                generalize (Hview w' Hw'); unfold view_step; rewrite fixed;
                destruct (vertexCount <=? VertexCacheSize env)%nat; [|exact (λ H, H)];
                match goal with
                | |- context [upd_cache ?f this] =>
                    change (negb (enable (m_cache (upd_cache f this)))
                            || viewChanged (m_cache (upd_cache f this)))
                      with (negb (enable (m_cache this)) || viewChanged (m_cache this))
                end;
                destruct (negb (enable (m_cache this)) || viewChanged (m_cache this));
                exact (λ H, H)
              | exact Hblend
              | exact Hw ])
  end.
  match goal with
  | |- context [RenderTarget.cleanupDraw ?e ?t0 ?s ?x] =>
      open_with R (RenderTarget.cleanupDraw e t0 s x)
        ltac:(apply (inv_cleanupDraw env (IR := IR)); auto; rewrite fixed; walk)
  end.
  cbn [snd]. exact HP0.
Qed.

Lemma fixed_draw_VertexBuffer_range (this : RenderTarget) vertexBuffer firstVertex
    vertexCount w :
  RenderTargetImpl.isActive (m_id this) w = true →
  glStatesSet (m_cache this) = true →
  (∀ w', P w' → P1 (transform_step env DefaultShader this false states w')) →
  (∀ w', P1 w' → P2 (view_step env DefaultShader this w').2) →
  (∀ t' w', P2 w' → Q (blend_step env t' states w').2) →
  (∀ w', Q w' →
         R (glCheck (GL.glDrawArrays (RenderTarget.modes (m_primitiveType vertexBuffer))
                       (static_cast_GLint firstVertex)
                       (static_cast_GLint
                          (Nat.min vertexCount (vb_size vertexBuffer - firstVertex))))
              w')) →
  drawable_buffer env vertexBuffer firstVertex vertexCount →
  P w →
  R (RenderTarget.draw_VertexBuffer_range env this vertexBuffer firstVertex vertexCount
       states w).2.
Proof.
  intros Ha Hg Htransform Hview Hblend Hdraw (Hav & Hfirst & Hn & Hb & Hq) Hw.
  unfold RenderTarget.draw_VertexBuffer_range, RenderTarget.isActive_or_setActive.
  apply Nat.eqb_neq in Hn. apply N.eqb_neq in Hb.
  apply Nat.ltb_ge in Hfirst.
  rewrite Hav, Hfirst. cbv zeta. rewrite Hn, Hb, Hq, Ha. cbn [negb orb].
  cbv beta iota.
  match goal with
  | |- context [RenderTarget.setupDraw ?e ?t0 ?c ?s ?x] =>
      open_with Q (RenderTarget.setupDraw e t0 c s x)
        ltac:(apply fixed_setupDraw; assumption)
  end.
  match goal with
  | |- context [RenderTarget.cleanupDraw ?e ?t0 ?s ?x] =>
      open_with R (RenderTarget.cleanupDraw e t0 s x)
        ltac:(apply (inv_cleanupDraw env (IR := IR)); auto; rewrite fixed; walk)
  end.
  cbn [snd]. exact HP0.
Qed.

End FixedPipeline.

Lemma matrix_since_calls w0 X w w' l :
  calls w' = calls w ++ l →
  matrix_since w0 X w → matrix_since w0 (X ++ List.filter is_matrix_call l) w'.
Proof.
  intros Hl (l0 & H0 & HX). exists (l0 ++ l). split.
  - rewrite Hl, H0, app_assoc. reflexivity.
  - rewrite List.filter_app, HX. reflexivity.
Qed.

Lemma matrix_since_same w0 X w w' l :
  calls w' = calls w ++ l → List.filter is_matrix_call l = [] →
  matrix_since w0 X w → matrix_since w0 X w'.
Proof.
  intros Hl Hm Hw. rewrite <- (app_nil_r X), <- Hm. eapply matrix_since_calls; eauto.
Qed.

#[local] Instance matrix_since_Inv w0 X : Inv (matrix_since w0 X).
Proof.
  refine (mkInv _ (λ _, True) _ _ _ _ _ _ _ _); intros; try assumption.
  eapply matrix_since_same; [| |eassumption]; [reflexivity|].
  cbn. unfold is_matrix_call. rewrite H. reflexivity.
Defined.

Lemma matrix_since_blend_step env w0 X (t : RenderTarget) states w :
  matrix_since w0 X w → matrix_since w0 X (blend_step env t states w).2.
Proof.
  unfold blend_step. destruct (_ || _); [|auto].
  destruct (applyBlendMode_frame env t (blendMode states) w) as (Hc & _).
  apply matrix_since_same with (1 := Hc). apply blend_calls_quiet.
Qed.

Lemma matrix_since_transform_step env w0 X (t : RenderTarget) (cached : bool) states w :
  SFML_OPENGL_ES env = false → enable (m_cache t) = true →
  matrix_since w0 X w →
  matrix_since w0
    (X ++ if cached then if useVertexCache (m_cache t) then [] else [GL.glLoadIdentity]
          else [load_transform env (transform states)])
    (transform_step env DefaultShader t cached states w).
Proof.
  intros Hes He Hw. unfold transform_step, RenderTarget.applyTransform, load_transform,
    m_cache_useVertexCache.
  rewrite Hes, He. cbn [negb orb].
  destruct cached; [destruct (useVertexCache (m_cache t))|destruct (Transform_eq _ _ _)];
    cbn [negb].
  - rewrite app_nil_r. exact Hw.
  - apply (matrix_since_calls w0 X w _ [GL.glLoadIdentity]); [reflexivity|exact Hw].
  - apply (matrix_since_calls w0 X w _ [GL.glLoadIdentity]); [reflexivity|exact Hw].
  - apply (matrix_since_calls w0 X w _ [GL.glLoadMatrixf (getMatrix (transform states))]);
      [reflexivity|exact Hw].
Qed.

Lemma matrix_since_view_step env w0 X (t : RenderTarget) w :
  SFML_OPENGL_ES env = false → enable (m_cache t) = true →
  matrix_since w0 X w →
  matrix_since w0
    (X ++ if viewChanged (m_cache t) then load_projection (m_view t) else [])
    (view_step env DefaultShader t w).2.
Proof.
  intros Hes He Hw. unfold view_step, RenderTarget.applyCurrentView, load_projection.
  rewrite Hes, He. cbn [negb orb].
  destruct (viewChanged (m_cache t)); cbv zeta; cbn [snd].
  - match goal with
    | |- context [glCheck _ (glCheck _ (glCheck _ (glCheck ?c w)))] =>
        apply (matrix_since_calls w0 X w _
                 (c :: load_projection (m_view t)));
          [rewrite !calls_glCheck, <- !app_assoc; reflexivity|exact Hw]
    end.
  - rewrite app_nil_r. exact Hw.
Qed.

Lemma run_draw_cache env (this : RenderTarget) d w :
  performed env d →
  let t := (run_draw env this d w).1 in
  useVertexCache (m_cache t) = cached_draw env d
  ∧ (SFML_OPENGL_ES env = false → viewChanged (m_cache t) = false).
Proof.
  destruct d as [[vs|] n ty st|vb f n st];
    cbn [performed run_draw draw_states cached_draw]; intros Hd.
  - pose proof (draw_fst env this vs n ty st w Hd) as H1.
    pose proof (draw_cache env this vs n ty st w Hd) as H2. cbv zeta in *. tauto.
  - destruct Hd as ([? [=]] & _).
  - pose proof (draw_VertexBuffer_range_fst env this vb f n st w Hd) as H1.
    pose proof (draw_VertexBuffer_range_cache env this vb f n st w Hd) as H2.
    cbv zeta in *. tauto.
Qed.

Lemma run_draw_matrices env (this : RenderTarget) d w :
  SFML_OPENGL_ES env = false → performed env d →
  RenderTargetImpl.isActive (m_id this) w = true →
  enable (m_cache this) = true → glStatesSet (m_cache this) = true →
  matrix_since w
    ((if cached_draw env d
      then if useVertexCache (m_cache this) then [] else [GL.glLoadIdentity]
      else [load_transform env (transform (draw_states d))])
     ++ if viewChanged (m_cache this) then load_projection (m_view this) else [])
    (run_draw env this d w).2.
Proof.
  intros Hes Hd Ha He Hg.
  assert (matrix_since w [] w) as Hw by (exists []; rewrite app_nil_r; auto).
  set (T := if cached_draw env d
            then if useVertexCache (m_cache this) then [] else [GL.glLoadIdentity]
            else [load_transform env (transform (draw_states d))]).
  set (V := if viewChanged (m_cache this) then load_projection (m_view this) else []).
  destruct d as [vs n ty st|vb f n st];
    cbn [performed run_draw draw_states cached_draw] in *.
  - apply (fixed_draw env (P := matrix_since w []) (P1 := matrix_since w T)
             (P2 := matrix_since w (T ++ V)) (Q := matrix_since w (T ++ V))
             (IP := matrix_since_Inv w []) (IQ := matrix_since_Inv w (T ++ V))
             (IR := matrix_since_Inv w (T ++ V)) st Hes I I this vs n ty w);
      try assumption.
    + intros w' Hw'. apply (matrix_since_transform_step env w [] this _ st w' Hes He Hw').
    + intros w' Hw'. apply (matrix_since_view_step env w T this w' Hes He Hw').
    + intros t' w'. apply matrix_since_blend_step.
    + intros w'. eapply matrix_since_same; reflexivity.
  - apply (fixed_draw_VertexBuffer_range env (P := matrix_since w [])
             (P1 := matrix_since w T)
             (P2 := matrix_since w (T ++ V)) (Q := matrix_since w (T ++ V))
             (IP := matrix_since_Inv w []) (IQ := matrix_since_Inv w (T ++ V))
             (IR := matrix_since_Inv w (T ++ V)) st Hes I I this vb f n w);
      try assumption.
    + intros w' Hw'. exact (matrix_since_transform_step env w [] this false st w' Hes He Hw').
    + intros w' Hw'. apply (matrix_since_view_step env w T this w' Hes He Hw').
    + intros t' w'. apply matrix_since_blend_step.
    + intros w'. eapply matrix_since_same; reflexivity.
Qed.

(** X14: on the fixed pipeline, the matrix calls of a drawing operation that
    follows another one on the same target.  The projection matrix is loaded
    only when [setView] was called in between.  The model-view matrix is not
    touched when both operations use the vertex cache, is reset to the
    identity when only the second one does, and is loaded with the transform
    of the states otherwise. *)
Theorem matrices_are_memoized env (this : RenderTarget) (first second : DrawCall)
    (change : option View) (w : World) :
  SFML_OPENGL_ES env = false → performed env first → performed env second →
  let '(t1, w1) := run_draw env this first w in
  let target := from_option (RenderTarget.setView t1) t1 change in
  let '(t2, w2) := run_draw env target second w1 in
  ∃ issued,
    calls w2 = calls w1 ++ issued
    ∧ List.filter is_matrix_call issued
      = (if cached_draw env second
         then if cached_draw env first then [] else [GL.glLoadIdentity]
         else [load_transform env (transform (draw_states second))])
        ++ match change with Some view => load_projection view | None => [] end.
Proof.
  intros Hes H1 H2.
  pose proof (run_draw_fst env this first w H1) as Hf. cbv zeta in Hf.
  pose proof (run_draw_cache env this first w H1) as Hc. cbv zeta in Hc.
  pose proof (run_draw_active env this first w H1) as Ha.
  destruct (run_draw env this first w) as [t1 w1]. cbn [fst snd] in Hf, Hc, Ha.
  destruct Hf as (He & Hg & _ & Hid), Hc as (Hu & Hv). specialize (Hv Hes).
  rewrite <- Hid in Ha.
  cbv zeta. set (target := from_option (RenderTarget.setView t1) t1 change).
  pose proof (run_draw_matrices env target second w1 Hes H2) as Hm.
  destruct (run_draw env target second w1) as [t2 w2]. cbn [snd] in Hm.
  subst target. destruct change as [view|]; cbn [from_option] in Hm.
  - specialize (Hm Ha He Hg). cbn in Hm. rewrite Hu in Hm. exact Hm.
  - specialize (Hm Ha He Hg). rewrite Hu, Hv in Hm. exact Hm.
Qed.

Lemma matrices_are_memoized_witness :
  let env := example_env false true 8 in
  let this := (example_targets env).1.2 in
  let w := (example_targets env).2 in
  let change := Some example_view in
  SFML_OPENGL_ES env = false
  ∧ performed env example_triangle
  ∧ performed env example_buffer_draw
  ∧ (let '(t1, w1) := run_draw env this example_triangle w in
     let target := from_option (RenderTarget.setView t1) t1 change in
     let '(t2, w2) := run_draw env target example_buffer_draw w1 in
     ∃ issued,
       calls w2 = calls w1 ++ issued
       ∧ List.filter is_matrix_call issued
         = (if cached_draw env example_buffer_draw
            then if cached_draw env example_triangle then [] else [GL.glLoadIdentity]
            else [load_transform env (transform (draw_states example_buffer_draw))])
           ++ match change with Some view => load_projection view | None => [] end).
Proof.
  intros env this w change.
  assert (SFML_OPENGL_ES env = false) as H0 by reflexivity.
  assert (performed env example_triangle) as H1
    by (split; [eexists; reflexivity|split; [discriminate|reflexivity]]).
  assert (performed env example_buffer_draw) as H2
    by (repeat split; [vm_compute; lia|discriminate|discriminate]).
  split; [exact H0|]. split; [exact H1|]. split; [exact H2|].
  exact (matrices_are_memoized env this example_triangle example_buffer_draw change w
           H0 H1 H2).
Defined.

(** ** The draw that follows a switch of the target of a context *)







(** ** The built-in shaders, and the program a draw leaves in use *)

Lemma compile_stage_statics env ty code shaderProgram w :
  let w' := (Shader.compile_stage env ty code shaderProgram w).2 in
  getDefaultShader_first w' = getDefaultShader_first w
  ∧ getDefaultShader_instance w' = getDefaultShader_instance w
  ∧ getDefaultTexShader_first w' = getDefaultTexShader_first w
  ∧ getDefaultTexShader_instance w' = getDefaultTexShader_instance w.
Proof.
  unfold Shader.compile_stage. destruct code as [code|]; [|cbn; auto].
  cbv zeta. destruct (compile_status env ty code); cbn; auto.
Qed.

Lemma isAvailable_statics env w :
  let w' := (Shader.isAvailable env w).2 in
  getDefaultShader_first w' = getDefaultShader_first w
  ∧ getDefaultShader_instance w' = getDefaultShader_instance w
  ∧ getDefaultTexShader_first w' = getDefaultTexShader_first w
  ∧ getDefaultTexShader_instance w' = getDefaultTexShader_instance w.
Proof.
  cbv zeta. rewrite isAvailable_snd. destruct (isAvailable_checked w); cbn; auto.
Qed.

Lemma geometry_check_statics env g w :
  let w' := geometry_check env g w in
  getDefaultShader_first w' = getDefaultShader_first w
  ∧ getDefaultShader_instance w' = getDefaultShader_instance w
  ∧ getDefaultTexShader_first w' = getDefaultTexShader_first w
  ∧ getDefaultTexShader_instance w' = getDefaultTexShader_instance w.
Proof.
  cbv zeta. destruct g as [code|]; cbn [geometry_check]; [|auto].
  rewrite isGeometryAvailable_snd. destruct (isGeometryAvailable_checked w); [auto|].
  cbv zeta. destruct (SFML_OPENGL_ES env); [cbn; auto|].
  match goal with
  | |- context [Shader.isAvailable env ?x] =>
      pose proof (isAvailable_statics env x) as (-> & -> & -> & ->)
  end.
  cbn; auto.
Qed.

Lemma compile_statics env (this : Shader) v g f w :
  let w' := (Shader.compile env this v g f w).2 in
  getDefaultShader_first w' = getDefaultShader_first w
  ∧ getDefaultShader_instance w' = getDefaultShader_instance w
  ∧ getDefaultTexShader_first w' = getDefaultTexShader_first w
  ∧ getDefaultTexShader_instance w' = getDefaultTexShader_instance w.
Proof.
  enter_compile. cbv zeta.
  pose proof (isAvailable_statics env w) as (<- & <- & <- & <-).
  generalize (Shader.isAvailable env w).2. clear w. intros w.
  destruct (negb (Shader.available env)); [cbn; auto|].
  pose proof (geometry_check_statics env g w) as (<- & <- & <- & <-).
  generalize (geometry_check env g w). clear w. intros w.
  destruct (_ && _); [cbn; auto|].
  match goal with
  | |- context [match ?X with (_, _) => _ end] =>
      assert (getDefaultShader_first X.2 = getDefaultShader_first w
              ∧ getDefaultShader_instance X.2 = getDefaultShader_instance w
              ∧ getDefaultTexShader_first X.2 = getDefaultTexShader_first w
              ∧ getDefaultTexShader_instance X.2 = getDefaultTexShader_instance w) as H0
        by (destruct (_ =? _)%N; cbn; auto);
      destruct X as [this0 w0]
  end.
  cbn [snd] in H0. destruct H0 as (<- & <- & <- & <-).
  repeat match goal with
         | |- context [Shader.compile_stage ?e ?ty ?c ?p ?x] =>
             let H := fresh "H" in
             pose proof (compile_stage_statics e ty c p x) as H; cbv zeta in H;
             destruct (Shader.compile_stage e ty c p x) as [[] ?]; cbn [snd negb] in *;
             destruct H as (? & ? & ? & ?)
         end.
  all: try (cbn in *; repeat split; congruence).
  all: destruct (link_status _ _ _ _); cbn in *; repeat split; congruence.
Qed.

(** X15: each built-in shader is compiled on the first call of its accessor
    and never again, whether that compilation succeeded or not: further
    calls change nothing.  The first call creates one program when shaders
    are available and none otherwise, deletes every shader object it
    creates, and leaves the other built-in shader alone. *)
Theorem built_in_shader_compiled_once env (b : BuiltIn) (w : World) (n : nat) :
  let w1 := built_in env b w in
  Nat.iter n (built_in env b) w1 = w1
  ∧ (∀ b', b' ≠ b →
           built_in_first b' w1 = built_in_first b' w
           ∧ built_in_instance b' w1 = built_in_instance b' w)
  ∧ ∃ issued,
      calls w1 = calls w ++ issued
      ∧ count is_create_program issued
        = (if built_in_first b w && Shader.available env then 1 else 0)%nat
      ∧ count is_create_shader issued = count is_delete_shader issued
      ∧ (built_in_first b w = false → w1 = w).
Proof.
  intros w1.
  assert (built_in_first b w1 = false) as Hfirst.
  { subst w1. destruct b; cbn [built_in built_in_first];
      unfold Shader.getDefaultShader, Shader.getDefaultTexShader.
    - destruct (getDefaultShader_first w) eqn:E; [|exact E].
      destruct (Shader.loadFromMemory _ _ _ _ _) as [[ok s] w']. reflexivity.
    - destruct (getDefaultTexShader_first w) eqn:E; [|exact E].
      destruct (Shader.loadFromMemory _ _ _ _ _) as [[ok s] w']. reflexivity. }
  split; [|split].
  - induction n as [|n IH]; [reflexivity|].
    change (Nat.iter (S n) (built_in env b) w1)
      with (built_in env b (Nat.iter n (built_in env b) w1)).
    rewrite IH. clear IH. destruct b; cbn [built_in built_in_first] in *.
    + unfold Shader.getDefaultShader at 1. rewrite Hfirst. reflexivity.
    + unfold Shader.getDefaultTexShader at 1. rewrite Hfirst. reflexivity.
  - intros b' Hb. subst w1.
    destruct b, b'; try congruence; cbn [built_in built_in_first built_in_instance];
      unfold Shader.getDefaultShader, Shader.getDefaultTexShader, Shader.loadFromMemory.
    + destruct (getDefaultShader_first w); [|auto].
      match goal with
      | |- context [Shader.compile ?e ?t ?v ?g ?f ?x] =>
          pose proof (compile_statics e t v g f x) as H; cbv zeta in H;
          destruct (Shader.compile e t v g f x) as [[ok s] w']
      end.
      cbn in *. tauto.
    + destruct (getDefaultTexShader_first w); [|auto].
      match goal with
      | |- context [Shader.compile ?e ?t ?v ?g ?f ?x] =>
          pose proof (compile_statics e t v g f x) as H; cbv zeta in H;
          destruct (Shader.compile e t v g f x) as [[ok s] w']
      end.
      cbn in *. tauto.
  - subst w1. clear Hfirst.
    destruct b; cbn [built_in built_in_first];
      unfold Shader.getDefaultShader, Shader.getDefaultTexShader, Shader.loadFromMemory.
    all: match goal with
         | |- context [calls (if ?c then _ else _)] => destruct c
         end; [|exists []; rewrite app_nil_r; auto].
    all: match goal with
         | |- context [Shader.compile ?e ?t ?v ?g ?f ?x] =>
             pose proof (compile_balance e t v g f x) as H; cbv zeta in H;
             destruct (Shader.compile e t v g f x) as [[ok s] w']
         end.
    all: cbn [fst snd] in H; destruct H as (l & Hl & Hs & H).
    all: destruct (compile_checks_frame env None w) as (_ & checks & Hchecks & Hinit & _).
    all: cbv zeta in Hchecks; exists (checks ++ l).
    all: rewrite !count_app, !(count_initialization_only _ checks)
           by (reflexivity || exact Hinit).
    all: cbn [andb Nat.add]; unfold refused in H; cbn [bool_decide] in H.
    all: split; [rewrite app_assoc, <- Hchecks; exact Hl|].
    all: split; [|split; [exact Hs|discriminate]].
    all: destruct (Shader.available env); cbn in H; [tauto|].
    all: destruct H as (-> & _); reflexivity.
Qed.

Lemma cleanupDraw_program env (t : RenderTarget) states w :
  Shader.available env = true →
  SFML_OPENGL_ES env = true ∨ is_Some (shader states) →
  current_program (RenderTarget.cleanupDraw env t states w).2 = 0%N.
Proof.
  intros Hav Hs. unfold RenderTarget.cleanupDraw.
  assert (current_program (RenderTarget.applyShader env None w) = 0%N) as Hunbind.
  { unfold RenderTarget.applyShader, Shader.bind.
    rewrite isAvailable_eta. cbv beta iota. rewrite Hav. reflexivity. }
  assert (∀ x, current_program x = 0%N →
               current_program
                 (let '(_, w0) :=
                    match texture states with
                    | Some tx =>
                        if m_fboAttachment tx then RenderTarget.applyTexture t None x
                        else (t, x)
                    | None => (t, x)
                    end in w0) = 0%N) as Htex.
  { intros x Hx. destruct (texture states) as [tx|]; [destruct (m_fboAttachment tx)|];
      cbn; exact Hx. }
  cbv zeta.
  destruct (SFML_OPENGL_ES env).
  - match goal with
    | |- context [match ?X with (_, _) => _ end] =>
        specialize (Htex _ Hunbind); destruct X as [t' w']
    end.
    cbn [snd]. exact Htex.
  - destruct Hs as [Hs|[address Hs]]; [discriminate|]. rewrite Hs.
    match goal with
    | |- context [match ?X with (_, _) => _ end] =>
        specialize (Htex _ Hunbind); destruct X as [t' w']
    end.
    cbn [snd]. exact Htex.
Qed.

(** X16: when shaders are available, a drawing operation that passes the
    early returns leaves no program in use on OpenGL ES, and on the fixed
    pipeline when the render states name a shader. *)
Theorem draw_leaves_no_program env (this : RenderTarget) (d : DrawCall) (w : World) :
  performed env d →
  Shader.available env = true →
  SFML_OPENGL_ES env = true ∨ is_Some (shader (draw_states d)) →
  current_program (run_draw env this d w).2 = 0%N.
Proof.
  intros Hd Hav Hs.
  destruct d as [[vs|] n ty st|vb f n st]; cbn [performed run_draw draw_states] in *.
  - destruct Hd as (_ & Hn & Hq). unfold RenderTarget.draw.
    apply Nat.eqb_neq in Hn. rewrite Hn, Hq. cbv zeta.
    pose proof (isActive_or_setActive_fst this w) as Ha. cbv zeta in Ha.
    destruct (RenderTarget.isActive_or_setActive this w) as [[ok t1] w1].
    cbn [fst snd] in Ha. destruct Ha as (-> & _). cbn [negb].
    destruct (RenderTarget.setupDraw _ _ _ _ _) as [t2 w2].
    match goal with
    | |- context [RenderTarget.cleanupDraw ?e ?t ?s ?x] =>
        pose proof (cleanupDraw_program e t s x Hav Hs) as Hc;
        destruct (RenderTarget.cleanupDraw e t s x) as [t3 w3]
    end.
    exact Hc.
  - destruct Hd as ([? [=]] & _).
  - destruct Hd as (Hvb & Hfirst & Hn & Hb & Hq).
    unfold RenderTarget.draw_VertexBuffer_range.
    apply Nat.eqb_neq in Hn. apply N.eqb_neq in Hb. apply Nat.ltb_ge in Hfirst.
    rewrite Hvb, Hfirst. cbv zeta. rewrite Hn, Hb, Hq. cbn [negb orb].
    pose proof (isActive_or_setActive_fst this w) as Ha. cbv zeta in Ha.
    destruct (RenderTarget.isActive_or_setActive this w) as [[ok t1] w1].
    cbn [fst snd] in Ha. destruct Ha as (-> & _). cbn [negb].
    destruct (RenderTarget.setupDraw _ _ _ _ _) as [t2 w2].
    match goal with
    | |- context [RenderTarget.cleanupDraw ?e ?t ?s ?x] =>
        pose proof (cleanupDraw_program e t s x Hav Hs) as Hc;
        destruct (RenderTarget.cleanupDraw e t s x) as [t3 w3]
    end.
    exact Hc.
Qed.

Lemma draw_leaves_no_program_witness :
  let env := example_env true true 8 in
  let this := (example_targets env).1.2 in
  let w := (example_targets env).2 in
  performed env example_triangle
  ∧ Shader.available env = true
  ∧ (SFML_OPENGL_ES env = true ∨ is_Some (shader (draw_states example_triangle)))
  ∧ current_program (run_draw env this example_triangle w).2 = 0%N.
Proof.
  intros env this w.
  assert (performed env example_triangle) as H1
    by (split; [eexists; reflexivity|split; [discriminate|reflexivity]]).
  assert (Shader.available env = true) as H2 by reflexivity.
  assert (SFML_OPENGL_ES env = true ∨ is_Some (shader (draw_states example_triangle)))
    as H3 by (left; reflexivity).
  split; [exact H1|]. split; [exact H2|]. split; [exact H3|].
  exact (draw_leaves_no_program env this example_triangle w H1 H2 H3).
Defined.
